(** * Rep counter: a shallow embedding of [rep_counter.py]

    The class [RepCounter] turns a stream of joint angles (one per arm and
    frame) into counted repetitions and a feedback string.  Its methods
    mutate three objects: the counter itself ([self]), the per-arm
    [metrics] record and the [history] record, both handed in by the caller.
    Here every method is a function from the objects it reads to the
    objects it writes.

    Numbers.  Angles and timestamps are Python numbers; they are embedded as
    rationals [Q] with exact arithmetic, comparisons as the boolean tests of
    [QArith].  Rounding of binary floating point is not modelled.

    Randomness.  [random.choice] reads the interpreter's global generator.
    The embedding hands the index drawn to the method as an explicit
    argument [draw]. *)

From Stdlib Require Import QArith Qabs Lqa ZArith List String Bool Lia.
Import ListNotations.
Local Open Scope Q_scope.

(** ** Python primitives used by the module *)

(** [a < b] on numbers. *)
Definition Qltb (a b : Q) : bool := negb (Qle_bool b a).

(** [a >= b] on numbers. *)
Definition Qgeb (a b : Q) : bool := Qle_bool b a.

(** [a > b] on numbers. *)
Definition Qgtb (a b : Q) : bool := Qltb b a.

(** The builtin [min(a, b)]: the first argument unless the second is
    strictly smaller. *)
Definition py_min (a b : Q) : Q := if Qltb b a then b else a.

(** [l[-k]] for [1 <= k <= len(l)]. *)
Definition neg_index (l : list Q) (k : nat) : Q := nth (List.length l - k)%nat l 0.

(** [deque(maxlen=n).append(x)]: push on the right, drop from the left
    what exceeds [n]. *)
Definition deque_append (maxlen : nat) (d : list Q) (x : Q) : list Q :=
  let d' := d ++ [x] in skipn (List.length d' - maxlen)%nat d'.

(** [random.choice(l)] with the index drawn made explicit. *)
Definition random_choice (draw : nat) (l : list string) : string :=
  nth (draw mod List.length l)%nat l EmptyString.

(** ** Data *)

(** Modelled from the spec: the enumeration [ArmStage] of [constants.py],
    which is not among the sources.  The four stages are the ones the
    module names; [OTHER] stands for any further value [metrics.stage] may
    hold, which [_determine_target_state] hands back unchanged. *)
Inductive ArmStage : Type := UP | DOWN | MOVING_UP | MOVING_DOWN | OTHER.

Definition stage_eqb (a b : ArmStage) : bool :=
  match a, b with
  | UP, UP | DOWN, DOWN | MOVING_UP, MOVING_UP
  | MOVING_DOWN, MOVING_DOWN | OTHER, OTHER => true
  | _, _ => false
  end.

(** [x in [s1, s2]]. *)
Definition stage_in (x : ArmStage) (l : list ArmStage) : bool :=
  existsb (stage_eqb x) l.

(** [pending_state[arm] == target_state], where the left side may be [None]. *)
Definition pending_is (p : option ArmStage) (t : ArmStage) : bool :=
  match p with Some s => stage_eqb s t | None => false end.

(** The keys of the per-arm dictionaries. *)
Inductive Arm : Type := RIGHT | LEFT.

(** A dictionary with exactly the keys ['RIGHT'] and ['LEFT']. *)
Record PerArm (T : Type) : Type := mkPerArm { at_right : T; at_left : T }.
Arguments mkPerArm {T}.
Arguments at_right {T}.
Arguments at_left {T}.

Definition get {T} (d : PerArm T) (arm : Arm) : T :=
  match arm with RIGHT => at_right d | LEFT => at_left d end.

Definition set {T} (d : PerArm T) (arm : Arm) (v : T) : PerArm T :=
  match arm with
  | RIGHT => mkPerArm v (at_left d)
  | LEFT => mkPerArm (at_right d) v
  end.

Record Calibration : Type := mkCalibration {
  contracted_threshold : Q;
  extended_threshold : Q
}.

(** Modelled from the spec: the per-arm metrics record, whose class is not
    among the sources; the fields are the attributes the module reads and
    writes. *)
Record Metrics : Type := mkMetrics {
  angle : Q;
  stage : ArmStage;
  rep_count : Z;
  rep_time : Q;
  min_rep_time : Q;
  curr_rep_time : Q;
  last_down_time : Q;
  feedback : string
}.

(** Modelled from the spec: the history record, whose class is not among
    the sources.  The module touches it only through the attribute named
    [f"{arm.lower()}_feedback_count"], so it has one counter per arm. *)
Record History : Type := mkHistory {
  right_feedback_count : Z;
  left_feedback_count : Z
}.

(** [getattr(history, feedback_key)] *)
Definition getattr_feedback_count (history : History) (arm : Arm) : Z :=
  match arm with
  | RIGHT => right_feedback_count history
  | LEFT => left_feedback_count history
  end.

(** [setattr(history, feedback_key, v)] *)
Definition setattr_feedback_count (history : History) (arm : Arm) (v : Z) : History :=
  match arm with
  | RIGHT => mkHistory v (left_feedback_count history)
  | LEFT => mkHistory (right_feedback_count history) v
  end.

(** The attributes of a [RepCounter] instance. *)
Record RepCounter : Type := mkRepCounter {
  calibration : Calibration;
  min_rep_duration : Q;
  angle_history : PerArm (list Q);
  state_hold_time : Q;
  pending_state : PerArm (option ArmStage);
  pending_state_start : PerArm Q;
  rep_start_time : PerArm Q;
  last_rep_time : PerArm Q;
  current_compliment : PerArm string;
  compliments : list string;
  hysteresis_margin : Q
}.

(** *** Attribute assignment *)

Definition set_angle (m : Metrics) (v : Q) : Metrics :=
  mkMetrics v (stage m) (rep_count m) (rep_time m) (min_rep_time m)
            (curr_rep_time m) (last_down_time m) (feedback m).
Definition set_stage (m : Metrics) (v : ArmStage) : Metrics :=
  mkMetrics (angle m) v (rep_count m) (rep_time m) (min_rep_time m)
            (curr_rep_time m) (last_down_time m) (feedback m).
Definition set_rep_count (m : Metrics) (v : Z) : Metrics :=
  mkMetrics (angle m) (stage m) v (rep_time m) (min_rep_time m)
            (curr_rep_time m) (last_down_time m) (feedback m).
Definition set_rep_time (m : Metrics) (v : Q) : Metrics :=
  mkMetrics (angle m) (stage m) (rep_count m) v (min_rep_time m)
            (curr_rep_time m) (last_down_time m) (feedback m).
Definition set_min_rep_time (m : Metrics) (v : Q) : Metrics :=
  mkMetrics (angle m) (stage m) (rep_count m) (rep_time m) v
            (curr_rep_time m) (last_down_time m) (feedback m).
Definition set_curr_rep_time (m : Metrics) (v : Q) : Metrics :=
  mkMetrics (angle m) (stage m) (rep_count m) (rep_time m) (min_rep_time m)
            v (last_down_time m) (feedback m).
Definition set_last_down_time (m : Metrics) (v : Q) : Metrics :=
  mkMetrics (angle m) (stage m) (rep_count m) (rep_time m) (min_rep_time m)
            (curr_rep_time m) v (feedback m).
Definition set_feedback (m : Metrics) (v : string) : Metrics :=
  mkMetrics (angle m) (stage m) (rep_count m) (rep_time m) (min_rep_time m)
            (curr_rep_time m) (last_down_time m) v.

Definition set_angle_history (s : RepCounter) (v : PerArm (list Q)) : RepCounter :=
  mkRepCounter (calibration s) (min_rep_duration s) v (state_hold_time s)
    (pending_state s) (pending_state_start s) (rep_start_time s)
    (last_rep_time s) (current_compliment s) (compliments s)
    (hysteresis_margin s).
Definition set_pending_state (s : RepCounter) (v : PerArm (option ArmStage)) : RepCounter :=
  mkRepCounter (calibration s) (min_rep_duration s) (angle_history s)
    (state_hold_time s) v (pending_state_start s) (rep_start_time s)
    (last_rep_time s) (current_compliment s) (compliments s)
    (hysteresis_margin s).
Definition set_pending_state_start (s : RepCounter) (v : PerArm Q) : RepCounter :=
  mkRepCounter (calibration s) (min_rep_duration s) (angle_history s)
    (state_hold_time s) (pending_state s) v (rep_start_time s)
    (last_rep_time s) (current_compliment s) (compliments s)
    (hysteresis_margin s).
Definition set_rep_start_time (s : RepCounter) (v : PerArm Q) : RepCounter :=
  mkRepCounter (calibration s) (min_rep_duration s) (angle_history s)
    (state_hold_time s) (pending_state s) (pending_state_start s) v
    (last_rep_time s) (current_compliment s) (compliments s)
    (hysteresis_margin s).
Definition set_last_rep_time (s : RepCounter) (v : PerArm Q) : RepCounter :=
  mkRepCounter (calibration s) (min_rep_duration s) (angle_history s)
    (state_hold_time s) (pending_state s) (pending_state_start s)
    (rep_start_time s) v (current_compliment s) (compliments s)
    (hysteresis_margin s).
Definition set_current_compliment (s : RepCounter) (v : PerArm string) : RepCounter :=
  mkRepCounter (calibration s) (min_rep_duration s) (angle_history s)
    (state_hold_time s) (pending_state s) (pending_state_start s)
    (rep_start_time s) (last_rep_time s) v (compliments s)
    (hysteresis_margin s).

(** ** The methods of [RepCounter] *)

(** [__init__(self, calibration_data, min_rep_duration=0.6)] *)
Definition __init__ (calibration_data : Calibration) (min_rep_duration : Q) : RepCounter :=
  {| calibration := calibration_data;
     min_rep_duration := min_rep_duration;
     angle_history := mkPerArm [] [];
     state_hold_time := 15 # 100;
     pending_state := mkPerArm None None;
     pending_state_start := mkPerArm 0 0;
     rep_start_time := mkPerArm 0 0;
     last_rep_time := mkPerArm 0 0;
     current_compliment := mkPerArm "Maintain Form"%string "Maintain Form"%string;
     compliments := [ "Looking Strong!"; "Great Control!"; "Perfect Form!";
                      "Keep Pushing!"; "Solid Rep!"; "Nice Pace!" ]%string;
     hysteresis_margin := 5 |}.

(** The default of the keyword argument [min_rep_duration]. *)
Definition default_min_rep_duration : Q := 6 # 10.

(** [_determine_target_state(self, angle, contracted, extended, current_stage)] *)
Definition _determine_target_state (self : RepCounter)
    (angle contracted extended : Q) (current_stage : ArmStage) : ArmStage :=
  let margin := hysteresis_margin self in
  if Qle_bool angle (contracted - margin) then UP
  else if Qgeb angle (extended + margin) then DOWN
  else match current_stage with
  | UP => if Qltb angle (contracted + margin) then UP else MOVING_DOWN
  | DOWN => if Qgtb angle (extended - margin) then DOWN else MOVING_UP
  | MOVING_UP =>
      if Qle_bool angle (contracted - margin) then UP
      else if Qgeb angle (extended + margin) then DOWN
      else MOVING_UP
  | MOVING_DOWN =>
      if Qgeb angle (extended + margin) then DOWN
      else if Qle_bool angle (contracted - margin) then UP
      else MOVING_DOWN
  | OTHER => current_stage
  end.

(** [_handle_state_transition(self, arm, prev_stage, new_stage, metrics,
    current_time, history)].  It writes [self] and [metrics]; [history] is
    passed but never used.  [draw] feeds [random.choice]. *)
Definition _handle_state_transition (draw : nat) (self : RepCounter) (arm : Arm)
    (prev_stage new_stage : ArmStage) (metrics : Metrics) (current_time : Q)
    : RepCounter * Metrics :=
  let metrics := set_stage metrics new_stage in
  if stage_eqb prev_stage UP then
    if stage_in new_stage [MOVING_DOWN; DOWN] then
      let rep_time := current_time - last_down_time metrics in
      if Qgeb rep_time (min_rep_duration self) then
        let metrics := set_rep_count metrics (rep_count metrics + 1)%Z in
        let metrics := set_rep_time metrics rep_time in
        let metrics :=
          if Qeq_bool (min_rep_time metrics) 0
          then set_min_rep_time metrics rep_time
          else set_min_rep_time metrics (py_min rep_time (min_rep_time metrics)) in
        let metrics := set_last_down_time metrics current_time in
        let metrics := set_curr_rep_time metrics 0 in
        let self := set_last_rep_time self (set (last_rep_time self) arm current_time) in
        let self := set_current_compliment self
                      (set (current_compliment self) arm
                           (random_choice draw (compliments self))) in
        (self, metrics)
      else (self, metrics)
    else (self, metrics)
  else if stage_eqb new_stage DOWN then
    (set_rep_start_time self (set (rep_start_time self) arm current_time), metrics)
  else if stage_eqb new_stage UP then
    if Qeq_bool (get (rep_start_time self) arm) 0
    then (set_rep_start_time self (set (rep_start_time self) arm current_time), metrics)
    else (self, metrics)
  else (self, metrics).

(** [history.X_feedback_count += 1], as the [setattr]/[getattr] pair. *)
Definition bump_feedback_count (history : History) (arm : Arm) : History :=
  setattr_feedback_count history arm (getattr_feedback_count history arm + 1)%Z.

(** [_provide_form_feedback(self, angle, metrics, contracted, extended, arm,
    history, velocity, current_time)].  It reads [self] and writes
    [metrics] and [history].  Each early [return] of the source is a branch
    here; [positive] is the code after the stall block (step 3), reached by
    every path that has not returned. *)
Definition _provide_form_feedback (self : RepCounter) (angle : Q)
    (metrics : Metrics) (contracted extended : Q) (arm : Arm)
    (history : History) (velocity current_time : Q) : Metrics * History :=
  if Qgtb angle 178 then
    (set_feedback metrics "Over Extending", bump_feedback_count history arm)
  else if Qltb angle 2 then
    (set_feedback metrics "Over Curling", bump_feedback_count history arm)
  else
    let is_stalled := Qltb velocity (5 # 10) in
    let positive :=
      if Qltb (current_time - get (last_rep_time self) arm) 2
      then (set_feedback metrics (get (current_compliment self) arm), history)
      else (set_feedback metrics "Maintain Form", history) in
    if is_stalled then
      if stage_in (stage metrics) [MOVING_UP; UP] then
        if Qgtb angle (contracted + 10)
        then (set_feedback metrics "Curl Higher", bump_feedback_count history arm)
        else positive
      else if stage_in (stage metrics) [MOVING_DOWN; DOWN] then
        if Qltb angle (extended - 10)
        then (set_feedback metrics "Extend Fully", bump_feedback_count history arm)
        else positive
      else positive
    else positive.

(** The velocity of lines 58-63: [None] when the buffer holds fewer than
    four samples (the early [return]). *)
Definition velocity_of (recent_angles : list Q) : option Q :=
  if (List.length recent_angles <? 4)%nat then None
  else Some (Qabs (neg_index recent_angles 1 - neg_index recent_angles 4) / 3).

(** The state confirmation block of [process_rep] (lines 76-91). *)
Definition confirm_state (draw : nat) (self : RepCounter) (arm : Arm)
    (prev_stage target_state : ArmStage) (velocity : Q) (metrics : Metrics)
    (current_time : Q) : RepCounter * Metrics :=
  if negb (stage_eqb target_state prev_stage) then
    if pending_is (get (pending_state self) arm) target_state then
      let hold_duration := current_time - get (pending_state_start self) arm in
      let velocity_settled := Qltb velocity 15 in
      if Qgeb hold_duration (state_hold_time self) && velocity_settled then
        _handle_state_transition draw self arm prev_stage target_state
                                 metrics current_time
      else (self, metrics)
    else
      let self := set_pending_state self (set (pending_state self) arm (Some target_state)) in
      let self := set_pending_state_start self
                    (set (pending_state_start self) arm current_time) in
      (self, metrics)
  else
    (set_pending_state self (set (pending_state self) arm None), metrics).

(** [process_rep], from line 65 to its end: what runs once the velocity
    is known. *)
Definition process_rep_classified (draw : nat) (self : RepCounter) (arm : Arm)
    (angle : Q) (metrics : Metrics) (current_time : Q) (history : History)
    (velocity : Q) : RepCounter * Metrics * History :=
  let prev_stage := stage metrics in
  let contracted := contracted_threshold (calibration self) in
  let extended := extended_threshold (calibration self) in
  let target_state :=
    _determine_target_state self angle contracted extended prev_stage in
  let '(self, metrics) :=
    confirm_state draw self arm prev_stage target_state velocity
                  metrics current_time in
  let metrics :=
    if stage_eqb (stage metrics) UP
    then set_curr_rep_time metrics (current_time - get (rep_start_time self) arm)
    else metrics in
  let '(metrics, history) :=
    _provide_form_feedback self angle metrics contracted extended arm
                           history velocity current_time in
  (self, metrics, history).

(** [process_rep(self, arm, angle, metrics, current_time, history)] *)
Definition process_rep (draw : nat) (self : RepCounter) (arm : Arm) (angle : Q)
    (metrics : Metrics) (current_time : Q) (history : History)
    : RepCounter * Metrics * History :=
  let metrics := set_angle metrics angle in
  let self := set_angle_history self
                (set (angle_history self) arm
                     (deque_append 8 (get (angle_history self) arm) angle)) in
  match velocity_of (get (angle_history self) arm) with
  | None => (self, metrics, history)
  | Some velocity =>
      process_rep_classified draw self arm angle metrics current_time
                             history velocity
  end.

(** [reset_arm(self, arm)] *)
Definition reset_arm (self : RepCounter) (arm : Arm) : RepCounter :=
  let self := set_angle_history self (set (angle_history self) arm []) in
  let self := set_pending_state self (set (pending_state self) arm None) in
  let self := set_pending_state_start self (set (pending_state_start self) arm 0) in
  set_rep_start_time self (set (rep_start_time self) arm 0).

(** ** A session: the counter together with the caller's records

    The caller keeps one metrics record per arm and one history record and
    passes them to every call. *)
Record Session : Type := mkSession {
  counter : RepCounter;
  arm_metrics : PerArm Metrics;
  history : History
}.

(** The calls a client can make on a live counter. *)
Inductive Call : Type :=
| ProcessRep (arm : Arm) (angle : Q) (current_time : Q)
| ResetArm (arm : Arm).

Definition step (draw : nat) (s : Session) (c : Call) : Session :=
  match c with
  | ProcessRep arm angle current_time =>
      let '(self, metrics, history) :=
        process_rep draw (counter s) arm angle (get (arm_metrics s) arm)
                    current_time (history s) in
      mkSession self (set (arm_metrics s) arm metrics) history
  | ResetArm arm => mkSession (reset_arm (counter s) arm) (arm_metrics s) (history s)
  end.

(** The draws left after the first call. *)
Definition later (draws : nat -> nat) : nat -> nat := fun i => draws (S i).

(** A run of calls; [draws i] is what the generator yields during call [i]. *)
Fixpoint run (draws : nat -> nat) (s : Session) (calls : list Call) : Session :=
  match calls with
  | [] => s
  | c :: calls => run (later draws) (step (draws O) s c) calls
  end.

(** Modelled from the spec: a metrics record as the caller creates it at
    session start (stage [DOWN], no rep counted, [0] in every timing
    field). *)
Definition fresh_metrics : Metrics :=
  mkMetrics 0 DOWN 0 0 0 0 0 "".

Definition fresh_session (calibration_data : Calibration) (min_rep_duration : Q) : Session :=
  mkSession (__init__ calibration_data min_rep_duration)
            (mkPerArm fresh_metrics fresh_metrics)
            (mkHistory 0 0).

(** The attributes a call never assigns. *)
Definition same_settings (a b : RepCounter) : Prop :=
  calibration a = calibration b /\
  min_rep_duration a = min_rep_duration b /\
  state_hold_time a = state_hold_time b /\
  compliments a = compliments b /\
  hysteresis_margin a = hysteresis_margin b.

(** The arm has stopped short of a calibrated end: velocity under 0.5 and
    either heading up and more than 10 degrees above the contracted
    threshold, or heading down and more than 10 degrees below the extended
    one. *)
Definition stalled_short (velocity angle contracted extended : Q)
    (st : ArmStage) : Prop :=
  velocity < 5 # 10 /\
  ((st = UP \/ st = MOVING_UP) /\ contracted + 10 < angle \/
   (st = DOWN \/ st = MOVING_DOWN) /\ angle < extended - 10).

(** ** Observing a run *)

(** The rep times counted for [arm] during a run, oldest first: a call
    counts a rep when it leaves [rep_count] larger than it found it, and the
    time of that rep is the [rep_time] it leaves. *)
Fixpoint counted_reps (draws : nat -> nat) (s : Session) (calls : list Call)
    (arm : Arm) : list Q :=
  match calls with
  | [] => []
  | c :: calls =>
      let s' := step (draws O) s c in
      (if (rep_count (get (arm_metrics s) arm)
             <? rep_count (get (arm_metrics s') arm))%Z
       then [rep_time (get (arm_metrics s') arm)] else [])
      ++ counted_reps (later draws) s' calls arm
  end.

(** [m] is a least element of [l]. *)
Definition is_minimum (m : Q) (l : list Q) : Prop :=
  In m l /\ forall r, In r l -> m <= r.

(** A counter without the compliments stored, a metrics record without
    its feedback. *)
Definition forget_compliment (self : RepCounter) : RepCounter :=
  set_current_compliment self (mkPerArm EmptyString EmptyString).

Definition forget_feedback (m : Metrics) : Metrics := set_feedback m EmptyString.

(** Two strings that are the same, or are both among [phrases]. *)
Definition alike (phrases : list string) (x y : string) : Prop :=
  x = y \/ In x phrases /\ In y phrases.

(** Two sessions that agree on everything but the compliment drawn: the
    counters but for the compliments stored, the history, and every field of
    the metrics but the feedback are equal; a stored compliment and a
    feedback string are the same in both, or a phrase of the fixed set in
    each. *)
Definition same_but_compliment (s1 s2 : Session) : Prop :=
  forget_compliment (counter s1) = forget_compliment (counter s2) /\
  history s1 = history s2 /\
  forall arm,
    forget_feedback (get (arm_metrics s1) arm)
      = forget_feedback (get (arm_metrics s2) arm) /\
    alike (compliments (counter s1))
          (get (current_compliment (counter s1)) arm)
          (get (current_compliment (counter s2)) arm) /\
    alike (compliments (counter s1))
          (feedback (get (arm_metrics s1) arm))
          (feedback (get (arm_metrics s2) arm)).

(** ** Sample runs *)

(** The thresholds of the spec's scenarios. *)
Definition scenario_calibration : Calibration := mkCalibration 40 160.

(** One full cycle on the right arm: four frames curled at 30 degrees and a
    fifth that commits UP, then four frames extended at 170 degrees, the
    last of which commits DOWN, 0.9 s after the start. *)
Definition one_rep_calls : list Call :=
  [ ProcessRep RIGHT 30 0; ProcessRep RIGHT 30 (1 # 10);
    ProcessRep RIGHT 30 (2 # 10); ProcessRep RIGHT 30 (3 # 10);
    ProcessRep RIGHT 30 (5 # 10);
    ProcessRep RIGHT 170 (6 # 10); ProcessRep RIGHT 170 (7 # 10);
    ProcessRep RIGHT 170 (8 # 10); ProcessRep RIGHT 170 (9 # 10) ].

(** The session just before the last call of [one_rep_calls]. *)
Definition before_rep (draws : nat -> nat) : Session :=
  run draws (fresh_session scenario_calibration default_min_rep_duration)
      (firstn 8 one_rep_calls).

(** Two cycles on a clock whose origin falls inside the session, for a
    counter built with [min_rep_duration = 0]: the first cycle closes at
    time 0, the second at 2.3. *)
Definition zero_length_rep_calls : list Call :=
  [ ProcessRep RIGHT 30 (-2); ProcessRep RIGHT 30 (-19 # 10);
    ProcessRep RIGHT 30 (-18 # 10); ProcessRep RIGHT 30 (-17 # 10);
    ProcessRep RIGHT 30 (-15 # 10);
    ProcessRep RIGHT 170 (-1); ProcessRep RIGHT 170 (-9 # 10);
    ProcessRep RIGHT 170 (-8 # 10); ProcessRep RIGHT 170 0;
    ProcessRep RIGHT 30 1; ProcessRep RIGHT 30 (11 # 10);
    ProcessRep RIGHT 30 (12 # 10); ProcessRep RIGHT 30 (13 # 10);
    ProcessRep RIGHT 170 2; ProcessRep RIGHT 170 (21 # 10);
    ProcessRep RIGHT 170 (22 # 10); ProcessRep RIGHT 170 (23 # 10) ].

(** The session after the fifth call of [one_rep_calls], which commits UP
    at 0.5. *)
Definition after_up : Session :=
  run (fun _ => O) (fresh_session scenario_calibration default_min_rep_duration)
      (firstn 5 one_rep_calls).

(** The session after the fourth call of [one_rep_calls]: UP is pending
    since 0.3. *)
Definition before_up : Session :=
  run (fun _ => O) (fresh_session scenario_calibration default_min_rep_duration)
      (firstn 4 one_rep_calls).

(** ** Notions used by the further properties *)

(** The stage changes [_determine_target_state] can ask for: out of UP to
    DOWN or MOVING_DOWN, out of DOWN to UP or MOVING_UP, out of any other
    stage to UP or DOWN. *)
Definition allowed_transition (a b : ArmStage) : bool :=
  match a, b with
  | UP, DOWN | UP, MOVING_DOWN
  | DOWN, UP | DOWN, MOVING_UP
  | MOVING_UP, UP | MOVING_UP, DOWN
  | MOVING_DOWN, UP | MOVING_DOWN, DOWN
  | OTHER, UP | OTHER, DOWN => true
  | _, _ => false
  end.

(** The timestamp a call carries. *)
Definition call_time (c : Call) : Q :=
  match c with
  | ProcessRep _ _ current_time => current_time
  | ResetArm _ => 0
  end.

(** The timestamps of the calls that counted a rep for [arm] during a run,
    oldest first. *)
Fixpoint counted_at (draws : nat -> nat) (s : Session) (calls : list Call)
    (arm : Arm) : list Q :=
  match calls with
  | [] => []
  | c :: calls =>
      let s' := step (draws O) s c in
      (if (rep_count (get (arm_metrics s) arm)
             <? rep_count (get (arm_metrics s') arm))%Z
       then [call_time c] else [])
      ++ counted_at (later draws) s' calls arm
  end.

(** Starting at [origin], each element of [l] is at least [d] after the one
    before it. *)
Fixpoint spaced (d origin : Q) (l : list Q) : Prop :=
  match l with
  | [] => True
  | t :: l => d <= t - origin /\ spaced d t l
  end.

(** The last element of [l], or [origin] when there is none. *)
Fixpoint last_or (origin : Q) (l : list Q) : Q :=
  match l with
  | [] => origin
  | t :: l => last_or t l
  end.

(** The strings [_provide_form_feedback] can write besides a compliment. *)
Definition fixed_feedback : list string :=
  [ "Over Extending"; "Over Curling"; "Curl Higher"; "Extend Fully";
    "Maintain Form" ]%string.

(** Every string the advisor of [self] can show. *)
Definition vocabulary (self : RepCounter) : list string :=
  fixed_feedback ++ compliments self.

(** Every call of the list that is made for [arm] carries an angle under
    [bound] (resp. over it). *)
Definition angles_below (arm : Arm) (bound : Q) (calls : list Call) : Prop :=
  Forall (fun c => match c with
                   | ProcessRep a angle _ => a = arm -> angle < bound
                   | ResetArm _ => True
                   end) calls.

Definition angles_above (arm : Arm) (bound : Q) (calls : list Call) : Prop :=
  Forall (fun c => match c with
                   | ProcessRep a angle _ => a = arm -> bound < angle
                   | ResetArm _ => True
                   end) calls.

(** [self] with the per-arm entries of [other] taken from [donor]. *)
Definition graft (other : Arm) (self donor : RepCounter) : RepCounter :=
  mkRepCounter (calibration self) (min_rep_duration self)
    (set (angle_history self) other (get (angle_history donor) other))
    (state_hold_time self)
    (set (pending_state self) other (get (pending_state donor) other))
    (set (pending_state_start self) other (get (pending_state_start donor) other))
    (set (rep_start_time self) other (get (rep_start_time donor) other))
    (set (last_rep_time self) other (get (last_rep_time donor) other))
    (set (current_compliment self) other (get (current_compliment donor) other))
    (compliments self) (hysteresis_margin self).

(** Two counters hold the same per-arm entries for [arm]. *)
Definition same_entries (arm : Arm) (a b : RepCounter) : Prop :=
  get (angle_history a) arm = get (angle_history b) arm /\
  get (pending_state a) arm = get (pending_state b) arm /\
  get (pending_state_start a) arm = get (pending_state_start b) arm /\
  get (rep_start_time a) arm = get (rep_start_time b) arm /\
  get (last_rep_time a) arm = get (last_rep_time b) arm /\
  get (current_compliment a) arm = get (current_compliment b) arm.

(** The timestamps of the calls that changed the stage of [arm] during a
    run, oldest first. *)
Fixpoint stage_changed_at (draws : nat -> nat) (s : Session) (calls : list Call)
    (arm : Arm) : list Q :=
  match calls with
  | [] => []
  | c :: calls =>
      let s' := step (draws O) s c in
      (if stage_eqb (stage (get (arm_metrics s) arm))
                    (stage (get (arm_metrics s') arm))
       then [] else [call_time c])
      ++ stage_changed_at (later draws) s' calls arm
  end.

(** The clock never runs backwards: the timestamps of the [process_rep]
    calls, in order, start at or after [t0] and never decrease. *)
Fixpoint nondecreasing (t0 : Q) (calls : list Call) : Prop :=
  match calls with
  | [] => True
  | ProcessRep _ _ t :: calls => t0 <= t /\ nondecreasing t calls
  | ResetArm _ :: calls => nondecreasing t0 calls
  end.

(** A candidate that differs from the committed stage of [arm] has been
    pending since [since] at the earliest. *)
Definition pending_not_before (since : Q) (arm : Arm) (self : RepCounter)
    (metrics : Metrics) : Prop :=
  forall p, get (pending_state self) arm = Some p -> p <> stage metrics ->
            since <= get (pending_state_start self) arm.

(** Every call of the list is a [process_rep] for [arm] with an angle over
    [bound]. *)
Definition held_over (arm : Arm) (bound : Q) (calls : list Call) : Prop :=
  Forall (fun c => match c with
                   | ProcessRep a angle _ => a = arm /\ bound < angle
                   | ResetArm _ => False
                   end) calls.

(** * Properties *)

(** ** Reflection of the numeric tests *)

Lemma Qle_bool_spec (a b : Q) : reflect (a <= b) (Qle_bool a b).
Proof.
  destruct (Qle_bool a b) eqn:E; constructor.
  - now apply Qle_bool_iff.
  - intros H. apply Qle_bool_iff in H. congruence.
Qed.

Lemma Qltb_spec (a b : Q) : reflect (a < b) (Qltb a b).
Proof.
  unfold Qltb. destruct (Qle_bool_spec b a); constructor; lra.
Qed.

Lemma Qgeb_spec (a b : Q) : reflect (b <= a) (Qgeb a b).
Proof. unfold Qgeb. apply Qle_bool_spec. Qed.

Lemma Qgtb_spec (a b : Q) : reflect (b < a) (Qgtb a b).
Proof. unfold Qgtb. apply Qltb_spec. Qed.

Lemma Qeq_bool_spec (a b : Q) : reflect (a == b) (Qeq_bool a b).
Proof.
  destruct (Qeq_bool a b) eqn:E; constructor.
  - now apply Qeq_bool_iff.
  - intros H. apply Qeq_bool_iff in H. congruence.
Qed.

Lemma stage_eqb_spec (a b : ArmStage) : reflect (a = b) (stage_eqb a b).
Proof. destruct a, b; constructor; congruence. Qed.

Lemma stage_eqb_refl (a : ArmStage) : stage_eqb a a = true.
Proof. now destruct a. Qed.

(** ** The attributes fixed at construction *)

Lemma handle_state_transition_settings draw self arm prev new metrics t :
  same_settings self (fst (_handle_state_transition draw self arm prev new metrics t)).
Proof.
  unfold _handle_state_transition.
  repeat match goal with |- context [if ?b then _ else _] => destruct b end;
    repeat split.
Qed.

Lemma confirm_state_settings draw self arm prev target v metrics t :
  same_settings self (fst (confirm_state draw self arm prev target v metrics t)).
Proof.
  unfold confirm_state.
  destruct (negb _); [ destruct (pending_is _ _); [ destruct (_ && _) | ] | ];
    try apply handle_state_transition_settings; repeat split.
Qed.

Lemma provide_form_feedback_frame self angle metrics c e arm history v t :
  fst (_provide_form_feedback self angle metrics c e arm history v t)
  = set_feedback metrics
      (feedback (fst (_provide_form_feedback self angle metrics c e arm history v t))).
Proof.
  unfold _provide_form_feedback.
  repeat match goal with |- context [if ?b then _ else _] => destruct b end;
    reflexivity.
Qed.

Lemma process_rep_classified_settings draw self arm angle metrics t history v :
  same_settings self
    (fst (fst (process_rep_classified draw self arm angle metrics t history v))).
Proof.
  unfold process_rep_classified.
  match goal with |- context [confirm_state ?d ?s ?a ?p ?tg ?v ?m ?t] =>
    pose proof (confirm_state_settings d s a p tg v m t) as H;
    destruct (confirm_state d s a p tg v m t) as [s1 m1] end.
  destruct (_provide_form_feedback _ _ _ _ _ _ _ _ _) as [m2 h2].
  exact H.
Qed.

Lemma process_rep_settings draw self arm angle metrics t history :
  same_settings self (fst (fst (process_rep draw self arm angle metrics t history))).
Proof.
  unfold process_rep.
  destruct (velocity_of _) as [v|]; [ | repeat split ].
  match goal with |- context [process_rep_classified ?d ?s ?a ?x ?m ?t ?h ?v] =>
    pose proof (process_rep_classified_settings d s a x m t h v) as H end.
  unfold same_settings in *. simpl in H. exact H.
Qed.

Lemma reset_arm_settings self arm : same_settings self (reset_arm self arm).
Proof. repeat split. Qed.

(** ** State Classifier: [_determine_target_state] *)

Section Classifier.
Variable self : RepCounter.
Variables angle contracted extended : Q.

Lemma target_up_bound current_stage :
  angle <= contracted - hysteresis_margin self ->
  _determine_target_state self angle contracted extended current_stage = UP.
Proof.
  unfold _determine_target_state. intros H.
  destruct (Qle_bool_spec angle (contracted - hysteresis_margin self)); tauto.
Qed.

Lemma target_down_bound current_stage :
  ~ angle <= contracted - hysteresis_margin self ->
  extended + hysteresis_margin self <= angle ->
  _determine_target_state self angle contracted extended current_stage = DOWN.
Proof.
  unfold _determine_target_state. intros H1 H2.
  destruct (Qle_bool_spec angle (contracted - hysteresis_margin self)); [ tauto | ].
  destruct (Qgeb_spec angle (extended + hysteresis_margin self)); tauto.
Qed.

Lemma target_between current_stage :
  ~ angle <= contracted - hysteresis_margin self ->
  ~ extended + hysteresis_margin self <= angle ->
  _determine_target_state self angle contracted extended current_stage =
    match current_stage with
    | UP => if Qltb angle (contracted + hysteresis_margin self) then UP else MOVING_DOWN
    | DOWN => if Qgtb angle (extended - hysteresis_margin self) then DOWN else MOVING_UP
    | other => other
    end.
Proof.
  unfold _determine_target_state. intros H1 H2.
  destruct (Qle_bool_spec angle (contracted - hysteresis_margin self)); [ tauto | ].
  destruct (Qgeb_spec angle (extended + hysteresis_margin self)); [ tauto | ].
  destruct current_stage; reflexivity.
Qed.

End Classifier.

(** C3.  With [m] the hysteresis margin, which is 5 in every counter built
    by the constructor and never reassigned, and for thresholds whose hard
    bounds do not overlap, [contracted - m < extended + m] (any calibration
    with [contracted <= extended] is one): for every current stage an angle
    at or below [contracted - m] yields UP and an angle at or above
    [extended + m] yields DOWN; otherwise the result is sticky: from UP it
    is UP while [angle < contracted + m] and MOVING_DOWN otherwise, from
    DOWN it is DOWN while [angle > extended - m] and MOVING_UP otherwise,
    from MOVING_UP and MOVING_DOWN it is the current stage. *)
Theorem determine_target_state_hysteresis :
  forall (self : RepCounter) (angle contracted extended : Q) (current_stage : ArmStage),
    let m := hysteresis_margin self in
    let target := _determine_target_state self angle contracted extended current_stage in
    contracted - m < extended + m ->
    (forall cal d, hysteresis_margin (__init__ cal d) = 5) /\
    (forall draw arm a metrics t history,
        hysteresis_margin (fst (fst (process_rep draw self arm a metrics t history))) = m) /\
    (forall arm, hysteresis_margin (reset_arm self arm) = m) /\
    (angle <= contracted - m -> target = UP) /\
    (extended + m <= angle -> target = DOWN) /\
    (contracted - m < angle -> angle < extended + m ->
       match current_stage with
       | UP => (angle < contracted + m -> target = UP) /\
               (contracted + m <= angle -> target = MOVING_DOWN)
       | DOWN => (extended - m < angle -> target = DOWN) /\
                 (angle <= extended - m -> target = MOVING_UP)
       | MOVING_UP => target = MOVING_UP
       | MOVING_DOWN => target = MOVING_DOWN
       | OTHER => target = OTHER
       end).
Proof.
  intros self angle contracted extended current_stage m target Hbands.
  split; [ reflexivity | ].
  split; [ intros; symmetry; apply process_rep_settings | ].
  split; [ reflexivity | ].
  split; [ apply target_up_bound | ].
  split; [ intros Hd; apply target_down_bound; [ fold m; lra | exact Hd ] | ].
  intros H1 H2. subst target.
  rewrite target_between by (fold m; lra). fold m.
  destruct current_stage; try reflexivity.
  - destruct (Qltb_spec angle (contracted + m)); split; intros; (reflexivity || lra).
  - destruct (Qgtb_spec angle (extended - m)); split; intros; (reflexivity || lra).
Qed.

(** The thresholds of Scenario A, 40 and 160: the hard bounds are 35 and
    165, and every clause of the theorem applies. *)
Lemma determine_target_state_hysteresis_witness :
  let self := __init__ (mkCalibration 40 160) default_min_rep_duration in
  40 - hysteresis_margin self < 160 + hysteresis_margin self /\
  _determine_target_state self 30 40 160 DOWN = UP /\
  _determine_target_state self 170 40 160 UP = DOWN /\
  _determine_target_state self 42 40 160 UP = UP /\
  _determine_target_state self 100 40 160 UP = MOVING_DOWN /\
  _determine_target_state self 158 40 160 DOWN = DOWN /\
  _determine_target_state self 100 40 160 DOWN = MOVING_UP /\
  _determine_target_state self 100 40 160 MOVING_UP = MOVING_UP.
Proof.
  intros self.
  assert (Hbands : 40 - hysteresis_margin self < 160 + hysteresis_margin self)
    by reflexivity.
  pose proof (determine_target_state_hysteresis self 30 40 160 DOWN Hbands)
    as (_ & _ & _ & H1 & _).
  pose proof (determine_target_state_hysteresis self 170 40 160 UP Hbands)
    as (_ & _ & _ & _ & H2 & _).
  pose proof (determine_target_state_hysteresis self 42 40 160 UP Hbands)
    as (_ & _ & _ & _ & _ & H3).
  pose proof (determine_target_state_hysteresis self 100 40 160 UP Hbands)
    as (_ & _ & _ & _ & _ & H4).
  pose proof (determine_target_state_hysteresis self 158 40 160 DOWN Hbands)
    as (_ & _ & _ & _ & _ & H5).
  pose proof (determine_target_state_hysteresis self 100 40 160 DOWN Hbands)
    as (_ & _ & _ & _ & _ & H6).
  pose proof (determine_target_state_hysteresis self 100 40 160 MOVING_UP Hbands)
    as (_ & _ & _ & _ & _ & H7).
  cbv zeta in *. simpl hysteresis_margin in *.
  split; [ exact Hbands | ].
  split; [ apply H1; lra | ].
  split; [ apply H2; lra | ].
  split; [ apply H3; lra | ].
  split; [ apply H4; lra | ].
  split; [ apply H5; lra | ].
  split; [ apply H6; lra | apply H7; lra ].
Defined.

(** ** Per-arm dictionaries *)

Lemma get_set_same {T} (d : PerArm T) arm v : get (set d arm v) arm = v.
Proof. now destruct arm. Qed.

Lemma get_set_other {T} (d : PerArm T) arm arm' v :
  arm' <> arm -> get (set d arm v) arm' = get d arm'.
Proof. destruct arm, arm'; simpl; congruence. Qed.

Lemma set_get_id {T} (d : PerArm T) arm : set d arm (get d arm) = d.
Proof. now destruct d, arm. Qed.

Lemma set_rep_start_time_id self arm :
  set_rep_start_time self (set (rep_start_time self) arm (get (rep_start_time self) arm)) = self.
Proof. rewrite set_get_id. now destruct self. Qed.

(** ** Rep Lifecycle Tracker: [_handle_state_transition] *)

(** Leaving UP for MOVING_DOWN or DOWN after at least [min_rep_duration]:
    the rep is counted. *)
Lemma handle_state_transition_counted draw self arm new metrics t :
  stage_in new [MOVING_DOWN; DOWN] = true ->
  min_rep_duration self <= t - last_down_time metrics ->
  _handle_state_transition draw self arm UP new metrics t =
    (set_current_compliment
       (set_last_rep_time self (set (last_rep_time self) arm t))
       (set (current_compliment self) arm (random_choice draw (compliments self))),
     mkMetrics (angle metrics) new (rep_count metrics + 1)%Z
       (t - last_down_time metrics)
       (if Qeq_bool (min_rep_time metrics) 0
        then t - last_down_time metrics
        else py_min (t - last_down_time metrics) (min_rep_time metrics))
       0 t (feedback metrics)).
Proof.
  intros Hin Hge. unfold _handle_state_transition.
  simpl stage_eqb. cbv iota. rewrite Hin.
  simpl last_down_time.
  destruct (Qgeb_spec (t - last_down_time metrics) (min_rep_duration self)); [ | tauto ].
  simpl. destruct (Qeq_bool (min_rep_time metrics) 0); reflexivity.
Qed.

(** Leaving UP for MOVING_DOWN or DOWN sooner than [min_rep_duration]:
    only the stage is written. *)
Lemma handle_state_transition_discarded draw self arm new metrics t :
  stage_in new [MOVING_DOWN; DOWN] = true ->
  t - last_down_time metrics < min_rep_duration self ->
  _handle_state_transition draw self arm UP new metrics t =
    (self, set_stage metrics new).
Proof.
  intros Hin Hlt. unfold _handle_state_transition.
  simpl stage_eqb. cbv iota. rewrite Hin.
  simpl last_down_time.
  destruct (Qgeb_spec (t - last_down_time metrics) (min_rep_duration self)); [ lra | ].
  reflexivity.
Qed.

(** Every other transition writes the stage, and at most
    [rep_start_time[arm]] of the counter. *)
Lemma handle_state_transition_other draw self arm prev new metrics t :
  prev <> UP \/ stage_in new [MOVING_DOWN; DOWN] = false ->
  snd (_handle_state_transition draw self arm prev new metrics t) = set_stage metrics new /\
  exists r, fst (_handle_state_transition draw self arm prev new metrics t)
            = set_rep_start_time self (set (rep_start_time self) arm r).
Proof.
  intros H. unfold _handle_state_transition.
  destruct (stage_eqb_spec prev UP) as [-> | Hp].
  - destruct H as [H | H]; [ congruence | rewrite H ].
    split; [ reflexivity | ].
    exists (get (rep_start_time self) arm). now rewrite set_rep_start_time_id.
  - destruct (stage_eqb new DOWN).
    { split; [ reflexivity | ]. eexists. reflexivity. }
    destruct (stage_eqb new UP).
    + destruct (Qeq_bool (get (rep_start_time self) arm) 0).
      * split; [ reflexivity | ]. eexists. reflexivity.
      * split; [ reflexivity | ].
        exists (get (rep_start_time self) arm). now rewrite set_rep_start_time_id.
    + split; [ reflexivity | ].
      exists (get (rep_start_time self) arm). now rewrite set_rep_start_time_id.
Qed.

Lemma handle_state_transition_stage draw self arm prev new metrics t :
  stage (snd (_handle_state_transition draw self arm prev new metrics t)) = new.
Proof.
  unfold _handle_state_transition.
  repeat match goal with |- context [if ?b then _ else _] => destruct b end;
    reflexivity.
Qed.

Lemma handle_state_transition_down draw self arm prev metrics t :
  prev <> UP ->
  fst (_handle_state_transition draw self arm prev DOWN metrics t)
  = set_rep_start_time self (set (rep_start_time self) arm t).
Proof.
  intros Hp. unfold _handle_state_transition.
  destruct (stage_eqb_spec prev UP); [ congruence | reflexivity ].
Qed.

(** ** Transition Confirmer: the confirmation block of [process_rep] *)

Section Confirmer.
Variable draw : nat.
Variable self : RepCounter.
Variable arm : Arm.
Variables prev target : ArmStage.
Variable velocity : Q.
Variable metrics : Metrics.
Variable t : Q.

Lemma confirm_state_same :
  target = prev ->
  confirm_state draw self arm prev target velocity metrics t
  = (set_pending_state self (set (pending_state self) arm None), metrics).
Proof.
  intros ->. unfold confirm_state. now rewrite stage_eqb_refl.
Qed.

Lemma confirm_state_commit :
  target <> prev ->
  get (pending_state self) arm = Some target ->
  state_hold_time self <= t - get (pending_state_start self) arm ->
  velocity < 15 ->
  confirm_state draw self arm prev target velocity metrics t
  = _handle_state_transition draw self arm prev target metrics t.
Proof.
  intros Hne Hp Hh Hv. unfold confirm_state.
  destruct (stage_eqb_spec target prev); [ congruence | ].
  rewrite Hp. simpl. rewrite stage_eqb_refl.
  destruct (Qgeb_spec (t - get (pending_state_start self) arm) (state_hold_time self));
    [ | tauto ].
  destruct (Qltb_spec velocity 15); [ reflexivity | tauto ].
Qed.

Lemma confirm_state_wait :
  target <> prev ->
  get (pending_state self) arm = Some target ->
  ~ (state_hold_time self <= t - get (pending_state_start self) arm /\ velocity < 15) ->
  confirm_state draw self arm prev target velocity metrics t = (self, metrics).
Proof.
  intros Hne Hp Hn. unfold confirm_state.
  destruct (stage_eqb_spec target prev); [ congruence | ].
  rewrite Hp. simpl. rewrite stage_eqb_refl.
  destruct (Qgeb_spec (t - get (pending_state_start self) arm) (state_hold_time self));
    [ | reflexivity ].
  destruct (Qltb_spec velocity 15); [ tauto | reflexivity ].
Qed.

Lemma confirm_state_fresh :
  target <> prev ->
  get (pending_state self) arm <> Some target ->
  confirm_state draw self arm prev target velocity metrics t
  = (set_pending_state_start
       (set_pending_state self (set (pending_state self) arm (Some target)))
       (set (pending_state_start self) arm t),
     metrics).
Proof.
  intros Hne Hp. unfold confirm_state.
  destruct (stage_eqb_spec target prev); [ congruence | ].
  simpl. destruct (get (pending_state self) arm) as [p|]; simpl; [ | reflexivity ].
  destruct (stage_eqb_spec p target); [ congruence | reflexivity ].
Qed.

(** The block either leaves the metrics alone or is one call of the
    Lifecycle Tracker, made under the commit test. *)
Lemma confirm_state_cases :
  (snd (confirm_state draw self arm prev target velocity metrics t) = metrics /\
   same_settings self (fst (confirm_state draw self arm prev target velocity metrics t)) /\
   rep_start_time (fst (confirm_state draw self arm prev target velocity metrics t))
     = rep_start_time self /\
   last_rep_time (fst (confirm_state draw self arm prev target velocity metrics t))
     = last_rep_time self /\
   current_compliment (fst (confirm_state draw self arm prev target velocity metrics t))
     = current_compliment self /\
   angle_history (fst (confirm_state draw self arm prev target velocity metrics t))
     = angle_history self)
  \/
  (target <> prev /\
   get (pending_state self) arm = Some target /\
   state_hold_time self <= t - get (pending_state_start self) arm /\
   velocity < 15 /\
   confirm_state draw self arm prev target velocity metrics t
   = _handle_state_transition draw self arm prev target metrics t).
Proof.
  destruct (stage_eqb_spec target prev) as [He | Hne].
  { left. rewrite confirm_state_same by assumption. repeat split. }
  destruct (get (pending_state self) arm) as [p|] eqn:Hp.
  2:{ left. rewrite confirm_state_fresh by congruence. repeat split. }
  destruct (stage_eqb_spec p target) as [-> | Hpt].
  2:{ left. rewrite confirm_state_fresh by congruence. repeat split. }
  destruct (Qle_bool_spec (state_hold_time self) (t - get (pending_state_start self) arm)).
  2:{ left. rewrite confirm_state_wait by tauto. repeat split. }
  destruct (Qltb_spec velocity 15).
  2:{ left. rewrite confirm_state_wait by tauto. repeat split. }
  right. split; [ assumption | ]. split; [ reflexivity | ].
  split; [ assumption | ]. split; [ assumption | ].
  now apply confirm_state_commit.
Qed.

End Confirmer.

(** ** Stability Buffer *)

Lemma deque_append_bound maxlen d x :
  (1 <= maxlen)%nat ->
  List.length (deque_append maxlen d x) = Nat.min (List.length d + 1) maxlen.
Proof.
  intros H. unfold deque_append. rewrite length_skipn, length_app. simpl. lia.
Qed.

Lemma deque_append_room maxlen d x :
  (List.length d < maxlen)%nat -> deque_append maxlen d x = d ++ [x].
Proof.
  intros H. unfold deque_append. rewrite length_app. simpl.
  replace (List.length d + 1 - maxlen)%nat with O by lia. reflexivity.
Qed.

Lemma deque_append_full maxlen d x :
  (1 <= maxlen)%nat -> List.length d = maxlen ->
  deque_append maxlen d x = tl d ++ [x].
Proof.
  intros H1 H. unfold deque_append. rewrite length_app. simpl.
  replace (List.length d + 1 - maxlen)%nat with 1%nat by lia.
  destruct d as [|y d]; [ simpl in H; lia | reflexivity ].
Qed.

Lemma neg_index_rev l k :
  (1 <= k <= List.length l)%nat -> neg_index l k = nth (k - 1) (rev l) 0.
Proof.
  intros H. unfold neg_index. rewrite rev_nth by lia. f_equal. lia.
Qed.

Lemma velocity_of_short l :
  (List.length l < 4)%nat -> velocity_of l = None.
Proof.
  intros H. unfold velocity_of.
  destruct (Nat.ltb_spec (List.length l) 4); [ reflexivity | lia ].
Qed.

Lemma velocity_of_long l :
  (4 <= List.length l)%nat ->
  velocity_of l = Some (Qabs (nth 0 (rev l) 0 - nth 3 (rev l) 0) / 3).
Proof.
  intros H. unfold velocity_of.
  destruct (Nat.ltb_spec (List.length l) 4); [ lia | ].
  now rewrite !neg_index_rev by lia.
Qed.

(** ** [process_rep] as the composition of its stages *)

Lemma process_rep_skipped draw self arm angle metrics t history :
  velocity_of (deque_append 8 (get (angle_history self) arm) angle) = None ->
  process_rep draw self arm angle metrics t history
  = (set_angle_history self
       (set (angle_history self) arm
            (deque_append 8 (get (angle_history self) arm) angle)),
     set_angle metrics angle, history).
Proof.
  intros H. unfold process_rep. simpl angle_history.
  rewrite get_set_same, H. reflexivity.
Qed.

Lemma process_rep_processed draw self arm angle metrics t history v :
  velocity_of (deque_append 8 (get (angle_history self) arm) angle) = Some v ->
  process_rep draw self arm angle metrics t history
  = process_rep_classified draw
      (set_angle_history self
         (set (angle_history self) arm
              (deque_append 8 (get (angle_history self) arm) angle)))
      arm angle (set_angle metrics angle) t history v.
Proof.
  intros H. unfold process_rep. simpl angle_history.
  rewrite get_set_same, H. reflexivity.
Qed.

(** The three stages of [process_rep_classified], named. *)
Lemma process_rep_classified_stages draw self arm angle metrics t history v :
  let c := contracted_threshold (calibration self) in
  let e := extended_threshold (calibration self) in
  let sm := confirm_state draw self arm (stage metrics)
              (_determine_target_state self angle c e (stage metrics))
              v metrics t in
  let m1 := if stage_eqb (stage (snd sm)) UP
            then set_curr_rep_time (snd sm) (t - get (rep_start_time (fst sm)) arm)
            else snd sm in
  let mh := _provide_form_feedback (fst sm) angle m1 c e arm history v t in
  process_rep_classified draw self arm angle metrics t history v
  = (fst sm, fst mh, snd mh).
Proof.
  intros c e sm m1 mh. unfold process_rep_classified.
  subst mh m1. fold c e. fold sm. destruct sm as [s1 ms]. simpl fst. simpl snd.
  destruct (_provide_form_feedback _ _ _ _ _ _ _ _ _). reflexivity.
Qed.

Lemma handle_state_transition_detection draw self arm prev new metrics t :
  angle_history (fst (_handle_state_transition draw self arm prev new metrics t))
    = angle_history self /\
  pending_state (fst (_handle_state_transition draw self arm prev new metrics t))
    = pending_state self /\
  pending_state_start (fst (_handle_state_transition draw self arm prev new metrics t))
    = pending_state_start self.
Proof.
  unfold _handle_state_transition.
  repeat match goal with |- context [if ?b then _ else _] => destruct b end;
    repeat split.
Qed.

Lemma confirm_state_angle_history draw self arm prev target v metrics t :
  angle_history (fst (confirm_state draw self arm prev target v metrics t))
  = angle_history self.
Proof.
  destruct (confirm_state_cases draw self arm prev target v metrics t)
    as [(_ & _ & _ & _ & _ & H) | (_ & _ & _ & _ & ->)]; [ exact H | ].
  apply handle_state_transition_detection.
Qed.

Lemma process_rep_classified_angle_history draw self arm angle metrics t history v :
  angle_history (fst (fst (process_rep_classified draw self arm angle metrics t history v)))
  = angle_history self.
Proof.
  rewrite process_rep_classified_stages. simpl.
  apply confirm_state_angle_history.
Qed.

(** C5.  The buffer of an arm holds the last 8 samples at most, the oldest
    leaving when a ninth arrives.  With fewer than 4 samples buffered after
    the append, the call stores the angle and the sample and does nothing
    else: stage, pending candidate, timing fields, feedback and history are
    as before.  With 4 or more, the velocity is
    [|newest - fourth newest| / 3] and the rest of [process_rep]
    (classification, confirmation, feedback) runs with it. *)
Theorem stability_buffer_velocity :
  forall draw self arm angle metrics t history,
    let old := get (angle_history self) arm in
    let buffer := deque_append 8 old angle in
    let self0 := set_angle_history self (set (angle_history self) arm buffer) in
    let r := process_rep draw self arm angle metrics t history in
    get (angle_history (fst (fst r))) arm = buffer /\
    (List.length buffer <= 8)%nat /\
    ((List.length old < 8)%nat -> buffer = old ++ [angle]) /\
    (List.length old = 8%nat -> buffer = tl old ++ [angle]) /\
    ((List.length buffer < 4)%nat ->
       velocity_of buffer = None /\
       r = (self0, set_angle metrics angle, history)) /\
    ((4 <= List.length buffer)%nat ->
       velocity_of buffer
         = Some (Qabs (nth 0 (rev buffer) 0 - nth 3 (rev buffer) 0) / 3) /\
       r = process_rep_classified draw self0 arm angle (set_angle metrics angle)
             t history (Qabs (nth 0 (rev buffer) 0 - nth 3 (rev buffer) 0) / 3)).
Proof.
  intros draw self arm angle metrics t history old buffer self0 r.
  assert (Hlen : (List.length buffer <= 8)%nat).
  { subst buffer. rewrite deque_append_bound by lia. lia. }
  assert (Hshort : (List.length buffer < 4)%nat ->
            velocity_of buffer = None /\
            r = (self0, set_angle metrics angle, history)).
  { intros H. pose proof (velocity_of_short buffer H) as Hv.
    split; [ exact Hv | ]. subst r. now apply process_rep_skipped. }
  assert (Hlong : (4 <= List.length buffer)%nat ->
            velocity_of buffer
              = Some (Qabs (nth 0 (rev buffer) 0 - nth 3 (rev buffer) 0) / 3) /\
            r = process_rep_classified draw self0 arm angle (set_angle metrics angle)
                  t history (Qabs (nth 0 (rev buffer) 0 - nth 3 (rev buffer) 0) / 3)).
  { intros H. pose proof (velocity_of_long buffer H) as Hv.
    split; [ exact Hv | ]. subst r. now apply process_rep_processed. }
  split.
  { destruct (Nat.lt_ge_cases (List.length buffer) 4) as [H | H].
    - destruct (Hshort H) as [_ ->]. simpl. subst self0. simpl.
      apply get_set_same.
    - destruct (Hlong H) as [_ ->].
      rewrite process_rep_classified_angle_history. subst self0. simpl.
      apply get_set_same. }
  split; [ exact Hlen | ].
  split; [ intros H; now apply deque_append_room | ].
  split; [ intros H; apply deque_append_full; [ lia | exact H ] | ].
  split; assumption.
Qed.

(** A counter whose right buffer holds three samples takes a fourth: the
    velocity exists and the sample is classified; on an empty buffer the
    call stops after the append. *)
Lemma stability_buffer_velocity_witness :
  let self := set_angle_history (__init__ (mkCalibration 40 160) default_min_rep_duration)
                (mkPerArm [170; 160; 150] []) in
  let m := mkMetrics 0 DOWN 0 0 0 0 0 "" in
  velocity_of (deque_append 8 [170; 160; 150] 140) = Some (Qabs (140 - 170) / 3) /\
  process_rep 0 self LEFT 140 m 1 (mkHistory 0 0)
  = (set_angle_history self (mkPerArm [170; 160; 150] [140]), set_angle m 140,
     mkHistory 0 0).
Proof.
  intros self m. split.
  - pose proof (stability_buffer_velocity 0 self RIGHT 140 m 1 (mkHistory 0 0))
      as (_ & _ & _ & _ & _ & H).
    apply H. simpl. lia.
  - pose proof (stability_buffer_velocity 0 self LEFT 140 m 1 (mkHistory 0 0))
      as (_ & _ & _ & _ & H & _).
    apply H. simpl. lia.
Defined.

Lemma set_curr_rep_time_id m : set_curr_rep_time m (curr_rep_time m) = m.
Proof. now destruct m. Qed.

(** After the confirmation block, [process_rep] writes two attributes of
    the metrics, [curr_rep_time] and [feedback], and nothing of the
    counter. *)
Lemma process_rep_classified_shape draw self arm angle metrics t history v :
  let sm := confirm_state draw self arm (stage metrics)
              (_determine_target_state self angle
                 (contracted_threshold (calibration self))
                 (extended_threshold (calibration self)) (stage metrics))
              v metrics t in
  fst (fst (process_rep_classified draw self arm angle metrics t history v)) = fst sm /\
  exists cur fb,
    snd (fst (process_rep_classified draw self arm angle metrics t history v))
    = set_feedback (set_curr_rep_time (snd sm) cur) fb /\
    (stage (snd sm) <> UP -> cur = curr_rep_time (snd sm)) /\
    (stage (snd sm) = UP -> cur = t - get (rep_start_time (fst sm)) arm).
Proof.
  intros sm. rewrite process_rep_classified_stages. fold sm. simpl.
  split; [ reflexivity | ].
  rewrite provide_form_feedback_frame.
  destruct (stage_eqb_spec (stage (snd sm)) UP) as [Hu | Hu].
  - eexists; eexists. split; [ reflexivity | ]. split; [ tauto | reflexivity ].
  - exists (curr_rep_time (snd sm)); eexists.
    split; [ rewrite set_curr_rep_time_id; reflexivity | ]. split; [ reflexivity | tauto ].
Qed.

(** C2.  On a sample with a velocity [v], with [target] the classifier's
    answer for the committed stage: when [target] is the committed stage the
    pending candidate is cleared; when it is the pending candidate the
    transition commits (the Lifecycle Tracker runs and the stage becomes
    [target]) if the candidate has been pending for [state_hold_time] (0.15
    in a constructed counter) or more and [v < 15], and otherwise stage,
    candidate and its timestamp stay as they are; when it is neither, it
    becomes the candidate, pending since the current timestamp.  Whenever
    [process_rep] changes the stage, it is by such a commit. *)
Theorem transition_confirmer :
  forall draw self arm angle metrics t history,
    let buffer := deque_append 8 (get (angle_history self) arm) angle in
    let self0 := set_angle_history self (set (angle_history self) arm buffer) in
    let target := _determine_target_state self angle
                    (contracted_threshold (calibration self))
                    (extended_threshold (calibration self)) (stage metrics) in
    let r := process_rep draw self arm angle metrics t history in
    let self' := fst (fst r) in
    let metrics' := snd (fst r) in
    let pending := get (pending_state self) arm in
    let since := get (pending_state_start self) arm in
    (forall cal d, state_hold_time (__init__ cal d) = 15 # 100) /\
    state_hold_time self' = state_hold_time self /\
    (forall v, velocity_of buffer = Some v ->
       (target = stage metrics ->
          get (pending_state self') arm = None /\ stage metrics' = stage metrics) /\
       (target <> stage metrics -> pending = Some target ->
          (state_hold_time self <= t - since /\ v < 15 ->
             stage metrics' = target /\
             self' = fst (_handle_state_transition draw self0 arm (stage metrics)
                            target (set_angle metrics angle) t)) /\
          (~ (state_hold_time self <= t - since /\ v < 15) ->
             stage metrics' = stage metrics /\
             get (pending_state self') arm = pending /\
             get (pending_state_start self') arm = since)) /\
       (target <> stage metrics -> pending <> Some target ->
          get (pending_state self') arm = Some target /\
          get (pending_state_start self') arm = t /\
          stage metrics' = stage metrics)) /\
    (stage metrics' <> stage metrics ->
       exists v, velocity_of buffer = Some v /\
         target <> stage metrics /\ pending = Some target /\
         state_hold_time self <= t - since /\ v < 15 /\
         stage metrics' = target).
Proof.
  intros draw self arm angle metrics t history buffer self0 target r self'
         metrics' pending since.
  split; [ reflexivity | ].
  split; [ symmetry; apply (process_rep_settings draw self arm angle metrics t history) | ].
  assert (Hproc : forall v, velocity_of buffer = Some v ->
            self' = fst (confirm_state draw self0 arm (stage metrics) target v
                           (set_angle metrics angle) t) /\
            stage metrics' = stage (snd (confirm_state draw self0 arm (stage metrics)
                                           target v (set_angle metrics angle) t))).
  { intros v Hv. subst self' metrics' r.
    rewrite (process_rep_processed _ _ _ _ _ _ _ v Hv).
    destruct (process_rep_classified_shape draw self0 arm angle
                (set_angle metrics angle) t history v) as [H1 (cur & fb & H2 & _)].
    split; [ exact H1 | ]. change (set_angle_history _ _) with self0.
    rewrite H2. reflexivity. }
  split.
  - intros v Hv. destruct (Hproc v Hv) as [Hs Hm]. rewrite Hs, Hm.
    split; [ | split ].
    + intros He. rewrite confirm_state_same by exact He. simpl.
      split; [ apply get_set_same | reflexivity ].
    + intros Hne Hp. split.
      * intros [Hh Hlt]. rewrite confirm_state_commit by assumption.
        split; [ apply handle_state_transition_stage | reflexivity ].
      * intros Hn. rewrite confirm_state_wait by assumption.
        repeat split.
    + intros Hne Hp. rewrite confirm_state_fresh by assumption. simpl.
      rewrite !get_set_same. repeat split.
  - intros Hch. destruct (velocity_of buffer) as [v|] eqn:Hv.
    + exists v. split; [ reflexivity | ].
      destruct (Hproc v eq_refl) as [Hs Hm].
      destruct (confirm_state_cases draw self0 arm (stage metrics) target v
                  (set_angle metrics angle) t)
        as [(H & _) | (H1 & H2 & H3 & H4 & H5)].
      * rewrite Hm, H in Hch. now elim Hch.
      * repeat (split; [ assumption | ]).
        rewrite Hm, H5. apply handle_state_transition_stage.
    + subst metrics' r. rewrite process_rep_skipped in Hch by exact Hv.
      now elim Hch.
Qed.

(** The last frame of [one_rep_calls]: DOWN has been the candidate since
    0.6, the frame comes at 0.9 with the arm at rest, and the stage leaves
    UP for DOWN. *)
Lemma transition_confirmer_witness :
  stage (get (arm_metrics (before_rep (fun _ => O))) RIGHT) = UP /\
  stage (snd (fst (process_rep 0 (counter (before_rep (fun _ => O))) RIGHT 170
                     (get (arm_metrics (before_rep (fun _ => O))) RIGHT)
                     (9 # 10) (history (before_rep (fun _ => O))))))
  = DOWN.
Proof.
  split; [ reflexivity | ].
  pose proof (transition_confirmer 0 (counter (before_rep (fun _ => O))) RIGHT 170
                (get (arm_metrics (before_rep (fun _ => O))) RIGHT)
                (9 # 10) (history (before_rep (fun _ => O))))
    as (_ & _ & H & _).
  cbv zeta in H.
  destruct (H (Qabs (170 - 170) / 3) eq_refl) as (_ & Hc & _).
  assert (Hne : DOWN <> UP) by discriminate.
  destruct (Hc Hne eq_refl) as [Hcommit _].
  apply Hcommit. split.
  - apply Qle_bool_iff. reflexivity.
  - reflexivity.
Defined.

(** ** Feedback Advisor: [_provide_form_feedback] *)

Lemma provide_form_feedback_stage self angle metrics c e arm history v t :
  stage (fst (_provide_form_feedback self angle metrics c e arm history v t))
  = stage metrics.
Proof. now rewrite provide_form_feedback_frame. Qed.

Lemma stage_in_up_spec s :
  stage_in s [MOVING_UP; UP] = true <-> s = UP \/ s = MOVING_UP.
Proof. destruct s; simpl; intuition congruence. Qed.

Lemma stage_in_down_spec s :
  stage_in s [MOVING_DOWN; DOWN] = true <-> s = DOWN \/ s = MOVING_DOWN.
Proof. destruct s; simpl; intuition congruence. Qed.

Section Advisor.
Variable self : RepCounter.
Variables angle contracted extended velocity t : Q.
Variable metrics : Metrics.
Variable arm : Arm.
Variable history : History.

Lemma advisor_over_extending :
  178 < angle ->
  _provide_form_feedback self angle metrics contracted extended arm history velocity t
  = (set_feedback metrics "Over Extending", bump_feedback_count history arm).
Proof.
  intros H. unfold _provide_form_feedback.
  destruct (Qgtb_spec angle 178); [ reflexivity | tauto ].
Qed.

Lemma advisor_over_curling :
  angle < 2 ->
  _provide_form_feedback self angle metrics contracted extended arm history velocity t
  = (set_feedback metrics "Over Curling", bump_feedback_count history arm).
Proof.
  intros H. unfold _provide_form_feedback.
  destruct (Qgtb_spec angle 178); [ lra | ].
  destruct (Qltb_spec angle 2); [ reflexivity | tauto ].
Qed.

Lemma advisor_curl_higher :
  2 <= angle <= 178 -> velocity < 5 # 10 ->
  stage metrics = UP \/ stage metrics = MOVING_UP ->
  contracted + 10 < angle ->
  _provide_form_feedback self angle metrics contracted extended arm history velocity t
  = (set_feedback metrics "Curl Higher", bump_feedback_count history arm).
Proof.
  intros Ha Hv Hs Hc. unfold _provide_form_feedback.
  destruct (Qgtb_spec angle 178); [ lra | ].
  destruct (Qltb_spec angle 2); [ lra | ].
  destruct (Qltb_spec velocity (5 # 10)); [ | tauto ].
  apply stage_in_up_spec in Hs. rewrite Hs.
  destruct (Qgtb_spec angle (contracted + 10)); [ reflexivity | tauto ].
Qed.

Lemma advisor_extend_fully :
  2 <= angle <= 178 -> velocity < 5 # 10 ->
  stage metrics = DOWN \/ stage metrics = MOVING_DOWN ->
  angle < extended - 10 ->
  _provide_form_feedback self angle metrics contracted extended arm history velocity t
  = (set_feedback metrics "Extend Fully", bump_feedback_count history arm).
Proof.
  intros Ha Hv Hs Hc. unfold _provide_form_feedback.
  destruct (Qgtb_spec angle 178); [ lra | ].
  destruct (Qltb_spec angle 2); [ lra | ].
  destruct (Qltb_spec velocity (5 # 10)); [ | tauto ].
  assert (Hup : stage_in (stage metrics) [MOVING_UP; UP] = false)
    by (destruct Hs as [-> | ->]; reflexivity).
  rewrite Hup. apply stage_in_down_spec in Hs. rewrite Hs.
  destruct (Qltb_spec angle (extended - 10)); [ reflexivity | tauto ].
Qed.

Lemma advisor_positive :
  2 <= angle <= 178 ->
  ~ stalled_short velocity angle contracted extended (stage metrics) ->
  _provide_form_feedback self angle metrics contracted extended arm history velocity t
  = (set_feedback metrics
       (if Qltb (t - get (last_rep_time self) arm) 2
        then get (current_compliment self) arm
        else "Maintain Form"%string),
     history).
Proof.
  intros Ha Hn. unfold stalled_short in Hn. unfold _provide_form_feedback.
  destruct (Qgtb_spec angle 178); [ lra | ].
  destruct (Qltb_spec angle 2); [ lra | ].
  cbv zeta.
  destruct (Qltb_spec velocity (5 # 10)) as [Hv | Hv].
  - destruct (stage_in (stage metrics) [MOVING_UP; UP]) eqn:Hu.
    + apply stage_in_up_spec in Hu.
      destruct (Qgtb_spec angle (contracted + 10)); [ tauto | ].
      destruct (Qltb _ 2); reflexivity.
    + destruct (stage_in (stage metrics) [MOVING_DOWN; DOWN]) eqn:Hd.
      * apply stage_in_down_spec in Hd.
        destruct (Qltb_spec angle (extended - 10)); [ tauto | ].
        destruct (Qltb _ 2); reflexivity.
      * destruct (Qltb _ 2); reflexivity.
  - destruct (Qltb _ 2); reflexivity.
Qed.

End Advisor.

(** The metrics and history a processed sample leaves are those of the
    advisor, run on the counter and the stage the call leaves. *)
Lemma process_rep_advice draw self arm angle metrics t history v :
  velocity_of (deque_append 8 (get (angle_history self) arm) angle) = Some v ->
  exists m1,
    stage m1 = stage (snd (fst (process_rep draw self arm angle metrics t history))) /\
    (snd (fst (process_rep draw self arm angle metrics t history)),
     snd (process_rep draw self arm angle metrics t history))
    = _provide_form_feedback
        (fst (fst (process_rep draw self arm angle metrics t history)))
        angle m1 (contracted_threshold (calibration self))
        (extended_threshold (calibration self)) arm history v t.
Proof.
  intros Hv. rewrite (process_rep_processed _ _ _ _ _ _ _ v Hv).
  rewrite process_rep_classified_stages. cbv zeta. simpl fst. simpl snd.
  eexists. split; [ | symmetry; apply surjective_pairing ].
  now rewrite provide_form_feedback_stage.
Qed.

(** C4.  On every sample processed with a velocity [v], the feedback left
    is the first that applies of: "Over Extending" when the angle exceeds
    178 and "Over Curling" when it is under 2, whatever stage and velocity;
    with [v < 0.5], "Curl Higher" when the stage is UP or MOVING_UP and the
    angle exceeds [contracted + 10], "Extend Fully" when the stage is DOWN or
    MOVING_DOWN and the angle is under [extended - 10]; otherwise the stored
    compliment while less than 2 seconds have passed since the last counted
    rep, and "Maintain Form" after that.  The stage is the one the call
    leaves. *)
Theorem feedback_advisor_priority :
  forall draw self arm angle metrics t history v,
    let c := contracted_threshold (calibration self) in
    let e := extended_threshold (calibration self) in
    let r := process_rep draw self arm angle metrics t history in
    let self' := fst (fst r) in
    let metrics' := snd (fst r) in
    velocity_of (deque_append 8 (get (angle_history self) arm) angle) = Some v ->
    (178 < angle -> feedback metrics' = "Over Extending"%string) /\
    (angle < 2 -> feedback metrics' = "Over Curling"%string) /\
    (2 <= angle <= 178 -> v < 5 # 10 ->
     stage metrics' = UP \/ stage metrics' = MOVING_UP ->
     c + 10 < angle -> feedback metrics' = "Curl Higher"%string) /\
    (2 <= angle <= 178 -> v < 5 # 10 ->
     stage metrics' = DOWN \/ stage metrics' = MOVING_DOWN ->
     angle < e - 10 -> feedback metrics' = "Extend Fully"%string) /\
    (2 <= angle <= 178 -> ~ stalled_short v angle c e (stage metrics') ->
     (t - get (last_rep_time self') arm < 2 ->
      feedback metrics' = get (current_compliment self') arm) /\
     (2 <= t - get (last_rep_time self') arm ->
      feedback metrics' = "Maintain Form"%string)).
Proof.
  intros draw self arm angle metrics t history v. cbv zeta. intros Hv.
  destruct (process_rep_advice draw self arm angle metrics t history v Hv)
    as (m1 & Hst & Heq).
  remember (process_rep draw self arm angle metrics t history) as r eqn:Er.
  clear Er. destruct r as [[self' metrics'] history']. simpl in *.
  assert (Hfb : forall f h,
            _provide_form_feedback self' angle m1
              (contracted_threshold (calibration self))
              (extended_threshold (calibration self)) arm history v t
            = (set_feedback m1 f, h) -> feedback metrics' = f).
  { intros f h E. rewrite E in Heq. now inversion Heq. }
  rewrite <- Hst.
  split; [ intros H; eapply Hfb; now apply advisor_over_extending | ].
  split; [ intros H; eapply Hfb; now apply advisor_over_curling | ].
  split; [ intros; eapply Hfb; now apply advisor_curl_higher | ].
  split; [ intros; eapply Hfb; now apply advisor_extend_fully | ].
  intros Ha Hn.
  pose proof (Hfb _ _ (advisor_positive self' angle _ _ v t m1 arm history Ha Hn)) as H.
  destruct (Qltb_spec (t - get (last_rep_time self') arm) 2);
    split; intros; (exact H || lra).
Qed.

(** The last frame of [one_rep_calls] closes a rep at 0.9: no safety or
    stall condition holds, and the feedback is the stored compliment. *)
Lemma feedback_advisor_priority_witness :
  feedback (snd (fst (process_rep 2 (counter (before_rep (fun _ => O))) RIGHT 170
                        (get (arm_metrics (before_rep (fun _ => O))) RIGHT)
                        (9 # 10) (history (before_rep (fun _ => O))))))
  = get (current_compliment
           (fst (fst (process_rep 2 (counter (before_rep (fun _ => O))) RIGHT 170
                        (get (arm_metrics (before_rep (fun _ => O))) RIGHT)
                        (9 # 10) (history (before_rep (fun _ => O))))))) RIGHT.
Proof.
  pose proof (feedback_advisor_priority 2 (counter (before_rep (fun _ => O))) RIGHT 170
                (get (arm_metrics (before_rep (fun _ => O))) RIGHT)
                (9 # 10) (history (before_rep (fun _ => O)))
                (Qabs (170 - 170) / 3) eq_refl)
    as (_ & _ & _ & _ & H).
  cbv zeta in H.
  assert (Ha : 2 <= 170 <= 178) by (split; apply Qle_bool_iff; reflexivity).
  refine (proj1 (H Ha _) _).
  - unfold stalled_short. intros [_ [[Hs _] | [_ Hlt]]].
    + vm_compute in Hs. destruct Hs; discriminate.
    + vm_compute in Hlt. discriminate.
  - reflexivity.
Defined.

(** ** One call, two cases: no commit, or one commit *)

(** A call of [process_rep] either commits no transition, and then writes
    [angle], [curr_rep_time] and [feedback] of the metrics and, of the
    counter, the buffer and the pending candidate; or it commits one, under
    the Confirmer's test, and then the counter is the one the Lifecycle
    Tracker leaves and the metrics are the Tracker's but for
    [curr_rep_time] and [feedback]. *)
Lemma process_rep_cases draw self arm angle metrics t history :
  let buffer := deque_append 8 (get (angle_history self) arm) angle in
  let self0 := set_angle_history self (set (angle_history self) arm buffer) in
  let target := _determine_target_state self angle
                  (contracted_threshold (calibration self))
                  (extended_threshold (calibration self)) (stage metrics) in
  let r := process_rep draw self arm angle metrics t history in
  ((exists cur fb,
      snd (fst r) = set_feedback (set_curr_rep_time (set_angle metrics angle) cur) fb /\
      (stage metrics <> UP -> cur = curr_rep_time metrics)) /\
   rep_start_time (fst (fst r)) = rep_start_time self /\
   last_rep_time (fst (fst r)) = last_rep_time self /\
   current_compliment (fst (fst r)) = current_compliment self)
  \/
  (exists v,
     velocity_of buffer = Some v /\
     target <> stage metrics /\
     get (pending_state self) arm = Some target /\
     state_hold_time self <= t - get (pending_state_start self) arm /\
     v < 15 /\
     fst (fst r) = fst (_handle_state_transition draw self0 arm (stage metrics)
                          target (set_angle metrics angle) t) /\
     exists cur fb,
       snd (fst r)
       = set_feedback
           (set_curr_rep_time
              (snd (_handle_state_transition draw self0 arm (stage metrics)
                      target (set_angle metrics angle) t)) cur) fb /\
       (target <> UP ->
        cur = curr_rep_time
                (snd (_handle_state_transition draw self0 arm (stage metrics)
                        target (set_angle metrics angle) t)))).
Proof.
  intros buffer self0 target r.
  destruct (velocity_of buffer) as [v|] eqn:Hv.
  2:{ left. subst r. rewrite process_rep_skipped by exact Hv. simpl.
      split; [ | repeat split ].
      exists (curr_rep_time metrics), (feedback metrics). split; reflexivity. }
  subst r. rewrite (process_rep_processed _ _ _ _ _ _ _ v Hv).
  change (set_angle_history _ _) with self0.
  destruct (process_rep_classified_shape draw self0 arm angle
              (set_angle metrics angle) t history v)
    as [H1 (cur & fb & H2 & H3 & _)].
  rewrite H1, H2.
  change (stage (set_angle metrics angle)) with (stage metrics) in *.
  change (_determine_target_state self0 angle
            (contracted_threshold (calibration self0))
            (extended_threshold (calibration self0)) (stage metrics))
    with target in *.
  destruct (confirm_state_cases draw self0 arm (stage metrics) target v
              (set_angle metrics angle) t)
    as [(Hm & _ & Hr & Hl & Hc & _) | (Hne & Hp & Hh & Hlt & Heq)].
  - left. rewrite Hm in *. rewrite Hr, Hl, Hc. split; [ | repeat split ].
    exists cur, fb. split; [ reflexivity | exact H3 ].
  - right. exists v. rewrite Heq in *.
    repeat (split; [ assumption || reflexivity | ]).
    exists cur, fb. split; [ reflexivity | ].
    intros Hu. apply H3. now rewrite handle_state_transition_stage.
Qed.

(** ** Entering DOWN *)

(** C7 (as the code has it).  A committed transition into DOWN from any
    stage but UP records [rep_start_time[arm] = current_time], in
    [_handle_state_transition] and so in [process_rep].  From UP the
    rep-counting branch runs instead and [rep_start_time] stays as it was,
    whatever the new stage. *)
Theorem down_transition_records_rep_start :
  forall draw self arm angle metrics t history,
    let r := process_rep draw self arm angle metrics t history in
    (stage metrics <> UP ->
     get (rep_start_time
            (fst (_handle_state_transition draw self arm (stage metrics) DOWN
                    metrics t))) arm = t /\
     (stage metrics <> DOWN -> stage (snd (fst r)) = DOWN ->
      get (rep_start_time (fst (fst r))) arm = t)) /\
    (forall new,
       rep_start_time (fst (_handle_state_transition draw self arm UP new metrics t))
       = rep_start_time self) /\
    (stage metrics = UP -> rep_start_time (fst (fst r)) = rep_start_time self).
Proof.
  intros draw self arm angle metrics t history r.
  assert (Hup : forall s new m,
            rep_start_time (fst (_handle_state_transition draw s arm UP new m t))
            = rep_start_time s).
  { intros s new m. unfold _handle_state_transition. simpl stage_eqb. cbv iota.
    repeat match goal with |- context [if ?b then _ else _] => destruct b end;
      reflexivity. }
  split; [ | split ].
  - intros Hnu. split.
    + rewrite handle_state_transition_down by exact Hnu. simpl. apply get_set_same.
    + intros Hnd Hd.
      destruct (process_rep_cases draw self arm angle metrics t history)
        as [((cur & fb & Hm & _) & _) | (v & _ & _ & _ & _ & _ & Hs & cur & fb & Hm & _)];
        fold r in Hm; rewrite Hm in Hd; simpl in Hd.
      * congruence.
      * fold r in Hs. rewrite Hs.
        rewrite handle_state_transition_stage in Hd. rewrite Hd.
        rewrite handle_state_transition_down by exact Hnu. simpl.
        apply get_set_same.
  - intros new. apply Hup.
  - intros Hu.
    destruct (process_rep_cases draw self arm angle metrics t history)
      as [(_ & Hr & _) | (v & _ & _ & _ & _ & _ & Hs & _)].
    + exact Hr.
    + fold r in Hs. rewrite Hs, Hu, Hup. reflexivity.
Qed.

(** An arm on its way down, DOWN pending since 0, three frames at 170
    buffered: a fourth frame at time 1 commits DOWN and starts the rep
    clock at 1. *)
Lemma down_transition_records_rep_start_witness :
  let self := set_pending_state
                (set_angle_history
                   (__init__ scenario_calibration default_min_rep_duration)
                   (mkPerArm [] [170; 170; 170]))
                (mkPerArm None (Some DOWN)) in
  let m := mkMetrics 170 MOVING_DOWN 0 0 0 0 0 "" in
  stage m <> UP /\ stage m <> DOWN /\
  stage (snd (fst (process_rep 0 self LEFT 170 m 1 (mkHistory 0 0)))) = DOWN /\
  get (rep_start_time (fst (fst (process_rep 0 self LEFT 170 m 1 (mkHistory 0 0)))))
      LEFT = 1.
Proof.
  intros self m.
  assert (H1 : stage m <> UP) by discriminate.
  assert (H2 : stage m <> DOWN) by discriminate.
  assert (H3 : stage (snd (fst (process_rep 0 self LEFT 170 m 1 (mkHistory 0 0))))
               = DOWN) by reflexivity.
  split; [ exact H1 | ]. split; [ exact H2 | ]. split; [ exact H3 | ].
  exact (proj2 (proj1 (down_transition_records_rep_start 0 self LEFT 170 m 1
                         (mkHistory 0 0)) H1) H2 H3).
Defined.

(** C7 as stated fails from UP: the last frame of [one_rep_calls] commits
    UP -> DOWN at 0.9, and [rep_start_time] is still the 0.5 recorded when
    the arm went up. *)
Lemma up_to_down_keeps_rep_start :
  stage (get (arm_metrics (before_rep (fun _ => O))) RIGHT) = UP /\
  stage (get (arm_metrics
                (step 0 (before_rep (fun _ => O)) (ProcessRep RIGHT 170 (9 # 10))))
             RIGHT) = DOWN /\
  get (rep_start_time
         (counter (step 0 (before_rep (fun _ => O)) (ProcessRep RIGHT 170 (9 # 10)))))
      RIGHT = 5 # 10 /\
  ~ 5 # 10 == 9 # 10.
Proof.
  split; [ reflexivity | ]. split; [ reflexivity | ]. split; [ reflexivity | ].
  intros H. vm_compute in H. discriminate.
Qed.

(** ** Reset *)

(** C10.  [reset_arm] empties the arm's buffer, clears its pending candidate
    and the candidate's timestamp, and zeroes its [rep_start_time].  The
    other arm's entries, the compliment state and every setting of the
    counter stay as they are, and so do the caller's metrics (with
    [rep_count] and [min_rep_time]) and history, which the call never
    sees. *)
Theorem reset_arm_frame :
  forall (self : RepCounter) (arm : Arm),
    let self' := reset_arm self arm in
    get (angle_history self') arm = [] /\
    get (pending_state self') arm = None /\
    get (pending_state_start self') arm = 0 /\
    get (rep_start_time self') arm = 0 /\
    (forall other, other <> arm ->
       get (angle_history self') other = get (angle_history self) other /\
       get (pending_state self') other = get (pending_state self) other /\
       get (pending_state_start self') other = get (pending_state_start self) other /\
       get (rep_start_time self') other = get (rep_start_time self) other) /\
    last_rep_time self' = last_rep_time self /\
    current_compliment self' = current_compliment self /\
    same_settings self self' /\
    (forall draw s,
       counter (step draw s (ResetArm arm)) = reset_arm (counter s) arm /\
       arm_metrics (step draw s (ResetArm arm)) = arm_metrics s /\
       history (step draw s (ResetArm arm)) = history s).
Proof.
  intros self arm self'. subst self'. unfold reset_arm. simpl.
  rewrite !get_set_same.
  repeat (split; [ reflexivity | ]).
  split.
  - intros other Ho. rewrite !get_set_other by exact Ho. repeat split.
  - repeat split.
Qed.

(** Resetting the right arm after the rep of [one_rep_calls]: the rep stays
    counted, the left arm is as before. *)
Lemma reset_arm_frame_witness :
  let s := step 0 (before_rep (fun _ => O)) (ProcessRep RIGHT 170 (9 # 10)) in
  get (angle_history (reset_arm (counter s) RIGHT)) RIGHT = [] /\
  get (rep_start_time (reset_arm (counter s) RIGHT)) LEFT
    = get (rep_start_time (counter s)) LEFT /\
  rep_count (get (arm_metrics (step 0 s (ResetArm RIGHT))) RIGHT) = 1%Z.
Proof.
  intros s.
  pose proof (reset_arm_frame (counter s) RIGHT) as (H1 & _ & _ & _ & H2 & _ & _ & _ & H3).
  split; [ exact H1 | ]. split.
  - apply H2. discriminate.
  - destruct (H3 O s) as (_ & -> & _). reflexivity.
Defined.

(** ** Counting reps *)

Lemma target_from_up self angle c e :
  _determine_target_state self angle c e UP = UP \/
  stage_in (_determine_target_state self angle c e UP) [MOVING_DOWN; DOWN] = true.
Proof.
  unfold _determine_target_state.
  repeat match goal with |- context [if ?b then _ else _] => destruct b end;
    simpl; auto.
Qed.

(** What one call does to the rep statistics of the arm it is made for:
    nothing, or it counts one rep on a commit out of UP. *)
Lemma process_rep_count_cases draw self arm angle metrics t history :
  let m' := snd (fst (process_rep draw self arm angle metrics t history)) in
  let rep := t - last_down_time metrics in
  (rep_count m' = rep_count metrics /\
   rep_time m' = rep_time metrics /\
   min_rep_time m' = min_rep_time metrics /\
   last_down_time m' = last_down_time metrics /\
   (stage m' <> UP -> curr_rep_time m' = curr_rep_time metrics) /\
   (stage metrics = UP -> stage m' <> UP ->
    (stage m' = MOVING_DOWN \/ stage m' = DOWN) /\ rep < min_rep_duration self))
  \/
  (stage metrics = UP /\
   (stage m' = MOVING_DOWN \/ stage m' = DOWN) /\
   min_rep_duration self <= rep /\
   rep_count m' = (rep_count metrics + 1)%Z /\
   rep_time m' = rep /\
   min_rep_time m'
     = (if Qeq_bool (min_rep_time metrics) 0 then rep
        else py_min rep (min_rep_time metrics)) /\
   last_down_time m' = t /\
   curr_rep_time m' = 0).
Proof.
  intros m' rep. subst m'.
  destruct (process_rep_cases draw self arm angle metrics t history)
    as [((cur & fb & Hm & Hcur) & _)
       | (v & _ & Hne & _ & _ & _ & _ & cur & fb & Hm & Hcur)];
    rewrite Hm; clear Hm.
  { left. simpl. do 4 (split; [ reflexivity | ]).
    split; intros; tauto. }
  set (self0 := set_angle_history self _) in *.
  set (target := _determine_target_state self angle _ _ (stage metrics)) in *.
  set (hr := _handle_state_transition draw self0 arm (stage metrics) target
               (set_angle metrics angle) t) in *.
  destruct (stage_eqb_spec (stage metrics) UP) as [Hu | Hu].
  - assert (Hin : stage_in target [MOVING_DOWN; DOWN] = true).
    { subst target. rewrite Hu in *.
      destruct (target_from_up self angle
                  (contracted_threshold (calibration self))
                  (extended_threshold (calibration self))); [ congruence | assumption ]. }
    assert (Htu : target <> UP) by (intros E; rewrite E in Hin; discriminate).
    specialize (Hcur Htu).
    assert (Htd : target = MOVING_DOWN \/ target = DOWN)
      by (apply stage_in_down_spec in Hin; tauto).
    destruct (Qle_bool_spec (min_rep_duration self) rep) as [Hge | Hlt].
    + right.
      assert (Hhr : hr = _handle_state_transition draw self0 arm UP target
                           (set_angle metrics angle) t)
        by (subst hr; now rewrite Hu).
      rewrite handle_state_transition_counted in Hhr by assumption.
      rewrite Hhr in *. subst cur. simpl.
      split; [ assumption | ]. split; [ assumption | ].
      split; [ assumption | ]. repeat split.
    + left.
      assert (Hhr : hr = _handle_state_transition draw self0 arm UP target
                           (set_angle metrics angle) t)
        by (subst hr; now rewrite Hu).
      rewrite handle_state_transition_discarded in Hhr
        by (try assumption; simpl; fold rep; lra).
      rewrite Hhr in *. subst cur. simpl.
      do 4 (split; [ reflexivity | ]).
      split; [ intros _; reflexivity | ].
      intros _ _. split; [ assumption | lra ].
  - left.
    destruct (handle_state_transition_other draw self0 arm (stage metrics) target
                (set_angle metrics angle) t (or_introl Hu)) as [Hs _].
    fold hr in Hs. rewrite Hs in *. simpl in *.
    do 4 (split; [ reflexivity | ]).
    split; [ | tauto ].
    intros Ht. apply Hcur. exact Ht.
Qed.

(** *** Calls on a session *)

Lemma step_process_rep draw s arm angle t :
  step draw s (ProcessRep arm angle t)
  = mkSession
      (fst (fst (process_rep draw (counter s) arm angle (get (arm_metrics s) arm)
                             t (history s))))
      (set (arm_metrics s) arm
           (snd (fst (process_rep draw (counter s) arm angle
                                  (get (arm_metrics s) arm) t (history s)))))
      (snd (process_rep draw (counter s) arm angle (get (arm_metrics s) arm)
                        t (history s))).
Proof.
  unfold step. now destruct (process_rep _ _ _ _ _ _ _) as [[? ?] ?].
Qed.

Lemma arm_eq_dec (a b : Arm) : {a = b} + {a <> b}.
Proof. decide equality. Defined.

Lemma step_settings draw s c : same_settings (counter s) (counter (step draw s c)).
Proof.
  destruct c as [arm angle t | arm].
  - rewrite step_process_rep. simpl. apply process_rep_settings.
  - apply reset_arm_settings.
Qed.

(** What one call does to the rep statistics of any arm. *)
Lemma step_count_cases draw s c arm :
  let m := get (arm_metrics s) arm in
  let m' := get (arm_metrics (step draw s c)) arm in
  (rep_count m' = rep_count m /\ rep_time m' = rep_time m /\
   min_rep_time m' = min_rep_time m /\ last_down_time m' = last_down_time m)
  \/
  (exists angle t,
     c = ProcessRep arm angle t /\
     stage m = UP /\ (stage m' = MOVING_DOWN \/ stage m' = DOWN) /\
     min_rep_duration (counter s) <= t - last_down_time m /\
     rep_count m' = (rep_count m + 1)%Z /\
     rep_time m' = t - last_down_time m /\
     min_rep_time m'
       = (if Qeq_bool (min_rep_time m) 0 then t - last_down_time m
          else py_min (t - last_down_time m) (min_rep_time m)) /\
     last_down_time m' = t /\ curr_rep_time m' = 0).
Proof.
  intros m m'. subst m m'.
  destruct c as [arm' angle t | arm']; [ | left; repeat split ].
  rewrite step_process_rep. simpl.
  destruct (arm_eq_dec arm arm') as [<- | Hne].
  - rewrite get_set_same.
    destruct (process_rep_count_cases draw (counter s) arm angle
                (get (arm_metrics s) arm) t (history s))
      as [(H1 & H2 & H3 & H4 & _) | H].
    + left. repeat split; assumption.
    + right. exists angle, t. split; [ reflexivity | exact H ].
  - rewrite get_set_other by exact Hne. left. repeat split.
Qed.

Lemma run_rep_count_monotone draws s calls arm :
  (rep_count (get (arm_metrics s) arm)
   <= rep_count (get (arm_metrics (run draws s calls)) arm))%Z.
Proof.
  revert draws s. induction calls as [|c calls IH]; intros draws s; simpl.
  - lia.
  - specialize (IH (later draws) (step (draws O) s c)).
    destruct (step_count_cases (draws O) s c arm)
      as [(H & _) | (angle & t & _ & _ & _ & _ & H & _)]; lia.
Qed.

(** C1.  When a committed transition leaves UP for MOVING_DOWN or DOWN, with
    [rep = current_time - last_down_time]: if [rep >= min_rep_duration]
    (that of the constructor, 0.6 by default), [rep_count] grows by one,
    [rep_time] becomes [rep], [last_down_time] becomes [current_time] and
    [curr_rep_time] becomes 0; if [rep < min_rep_duration], only the stage
    is written, and [rep_count], [last_down_time] and the timing fields stay
    as they were.  This holds of [_handle_state_transition] and of the
    metrics [process_rep] returns.  A call leaves every arm's [rep_count]
    as it was or one larger, the latter only by such a transition on that
    arm; over a run [rep_count] never decreases. *)
Theorem rep_count_only_on_long_cycle :
  (forall cal d, min_rep_duration (__init__ cal d) = d) /\
  default_min_rep_duration = 6 # 10 /\
  (forall draw self arm new metrics t,
     new = MOVING_DOWN \/ new = DOWN ->
     let rep := t - last_down_time metrics in
     let r := _handle_state_transition draw self arm UP new metrics t in
     (min_rep_duration self <= rep ->
      rep_count (snd r) = (rep_count metrics + 1)%Z /\
      rep_time (snd r) = rep /\
      last_down_time (snd r) = t /\
      curr_rep_time (snd r) = 0) /\
     (rep < min_rep_duration self ->
      snd r = set_stage metrics new /\ fst r = self)) /\
  (forall draw self arm angle metrics t history,
     let metrics' := snd (fst (process_rep draw self arm angle metrics t history)) in
     let rep := t - last_down_time metrics in
     stage metrics = UP -> stage metrics' <> UP ->
     (stage metrics' = MOVING_DOWN \/ stage metrics' = DOWN) /\
     (min_rep_duration self <= rep ->
      rep_count metrics' = (rep_count metrics + 1)%Z /\
      rep_time metrics' = rep /\
      last_down_time metrics' = t /\
      curr_rep_time metrics' = 0) /\
     (rep < min_rep_duration self ->
      rep_count metrics' = rep_count metrics /\
      last_down_time metrics' = last_down_time metrics /\
      rep_time metrics' = rep_time metrics /\
      min_rep_time metrics' = min_rep_time metrics /\
      curr_rep_time metrics' = curr_rep_time metrics)) /\
  (forall draw s c arm,
     let m := get (arm_metrics s) arm in
     let m' := get (arm_metrics (step draw s c)) arm in
     (rep_count m' = rep_count m \/ rep_count m' = (rep_count m + 1)%Z) /\
     (rep_count m' <> rep_count m ->
      exists angle t,
        c = ProcessRep arm angle t /\
        stage m = UP /\ (stage m' = MOVING_DOWN \/ stage m' = DOWN) /\
        min_rep_duration (counter s) <= t - last_down_time m)) /\
  (forall draws s calls arm,
     (rep_count (get (arm_metrics s) arm)
      <= rep_count (get (arm_metrics (run draws s calls)) arm))%Z).
Proof.
  split; [ reflexivity | ]. split; [ reflexivity | ].
  split; [ | split; [ | split ] ].
  - intros draw self arm new metrics t Hnew rep r.
    assert (Hin : stage_in new [MOVING_DOWN; DOWN] = true)
      by (apply stage_in_down_spec; tauto).
    split.
    + intros Hge. subst r.
      rewrite handle_state_transition_counted by assumption. repeat split.
    + intros Hlt. subst r.
      rewrite handle_state_transition_discarded by assumption. split; reflexivity.
  - intros draw self arm angle metrics t history metrics' rep Hu Hnu.
    subst metrics' rep.
    destruct (process_rep_count_cases draw self arm angle metrics t history)
      as [(H1 & H2 & H3 & H4 & H5 & H6) | (_ & H1 & H2 & H3 & H4 & _ & H5 & H6)].
    + destruct (H6 Hu Hnu) as [Hs Hlt].
      split; [ exact Hs | ]. split; [ intros; lra | ].
      intros _. repeat split; try assumption. now apply H5.
    + split; [ exact H1 | ]. split; [ intros _; repeat split; assumption | intros; lra ].
  - intros draw s c arm m m'. subst m m'.
    destruct (step_count_cases draw s c arm)
      as [(H & _) | (angle & t & Hc & Hu & Hs & Hge & H & _)].
    + split; [ left; exact H | intros Hn; now elim Hn ].
    + split; [ right; exact H | ]. intros _. exists angle, t. repeat split; assumption.
  - apply run_rep_count_monotone.
Qed.

(** The last frame of [one_rep_calls] leaves UP 0.9 s after the last down
    time: the rep is counted. *)
Lemma rep_count_only_on_long_cycle_witness :
  rep_count (snd (fst (process_rep 0 (counter (before_rep (fun _ => O))) RIGHT 170
                         (get (arm_metrics (before_rep (fun _ => O))) RIGHT)
                         (9 # 10) (history (before_rep (fun _ => O))))))
  = (rep_count (get (arm_metrics (before_rep (fun _ => O))) RIGHT) + 1)%Z.
Proof.
  pose proof rep_count_only_on_long_cycle as (_ & _ & _ & H & _).
  specialize (H O (counter (before_rep (fun _ => O))) RIGHT 170
                (get (arm_metrics (before_rep (fun _ => O))) RIGHT)
                (9 # 10) (history (before_rep (fun _ => O)))).
  cbv zeta in H.
  assert (Hnu : stage (snd (fst (process_rep 0 (counter (before_rep (fun _ => O)))
                                   RIGHT 170
                                   (get (arm_metrics (before_rep (fun _ => O))) RIGHT)
                                   (9 # 10) (history (before_rep (fun _ => O))))))
                <> UP)
    by (intros E; vm_compute in E; discriminate).
  destruct (H eq_refl Hnu) as (_ & Hc & _).
  apply Hc. apply Qle_bool_iff. reflexivity.
Defined.

(** ** The fastest rep *)

Lemma py_min_cases a b :
  (py_min a b = a \/ py_min a b = b) /\ py_min a b <= a /\ py_min a b <= b.
Proof.
  unfold py_min. destruct (Qltb_spec b a); repeat split; auto; lra.
Qed.

Lemma is_minimum_head_changed m m0 m1 r l :
  (m1 = r \/ m1 = m0) -> m1 <= r -> m1 <= m0 ->
  is_minimum m (m1 :: l) -> is_minimum m (m0 :: r :: l).
Proof.
  intros Hm1 Hr H0 [Hin Hle]. split.
  - destruct Hin as [<- | Hin]; [ | right; right; exact Hin ].
    destruct Hm1 as [-> | ->]; [ right; left | left ]; reflexivity.
  - intros x [<- | [<- | Hx]].
    + apply Qle_trans with m1; [ apply Hle; now left | exact H0 ].
    + apply Qle_trans with m1; [ apply Hle; now left | exact Hr ].
    + apply Hle. now right.
Qed.

(** The invariant behind C6, from any session: every rep counted lasted at
    least [min_rep_duration]; starting from the sentinel 0 the run leaves
    [min_rep_time] untouched while nothing is counted and at a least
    counted time afterwards; starting from a recorded time it leaves a
    least element of that time and the counted ones. *)
Lemma min_rep_time_invariant arm calls :
  forall draws s,
    0 < min_rep_duration (counter s) ->
    let m0 := min_rep_time (get (arm_metrics s) arm) in
    let m := min_rep_time (get (arm_metrics (run draws s calls)) arm) in
    let log := counted_reps draws s calls arm in
    (forall r, In r log -> min_rep_duration (counter s) <= r) /\
    (m0 == 0 -> log = [] -> m = m0) /\
    (m0 == 0 -> log <> [] -> is_minimum m log) /\
    (~ m0 == 0 -> is_minimum m (m0 :: log)).
Proof.
  induction calls as [|c calls IH]; intros draws s Hpos; simpl.
  - split; [ intros r [] | ]. split; [ reflexivity | ].
    split; [ congruence | ].
    intros _. split; [ now left | ]. intros r [<- | []]. apply Qle_refl.
  - pose proof (step_settings (draws O) s c) as (_ & Hd & _).
    assert (Hpos' : 0 < min_rep_duration (counter (step (draws O) s c)))
      by (rewrite <- Hd; exact Hpos).
    specialize (IH (later draws) (step (draws O) s c) Hpos').
    cbv zeta in IH. rewrite <- Hd in IH.
    destruct IH as (IHlog & IHz & IHnz & IHn).
    destruct (step_count_cases (draws O) s c arm)
      as [(Hc & _ & Hm & _)
         | (angle & t & _ & _ & _ & Hge & Hc & Hrt & Hm & _)].
    + rewrite Hc, Z.ltb_irrefl. simpl. rewrite Hm in *.
      split; [ exact IHlog | ]. split; [ exact IHz | ].
      split; [ exact IHnz | exact IHn ].
    + replace (rep_count (get (arm_metrics s) arm)
                 <? rep_count (get (arm_metrics (step (draws O) s c)) arm))%Z
        with true by (symmetry; apply Z.ltb_lt; lia).
      simpl. rewrite Hrt in *.
      set (rep := t - last_down_time (get (arm_metrics s) arm)) in *.
      set (m0 := min_rep_time (get (arm_metrics s) arm)) in *.
      split; [ intros r [<- | Hr]; [ exact Hge | now apply IHlog ] | ].
      split; [ intros _ E; discriminate | ].
      destruct (Qeq_bool_spec m0 0) as [Hz | Hz].
      * assert (Hn : ~ min_rep_time (get (arm_metrics (step (draws O) s c)) arm) == 0)
          by (rewrite Hm; lra).
        specialize (IHn Hn). rewrite Hm in IHn.
        split; [ intros _ _; exact IHn | tauto ].
      * destruct (py_min_cases rep m0) as (Hor & Hl1 & Hl2).
        assert (Hn : ~ min_rep_time (get (arm_metrics (step (draws O) s c)) arm) == 0).
        { rewrite Hm. destruct Hor as [-> | ->]; [ lra | exact Hz ]. }
        specialize (IHn Hn). rewrite Hm in IHn.
        split; [ tauto | ]. intros _.
        now apply is_minimum_head_changed with (m1 := py_min rep m0).
Qed.

(** C6 (as the code has it).  For a counter whose [min_rep_duration] is
    positive, as the default 0.6 is: starting with [min_rep_time] at 0, the
    unset sentinel a fresh metrics record carries, after every run of calls
    [min_rep_time] is still 0 if no rep was counted, and otherwise is the
    least of the rep times counted.  A call that counts a rep sets it to
    that rep's time when it finds the sentinel, and to
    [min(rep_time, min_rep_time)] when it finds a recorded time. *)
Theorem min_rep_time_is_fastest :
  forall draws s calls arm,
    0 < min_rep_duration (counter s) ->
    min_rep_time (get (arm_metrics s) arm) == 0 ->
    let m := min_rep_time (get (arm_metrics (run draws s calls)) arm) in
    let log := counted_reps draws s calls arm in
    min_rep_time fresh_metrics = 0 /\
    (log = [] -> m == 0) /\
    (log <> [] -> is_minimum m log) /\
    (forall draw s1 c,
       let m1 := get (arm_metrics s1) arm in
       let m1' := get (arm_metrics (step draw s1 c)) arm in
       rep_count m1' <> rep_count m1 ->
       (min_rep_time m1 == 0 -> min_rep_time m1' = rep_time m1') /\
       (~ min_rep_time m1 == 0 ->
        min_rep_time m1' = py_min (rep_time m1') (min_rep_time m1))).
Proof.
  intros draws s calls arm Hpos Hz m log.
  destruct (min_rep_time_invariant arm calls draws s Hpos) as (_ & H1 & H2 & _).
  split; [ reflexivity | ].
  split; [ intros Hl; subst m; rewrite (H1 Hz Hl); exact Hz | ].
  split; [ exact (H2 Hz) | ].
  intros draw s1 c m1 m1' Hne. subst m1 m1'.
  destruct (step_count_cases draw s1 c arm)
    as [(Hc & _) | (angle & t & _ & _ & _ & _ & _ & Hrt & Hm & _)];
    [ congruence | ].
  rewrite Hm, Hrt.
  destruct (Qeq_bool_spec (min_rep_time (get (arm_metrics s1) arm)) 0);
    split; intros; tauto || reflexivity.
Qed.

(** After [one_rep_calls] on a fresh session with the default duration, the
    one rep counted took 0.9 s and [min_rep_time] is that. *)
Lemma min_rep_time_is_fastest_witness :
  is_minimum
    (min_rep_time
       (get (arm_metrics
               (run (fun _ => O)
                    (fresh_session scenario_calibration default_min_rep_duration)
                    one_rep_calls)) RIGHT))
    (counted_reps (fun _ => O)
       (fresh_session scenario_calibration default_min_rep_duration)
       one_rep_calls RIGHT).
Proof.
  assert (Hpos : 0 < min_rep_duration
                       (counter (fresh_session scenario_calibration
                                               default_min_rep_duration)))
    by reflexivity.
  assert (Hz : min_rep_time
                 (get (arm_metrics (fresh_session scenario_calibration
                                                  default_min_rep_duration)) RIGHT)
               == 0) by reflexivity.
  pose proof (min_rep_time_is_fastest (fun _ => O)
                (fresh_session scenario_calibration default_min_rep_duration)
                one_rep_calls RIGHT Hpos Hz) as (_ & _ & H & _).
  apply H. intros E. vm_compute in E. discriminate.
Defined.

(** C6 as stated fails for a counter built with [min_rep_duration = 0], on
    a clock that reads 0 in mid-session: the first rep of
    [zero_length_rep_calls] is counted with [rep_time = 0], which leaves
    [min_rep_time] at the sentinel; the second, of 2.3 s, then takes the
    place of the minimum though a shorter rep was counted. *)
Lemma min_rep_time_sentinel_collision :
  counted_reps (fun _ => O) (fresh_session scenario_calibration 0)
               zero_length_rep_calls RIGHT = [0; 23 # 10] /\
  min_rep_time
    (get (arm_metrics (run (fun _ => O) (fresh_session scenario_calibration 0)
                           zero_length_rep_calls)) RIGHT) = 23 # 10 /\
  ~ is_minimum
      (min_rep_time
         (get (arm_metrics (run (fun _ => O) (fresh_session scenario_calibration 0)
                                zero_length_rep_calls)) RIGHT))
      (counted_reps (fun _ => O) (fresh_session scenario_calibration 0)
                    zero_length_rep_calls RIGHT).
Proof.
  assert (H1 : counted_reps (fun _ => O) (fresh_session scenario_calibration 0)
                 zero_length_rep_calls RIGHT = [0; 23 # 10])
    by (vm_compute; reflexivity).
  assert (H2 : min_rep_time
                 (get (arm_metrics (run (fun _ => O)
                                        (fresh_session scenario_calibration 0)
                                        zero_length_rep_calls)) RIGHT) = 23 # 10)
    by (vm_compute; reflexivity).
  split; [ exact H1 | ]. split; [ exact H2 | ].
  rewrite H1, H2. intros [_ Hle].
  specialize (Hle 0 (or_introl eq_refl)). vm_compute in Hle. now apply Hle.
Qed.

(** ** The history counters *)

Lemma getattr_bump_same history arm :
  getattr_feedback_count (bump_feedback_count history arm) arm
  = (getattr_feedback_count history arm + 1)%Z.
Proof. now destruct arm. Qed.

Lemma getattr_bump_other history arm other :
  other <> arm ->
  getattr_feedback_count (bump_feedback_count history arm) other
  = getattr_feedback_count history other.
Proof. destruct arm, other; simpl; congruence. Qed.

Lemma getattr_bump_le history arm a :
  (getattr_feedback_count history a
   <= getattr_feedback_count (bump_feedback_count history arm) a)%Z.
Proof. destruct arm, a; simpl; lia. Qed.

Lemma provide_form_feedback_history self angle metrics c e arm history v t :
  snd (_provide_form_feedback self angle metrics c e arm history v t) = history \/
  snd (_provide_form_feedback self angle metrics c e arm history v t)
  = bump_feedback_count history arm.
Proof.
  unfold _provide_form_feedback.
  repeat match goal with |- context [if ?b then _ else _] => destruct b end;
    simpl; auto.
Qed.

Lemma process_rep_history draw self arm angle metrics t history :
  snd (process_rep draw self arm angle metrics t history) = history \/
  snd (process_rep draw self arm angle metrics t history)
  = bump_feedback_count history arm.
Proof.
  destruct (velocity_of (deque_append 8 (get (angle_history self) arm) angle))
    as [v|] eqn:Hv.
  - destruct (process_rep_advice draw self arm angle metrics t history v Hv)
      as (m1 & _ & Heq).
    apply (f_equal snd) in Heq. simpl in Heq. rewrite Heq.
    apply provide_form_feedback_history.
  - rewrite process_rep_skipped by exact Hv. now left.
Qed.

Lemma step_history_monotone draw s c a :
  (getattr_feedback_count (history s) a
   <= getattr_feedback_count (history (step draw s c)) a)%Z.
Proof.
  destruct c as [arm angle t | arm]; [ | simpl; lia ].
  rewrite step_process_rep. simpl.
  destruct (process_rep_history draw (counter s) arm angle (get (arm_metrics s) arm)
              t (history s)) as [-> | ->]; [ lia | apply getattr_bump_le ].
Qed.

Lemma run_history_monotone draws s calls a :
  (getattr_feedback_count (history s) a
   <= getattr_feedback_count (history (run draws s calls)) a)%Z.
Proof.
  revert draws s. induction calls as [|c calls IH]; intros draws s; simpl.
  - lia.
  - specialize (IH (later draws) (step (draws O) s c)).
    pose proof (step_history_monotone (draws O) s c a). lia.
Qed.

(** C8 (as the code has it).  The history has one counter per arm,
    [<arm>_feedback_count], which all four conditions share.  A sample
    processed with a velocity adds exactly one to the counter of its arm
    when a condition holds (angle over 178, angle under 2, or the arm
    stalled short of an end) and leaves the history alone otherwise; a
    sample without a velocity leaves it alone.  The other arm's counter is
    never touched, and over any run of calls, resets included, no counter
    decreases. *)
Theorem feedback_count_once_per_sample :
  forall draw self arm angle metrics t hist,
    let c := contracted_threshold (calibration self) in
    let e := extended_threshold (calibration self) in
    let r := process_rep draw self arm angle metrics t hist in
    let metrics' := snd (fst r) in
    let history' := snd r in
    (forall v,
       velocity_of (deque_append 8 (get (angle_history self) arm) angle) = Some v ->
       (178 < angle \/ angle < 2 \/ stalled_short v angle c e (stage metrics') ->
        history' = bump_feedback_count hist arm) /\
       (2 <= angle <= 178 -> ~ stalled_short v angle c e (stage metrics') ->
        history' = hist)) /\
    (velocity_of (deque_append 8 (get (angle_history self) arm) angle) = None ->
     history' = hist) /\
    getattr_feedback_count (bump_feedback_count hist arm) arm
      = (getattr_feedback_count hist arm + 1)%Z /\
    (forall other, other <> arm ->
       getattr_feedback_count history' other = getattr_feedback_count hist other) /\
    (forall draws s calls a,
       (getattr_feedback_count (history s) a
        <= getattr_feedback_count (history (run draws s calls)) a)%Z).
Proof.
  intros draw self arm angle metrics t hist c e r metrics' history'.
  subst c e metrics' history' r.
  split; [ | split; [ | split; [ | split ] ] ].
  - intros v Hv.
    destruct (process_rep_advice draw self arm angle metrics t hist v Hv)
      as (m1 & Hst & Heq).
    rewrite <- Hst. apply (f_equal snd) in Heq. simpl in Heq. rewrite Heq.
    split.
    + intros [H | [H | H]].
      * now rewrite advisor_over_extending.
      * now rewrite advisor_over_curling.
      * destruct (Qlt_le_dec 178 angle); [ now rewrite advisor_over_extending | ].
        destruct (Qlt_le_dec angle 2); [ now rewrite advisor_over_curling | ].
        destruct H as [Hv' [[Hs Ha] | [Hs Ha]]].
        -- rewrite advisor_curl_higher; auto.
        -- rewrite advisor_extend_fully; auto.
    + intros Ha Hn. now rewrite advisor_positive.
  - intros Hv. now rewrite process_rep_skipped.
  - apply getattr_bump_same.
  - intros other Ho.
    destruct (process_rep_history draw self arm angle metrics t hist) as [-> | ->];
      [ reflexivity | now apply getattr_bump_other ].
  - apply run_history_monotone.
Qed.

(** Scenario C: a frame at 179 degrees on a buffer of three adds one to the
    right arm's counter. *)
Lemma feedback_count_once_per_sample_witness :
  let self := set_angle_history
                (__init__ scenario_calibration default_min_rep_duration)
                (mkPerArm [179; 179; 179] []) in
  snd (process_rep 0 self RIGHT 179 fresh_metrics 1 (mkHistory 4 7)) = mkHistory 5 7.
Proof.
  intros self.
  pose proof (feedback_count_once_per_sample 0 self RIGHT 179 fresh_metrics 1
                (mkHistory 4 7)) as (H & _).
  destruct (H (Qabs (179 - 179) / 3) eq_refl) as [Hb _].
  cbv zeta in Hb. rewrite Hb; [ reflexivity | ].
  left. reflexivity.
Defined.

(** C8 as stated fails on "distinct counters per condition": from one and
    the same state, a frame over 178 degrees and a frame under 2 degrees
    get different feedback and leave the same history, and one after the
    other they bring the one counter of the arm from 0 to 2. *)
Lemma safety_conditions_share_one_counter :
  feedback (snd (fst (process_rep 0
     (set_angle_history (__init__ scenario_calibration default_min_rep_duration)
                        (mkPerArm [100; 100; 100] []))
     RIGHT 179 fresh_metrics 1 (mkHistory 0 0)))) = "Over Extending"%string /\
  feedback (snd (fst (process_rep 0
     (set_angle_history (__init__ scenario_calibration default_min_rep_duration)
                        (mkPerArm [100; 100; 100] []))
     RIGHT 1 fresh_metrics 1 (mkHistory 0 0)))) = "Over Curling"%string /\
  snd (process_rep 0
     (set_angle_history (__init__ scenario_calibration default_min_rep_duration)
                        (mkPerArm [100; 100; 100] []))
     RIGHT 179 fresh_metrics 1 (mkHistory 0 0))
  = snd (process_rep 0
     (set_angle_history (__init__ scenario_calibration default_min_rep_duration)
                        (mkPerArm [100; 100; 100] []))
     RIGHT 1 fresh_metrics 1 (mkHistory 0 0)) /\
  history (run (fun _ => O)
     (mkSession
        (set_angle_history (__init__ scenario_calibration default_min_rep_duration)
                           (mkPerArm [100; 100; 100] []))
        (mkPerArm fresh_metrics fresh_metrics) (mkHistory 0 0))
     [ProcessRep RIGHT 179 1; ProcessRep RIGHT 1 (11 # 10)])
  = mkHistory 2 0.
Proof. repeat split. Qed.

(** ** Two runs on the same inputs *)

Lemma random_choice_In draw l : l <> [] -> In (random_choice draw l) l.
Proof.
  intros Hl. unfold random_choice. apply nth_In.
  apply Nat.mod_upper_bound. now destruct l.
Qed.

Lemma alike_refl l x : alike l x x.
Proof. now left. Qed.

Lemma forget_compliment_eq s1 s2 :
  forget_compliment s1 = forget_compliment s2 ->
  s2 = set_current_compliment s1 (current_compliment s2).
Proof.
  destruct s1, s2. unfold forget_compliment, set_current_compliment. simpl.
  intros H. injection H as -> -> -> -> -> -> -> -> -> ->. reflexivity.
Qed.

Lemma forget_feedback_eq m1 m2 :
  forget_feedback m1 = forget_feedback m2 -> m2 = set_feedback m1 (feedback m2).
Proof.
  destruct m1, m2. unfold forget_feedback, set_feedback. simpl.
  intros H. injection H as -> -> -> -> -> -> ->. reflexivity.
Qed.

(** The Lifecycle Tracker neither reads the stored compliments nor the
    feedback, and what it stores is a phrase of the fixed set. *)
Lemma handle_state_transition_alike d1 d2 s arm prev new m t cc fb :
  compliments s <> [] ->
  let r1 := _handle_state_transition d1 s arm prev new m t in
  let r2 := _handle_state_transition d2 (set_current_compliment s cc) arm prev new
              (set_feedback m fb) t in
  forget_compliment (fst r1) = forget_compliment (fst r2) /\
  forget_feedback (snd r1) = forget_feedback (snd r2) /\
  feedback (snd r1) = feedback m /\ feedback (snd r2) = fb /\
  forall a,
    alike (compliments s) (get (current_compliment s) a) (get cc a) ->
    alike (compliments s) (get (current_compliment (fst r1)) a)
          (get (current_compliment (fst r2)) a).
Proof.
  intros Hl r1 r2. subst r1 r2. unfold _handle_state_transition. simpl.
  repeat match goal with |- context [if ?b then _ else _] => destruct b end;
    simpl; repeat (split; [ reflexivity | ]); try (intros a Ha; exact Ha).
  all: intros a Ha; destruct (arm_eq_dec a arm) as [-> | Hne];
    [ rewrite !get_set_same; right; split; now apply random_choice_In
    | rewrite !get_set_other by exact Hne; exact Ha ].
Qed.

Lemma confirm_state_alike d1 d2 s arm prev target v m t cc fb :
  compliments s <> [] ->
  let r1 := confirm_state d1 s arm prev target v m t in
  let r2 := confirm_state d2 (set_current_compliment s cc) arm prev target v
              (set_feedback m fb) t in
  forget_compliment (fst r1) = forget_compliment (fst r2) /\
  forget_feedback (snd r1) = forget_feedback (snd r2) /\
  feedback (snd r1) = feedback m /\ feedback (snd r2) = fb /\
  forall a,
    alike (compliments s) (get (current_compliment s) a) (get cc a) ->
    alike (compliments s) (get (current_compliment (fst r1)) a)
          (get (current_compliment (fst r2)) a).
Proof.
  intros Hl r1 r2. subst r1 r2. unfold confirm_state.
  simpl pending_state. simpl pending_state_start. simpl state_hold_time.
  destruct (negb (stage_eqb target prev)).
  - destruct (pending_is (get (pending_state s) arm) target).
    + destruct (Qgeb _ _ && Qltb v 15).
      * now apply handle_state_transition_alike.
      * simpl. repeat (split; [ reflexivity | ]). intros a Ha. exact Ha.
    + simpl. repeat (split; [ reflexivity | ]). intros a Ha. exact Ha.
  - simpl. repeat (split; [ reflexivity | ]). intros a Ha. exact Ha.
Qed.

(** The advisor reads the stored compliment only to show it. *)
Lemma provide_form_feedback_alike s angle m c e arm h v t cc fb :
  let r1 := _provide_form_feedback s angle m c e arm h v t in
  let r2 := _provide_form_feedback (set_current_compliment s cc) angle
              (set_feedback m fb) c e arm h v t in
  forget_feedback (fst r1) = forget_feedback (fst r2) /\
  snd r1 = snd r2 /\
  (alike (compliments s) (get (current_compliment s) arm) (get cc arm) ->
   alike (compliments s) (feedback (fst r1)) (feedback (fst r2))).
Proof.
  intros r1 r2. subst r1 r2. unfold _provide_form_feedback. simpl.
  repeat match goal with |- context [if ?b then _ else _] => destruct b end;
    simpl; repeat (split; [ reflexivity | ]);
    intros Ha; (exact Ha || apply alike_refl).
Qed.

Lemma process_rep_alike d1 d2 s arm angle m t h cc fb :
  compliments s <> [] ->
  let r1 := process_rep d1 s arm angle m t h in
  let r2 := process_rep d2 (set_current_compliment s cc) arm angle
              (set_feedback m fb) t h in
  forget_compliment (fst (fst r1)) = forget_compliment (fst (fst r2)) /\
  forget_feedback (snd (fst r1)) = forget_feedback (snd (fst r2)) /\
  snd r1 = snd r2 /\
  (forall a,
     alike (compliments s) (get (current_compliment s) a) (get cc a) ->
     alike (compliments s) (get (current_compliment (fst (fst r1))) a)
           (get (current_compliment (fst (fst r2))) a)) /\
  (alike (compliments s) (get (current_compliment s) arm) (get cc arm) ->
   alike (compliments s) (feedback m) fb ->
   alike (compliments s) (feedback (snd (fst r1))) (feedback (snd (fst r2)))).
Proof.
  intros Hl r1 r2. subst r1 r2. unfold process_rep.
  simpl angle_history. cbv zeta.
  set (buffer := deque_append 8 (get (angle_history s) arm) angle).
  rewrite !get_set_same.
  destruct (velocity_of buffer) as [v|].
  2:{ simpl. repeat (split; [ reflexivity | ]). split; [ | tauto ].
      intros a Ha. exact Ha. }
  set (s0 := set_angle_history s (set (angle_history s) arm buffer)).
  change (set_angle_history (set_current_compliment s cc)
            (set (angle_history s) arm buffer))
    with (set_current_compliment s0 cc).
  change (set_angle (set_feedback m fb) angle)
    with (set_feedback (set_angle m angle) fb).
  rewrite !process_rep_classified_stages. cbv zeta. simpl fst. simpl snd.
  simpl calibration. simpl stage.
  change (_determine_target_state (set_current_compliment s0 cc))
    with (_determine_target_state s0).
  set (target := _determine_target_state s0 angle _ _ (stage m)).
  destruct (confirm_state_alike d1 d2 s0 arm (stage m) target v (set_angle m angle)
              t cc fb Hl) as (Hs & Hm & Hf1 & Hf2 & Hcc).
  pose proof (confirm_state_settings d1 s0 arm (stage m) target v
                (set_angle m angle) t) as (_ & _ & _ & Hcomp & _).
  set (sm1 := confirm_state d1 s0 arm (stage m) target v (set_angle m angle) t) in *.
  set (sm2 := confirm_state d2 (set_current_compliment s0 cc) arm (stage m) target v
                (set_feedback (set_angle m angle) fb) t) in *.
  destruct sm1 as [s1 m1], sm2 as [s2 m2]. simpl fst in *. simpl snd in *.
  change (compliments s0) with (compliments s) in *.
  change (current_compliment s0) with (current_compliment s) in *.
  apply forget_compliment_eq in Hs. apply forget_feedback_eq in Hm.
  rewrite Hs, Hm. simpl stage. simpl rep_start_time.
  set (m1' := if stage_eqb (stage m1) UP
              then set_curr_rep_time m1 (t - get (rep_start_time s1) arm) else m1).
  assert (Hm' : (if stage_eqb (stage m1) UP
                 then set_curr_rep_time (set_feedback m1 (feedback m2))
                        (t - get (rep_start_time s1) arm)
                 else set_feedback m1 (feedback m2))
                = set_feedback m1' (feedback m2))
    by (subst m1'; destruct (stage_eqb (stage m1) UP); reflexivity).
  rewrite Hm'.
  destruct (provide_form_feedback_alike s1 angle m1'
              (contracted_threshold (calibration s))
              (extended_threshold (calibration s)) arm h v t
              (current_compliment s2) (feedback m2)) as (Hp1 & Hp2 & Hp3).
  rewrite <- Hcomp in Hp3.
  split; [ reflexivity | ]. split; [ exact Hp1 | ]. split; [ exact Hp2 | ].
  split.
  - intros a Ha. specialize (Hcc a Ha). rewrite Hs in Hcc. exact Hcc.
  - intros Ha _. apply Hp3. specialize (Hcc arm Ha). rewrite Hs in Hcc. exact Hcc.
Qed.

Lemma step_same_but_compliment d1 d2 s1 s2 c :
  compliments (counter s1) <> [] ->
  same_but_compliment s1 s2 ->
  same_but_compliment (step d1 s1 c) (step d2 s2 c).
Proof.
  intros Hl (Hc & Hh & Hall).
  destruct s1 as [c1 ms1 h1], s2 as [c2 ms2 h2]. simpl in *. subst h2.
  apply forget_compliment_eq in Hc.
  remember (current_compliment c2) as cc2 eqn:E. clear E. subst c2.
  destruct c as [arm angle t | arm].
  - rewrite !step_process_rep. simpl counter. simpl arm_metrics. simpl history.
    destruct (Hall arm) as (Hm & Hcc & Hfb).
    apply forget_feedback_eq in Hm. rewrite Hm.
    simpl current_compliment in *.
    destruct (process_rep_alike d1 d2 c1 arm angle (get ms1 arm) t h1
                cc2 (feedback (get ms2 arm)) Hl)
      as (H1 & H2 & H3 & H4 & H5).
    pose proof (process_rep_settings d1 c1 arm angle (get ms1 arm) t h1)
      as (_ & _ & _ & Hcomp & _).
    unfold same_but_compliment. simpl counter. simpl arm_metrics. simpl history.
    rewrite <- Hcomp.
    split; [ exact H1 | ]. split; [ exact H3 | ].
    intros a. destruct (Hall a) as (Hma & Hcca & Hfba).
    split; [ | split ].
    + destruct (arm_eq_dec a arm) as [-> | Hne].
      * rewrite !get_set_same. exact H2.
      * rewrite !get_set_other by exact Hne. exact Hma.
    + apply H4. exact Hcca.
    + destruct (arm_eq_dec a arm) as [-> | Hne].
      * rewrite !get_set_same. now apply H5.
      * rewrite !get_set_other by exact Hne. exact Hfba.
  - unfold same_but_compliment. simpl.
    split; [ reflexivity | ]. split; [ reflexivity | ]. exact Hall.
Qed.

Lemma run_same_but_compliment calls :
  forall d1 d2 s1 s2,
    compliments (counter s1) <> [] ->
    same_but_compliment s1 s2 ->
    same_but_compliment (run d1 s1 calls) (run d2 s2 calls).
Proof.
  induction calls as [|c calls IH]; intros d1 d2 s1 s2 Hl Hs; simpl.
  - exact Hs.
  - apply IH.
    + pose proof (step_settings (d1 O) s1 c) as (_ & _ & _ & <- & _). exact Hl.
    + now apply step_same_but_compliment.
Qed.

Lemma same_but_compliment_refl s : same_but_compliment s s.
Proof.
  split; [ reflexivity | ]. split; [ reflexivity | ].
  intros arm. split; [ reflexivity | split; apply alike_refl ].
Qed.

Lemma run_draws_ext calls :
  forall d1 d2 s, (forall i, d1 i = d2 i) -> run d1 s calls = run d2 s calls.
Proof.
  induction calls as [|c calls IH]; intros d1 d2 s H; simpl; [ reflexivity | ].
  rewrite (H O). apply IH. intros i. apply H.
Qed.

(** C9 (as the code has it).  Two runs from the same session on the same
    calls agree, whatever the generator yields in each, on the counter but
    for the compliments stored, on the history counters and on every
    metrics field but the feedback: stage, [rep_count], timing fields and
    angle.  Their feedback strings are the same or are both phrases of the
    fixed set, and so are the compliments stored.  When the generator
    yields the same in both, the two runs end in the same session. *)
Theorem runs_agree_up_to_compliment :
  forall draws1 draws2 s calls,
    compliments (counter s) <> [] ->
    let s1 := run draws1 s calls in
    let s2 := run draws2 s calls in
    same_but_compliment s1 s2 /\
    history s1 = history s2 /\
    (forall arm,
       let m1 := get (arm_metrics s1) arm in
       let m2 := get (arm_metrics s2) arm in
       stage m1 = stage m2 /\ rep_count m1 = rep_count m2 /\
       rep_time m1 = rep_time m2 /\ min_rep_time m1 = min_rep_time m2 /\
       curr_rep_time m1 = curr_rep_time m2 /\
       last_down_time m1 = last_down_time m2 /\ angle m1 = angle m2 /\
       alike (compliments (counter s)) (feedback m1) (feedback m2)) /\
    ((forall i, draws1 i = draws2 i) -> s1 = s2).
Proof.
  intros draws1 draws2 s calls Hl s1 s2.
  assert (H : same_but_compliment s1 s2)
    by (apply run_same_but_compliment; [ exact Hl | apply same_but_compliment_refl ]).
  split; [ exact H | ].
  destruct H as (_ & Hh & Hall).
  split; [ exact Hh | ]. split.
  - intros arm m1 m2. destruct (Hall arm) as (Hm & _ & Hfb).
    fold m1 m2 in Hm, Hfb.
    assert (Hcomp : compliments (counter s1) = compliments (counter s)).
    { subst s1. clear. revert draws1 s.
      induction calls as [|c calls IH]; intros draws1 s; simpl; [ reflexivity | ].
      rewrite IH. pose proof (step_settings (draws1 O) s c) as (_ & _ & _ & <- & _).
      reflexivity. }
    rewrite Hcomp in Hfb.
    unfold forget_feedback, set_feedback in Hm.
    injection Hm as -> -> -> -> -> -> ->. repeat split. exact Hfb.
  - intros Hd. now apply run_draws_ext.
Qed.

(** [one_rep_calls] on a fresh session, once with the generator yielding 0
    and once yielding 1. *)
Lemma runs_agree_up_to_compliment_witness :
  same_but_compliment
    (run (fun _ => 0%nat) (fresh_session scenario_calibration default_min_rep_duration)
         one_rep_calls)
    (run (fun _ => 1%nat) (fresh_session scenario_calibration default_min_rep_duration)
         one_rep_calls).
Proof.
  assert (H : compliments
                (counter (fresh_session scenario_calibration default_min_rep_duration))
              <> []) by discriminate.
  exact (proj1 (runs_agree_up_to_compliment (fun _ => 0%nat) (fun _ => 1%nat)
                  (fresh_session scenario_calibration default_min_rep_duration)
                  one_rep_calls H)).
Defined.

(** C9 as stated fails on the feedback string: the same session and the
    same calls, and the two runs show different compliments after the rep,
    because [random.choice] picked differently. *)
Lemma same_inputs_different_feedback :
  feedback (get (arm_metrics
                   (run (fun _ => 0%nat)
                        (fresh_session scenario_calibration default_min_rep_duration)
                        one_rep_calls)) RIGHT) = "Looking Strong!"%string /\
  feedback (get (arm_metrics
                   (run (fun _ => 1%nat)
                        (fresh_session scenario_calibration default_min_rep_duration)
                        one_rep_calls)) RIGHT) = "Great Control!"%string /\
  feedback (get (arm_metrics
                   (run (fun _ => 0%nat)
                        (fresh_session scenario_calibration default_min_rep_duration)
                        one_rep_calls)) RIGHT)
  <> feedback (get (arm_metrics
                      (run (fun _ => 1%nat)
                           (fresh_session scenario_calibration default_min_rep_duration)
                           one_rep_calls)) RIGHT).
Proof.
  split; [ reflexivity | ]. split; [ reflexivity | ].
  intros E. vm_compute in E. discriminate.
Qed.

(** * Further properties of the code *)

(** ** What no call assigns *)

(** X1.  Over any run of calls the counter keeps the calibration,
    [min_rep_duration], [state_hold_time], the list of compliments and the
    hysteresis margin it was built with. *)
Theorem run_keeps_settings :
  forall draws s calls, same_settings (counter s) (counter (run draws s calls)).
Proof.
  intros draws s calls. revert draws s.
  induction calls as [|c calls IH]; intros draws s; simpl.
  - repeat split.
  - specialize (IH (later draws) (step (draws O) s c)).
    pose proof (step_settings (draws O) s c) as H.
    unfold same_settings in *. intuition congruence.
Qed.

(** ** The stage machine *)

Lemma target_allowed self angle c e st :
  _determine_target_state self angle c e st = st \/
  allowed_transition st (_determine_target_state self angle c e st) = true.
Proof.
  unfold _determine_target_state.
  repeat match goal with |- context [if ?b then _ else _] => destruct b end;
    destruct st; simpl; auto.
Qed.

(** X2.  A call of [process_rep] leaves the stage as it was or moves it
    along an edge of the stage machine: UP to DOWN or MOVING_DOWN, DOWN to UP
    or MOVING_UP, any other stage to UP or DOWN.  So MOVING_DOWN is entered
    from UP only, MOVING_UP from DOWN only, and a stage that is one of the
    four named ones stays one of them. *)
Theorem stage_moves_along_edges :
  forall draw self arm angle metrics t history,
    let m' := snd (fst (process_rep draw self arm angle metrics t history)) in
    (stage m' = stage metrics \/ allowed_transition (stage metrics) (stage m') = true) /\
    (stage m' = MOVING_DOWN -> stage metrics = UP \/ stage metrics = MOVING_DOWN) /\
    (stage m' = MOVING_UP -> stage metrics = DOWN \/ stage metrics = MOVING_UP) /\
    (stage m' = OTHER -> stage metrics = OTHER).
Proof.
  intros draw self arm angle metrics t history m'.
  assert (H : stage m' = stage metrics \/
              allowed_transition (stage metrics) (stage m') = true).
  { subst m'.
    destruct (process_rep_cases draw self arm angle metrics t history)
      as [((cur & fb & Hm & _) & _)
         | (v & _ & _ & _ & _ & _ & _ & cur & fb & Hm & _)];
      rewrite Hm; simpl.
    - now left.
    - rewrite handle_state_transition_stage. apply target_allowed. }
  split; [ exact H | ].
  destruct H as [-> | H].
  - repeat split; intros; auto.
  - destruct (stage metrics), (stage m'); simpl in H;
      repeat split; intros; auto; discriminate.
Qed.

(** X3.  The classifier is idempotent: classifying an angle from the stage
    it has just answered gives that stage again.  A stage committed for an
    angle is therefore its own target for that angle. *)
Theorem determine_target_state_idempotent :
  forall self angle contracted extended current_stage,
    _determine_target_state self angle contracted extended
      (_determine_target_state self angle contracted extended current_stage)
    = _determine_target_state self angle contracted extended current_stage.
Proof.
  intros self angle contracted extended current_stage.
  unfold _determine_target_state.
  destruct (Qle_bool angle (contracted - hysteresis_margin self)) eqn:E1;
    [ reflexivity | ].
  destruct (Qgeb angle (extended + hysteresis_margin self)) eqn:E2;
    [ reflexivity | ].
  destruct current_stage; try reflexivity.
  - destruct (Qltb angle (contracted + hysteresis_margin self)); reflexivity.
  - destruct (Qgtb angle (extended - hysteresis_margin self)); reflexivity.
Qed.

(** A processed call, seen from the confirmation block: the counter is the
    one the block leaves, the metrics are the block's but for
    [curr_rep_time] and [feedback]. *)
Lemma process_rep_confirmed draw self arm angle metrics t history v :
  velocity_of (deque_append 8 (get (angle_history self) arm) angle) = Some v ->
  let self0 := set_angle_history self
                 (set (angle_history self) arm
                      (deque_append 8 (get (angle_history self) arm) angle)) in
  let sm := confirm_state draw self0 arm (stage metrics)
              (_determine_target_state self angle
                 (contracted_threshold (calibration self))
                 (extended_threshold (calibration self)) (stage metrics))
              v (set_angle metrics angle) t in
  let r := process_rep draw self arm angle metrics t history in
  fst (fst r) = fst sm /\
  exists cur fb,
    snd (fst r) = set_feedback (set_curr_rep_time (snd sm) cur) fb /\
    (stage (snd sm) <> UP -> cur = curr_rep_time (snd sm)) /\
    (stage (snd sm) = UP -> cur = t - get (rep_start_time (fst sm)) arm).
Proof.
  intros Hv self0 sm r. subst r.
  rewrite (process_rep_processed _ _ _ _ _ _ _ v Hv).
  change (set_angle_history _ _) with self0.
  exact (process_rep_classified_shape draw self0 arm angle
           (set_angle metrics angle) t history v).
Qed.

Lemma target_reads_margin_only s1 s2 angle c e st :
  hysteresis_margin s1 = hysteresis_margin s2 ->
  _determine_target_state s1 angle c e st = _determine_target_state s2 angle c e st.
Proof. intros H. unfold _determine_target_state. now rewrite H. Qed.

Lemma target_of_target self angle c e st :
  _determine_target_state self angle c e (_determine_target_state self angle c e st)
  = _determine_target_state self angle c e st.
Proof.
  unfold _determine_target_state.
  repeat match goal with |- context [if ?b then _ else _] => destruct b end;
    destruct st; reflexivity.
Qed.

Lemma velocity_of_some_length l v : velocity_of l = Some v -> (4 <= List.length l)%nat.
Proof.
  unfold velocity_of. destruct (Nat.ltb_spec (List.length l) 4); [ discriminate | auto ].
Qed.

Lemma velocity_of_length_some l :
  (4 <= List.length l)%nat -> exists v, velocity_of l = Some v.
Proof. intros H. rewrite velocity_of_long by exact H. eauto. Qed.

(** X4.  A stage just committed is stable: when a call has changed the
    stage, the next call for the same arm with the same angle, whatever its
    timestamp, is processed, clears the pending candidate and leaves the
    stage and [rep_count] as the first call left them. *)
Theorem committed_stage_is_stable :
  forall d1 d2 self arm angle metrics t1 t2 history,
    let r1 := process_rep d1 self arm angle metrics t1 history in
    let r2 := process_rep d2 (fst (fst r1)) arm angle (snd (fst r1)) t2 (snd r1) in
    stage (snd (fst r1)) <> stage metrics ->
    stage (snd (fst r2)) = stage (snd (fst r1)) /\
    get (pending_state (fst (fst r2))) arm = None /\
    rep_count (snd (fst r2)) = rep_count (snd (fst r1)).
Proof.
  intros d1 d2 self arm angle metrics t1 t2 history r1 r2 Hch.
  destruct (process_rep_cases d1 self arm angle metrics t1 history)
    as [((cur & fb & Hm & _) & _)
       | (v & Hv & _ & _ & _ & _ & Hs & cur & fb & Hm & _)];
    fold r1 in Hm; [ rewrite Hm in Hch; now elim Hch | ].
  fold r1 in Hs.
  set (self1 := fst (fst r1)) in *. set (m1 := snd (fst r1)) in *.
  set (target := _determine_target_state self angle
                   (contracted_threshold (calibration self))
                   (extended_threshold (calibration self)) (stage metrics)) in *.
  assert (Hst : stage m1 = target).
  { rewrite Hm. simpl. apply handle_state_transition_stage. }
  assert (Hset : same_settings self self1)
    by (apply (process_rep_settings d1 self arm angle metrics t1 history)).
  destruct Hset as (Hcal & _ & _ & _ & Hmar).
  assert (Hbuf : get (angle_history self1) arm
                 = deque_append 8 (get (angle_history self) arm) angle).
  { rewrite Hs.
    destruct (handle_state_transition_detection d1
                (set_angle_history self
                   (set (angle_history self) arm
                      (deque_append 8 (get (angle_history self) arm) angle)))
                arm (stage metrics) target (set_angle metrics angle) t1) as (-> & _).
    simpl. apply get_set_same. }
  assert (Hlen : (4 <= List.length (deque_append 8 (get (angle_history self1) arm) angle))%nat).
  { apply velocity_of_some_length in Hv. rewrite <- Hbuf in Hv.
    rewrite deque_append_bound by lia. lia. }
  destruct (velocity_of_length_some _ Hlen) as [v2 Hv2].
  destruct (process_rep_confirmed d2 self1 arm angle m1 t2 (snd r1) v2 Hv2)
    as (Hs2 & cur2 & fb2 & Hm2 & _).
  fold r2 in Hs2, Hm2.
  assert (Hsame : _determine_target_state self1 angle
                    (contracted_threshold (calibration self1))
                    (extended_threshold (calibration self1)) (stage m1)
                  = stage m1).
  { rewrite <- Hcal, Hst.
    rewrite (target_reads_margin_only self1 self) by (symmetry; exact Hmar).
    apply target_of_target. }
  rewrite confirm_state_same in Hs2, Hm2 by exact Hsame.
  rewrite Hs2, Hm2. simpl. rewrite get_set_same. repeat split.
Qed.

(** The frame after [one_rep_calls]: the stage went DOWN at 0.9 on an angle
    of 170; the same angle at 1.0 keeps it there. *)
Lemma committed_stage_is_stable_witness :
  stage (snd (fst (process_rep 0
     (fst (fst (process_rep 0 (counter (before_rep (fun _ => O))) RIGHT 170
                  (get (arm_metrics (before_rep (fun _ => O))) RIGHT)
                  (9 # 10) (history (before_rep (fun _ => O))))))
     RIGHT 170
     (snd (fst (process_rep 0 (counter (before_rep (fun _ => O))) RIGHT 170
                  (get (arm_metrics (before_rep (fun _ => O))) RIGHT)
                  (9 # 10) (history (before_rep (fun _ => O))))))
     1
     (snd (process_rep 0 (counter (before_rep (fun _ => O))) RIGHT 170
             (get (arm_metrics (before_rep (fun _ => O))) RIGHT)
             (9 # 10) (history (before_rep (fun _ => O))))))))
  = stage (snd (fst (process_rep 0 (counter (before_rep (fun _ => O))) RIGHT 170
                       (get (arm_metrics (before_rep (fun _ => O))) RIGHT)
                       (9 # 10) (history (before_rep (fun _ => O)))))).
Proof.
  refine (proj1 (committed_stage_is_stable 0 0 (counter (before_rep (fun _ => O)))
                   RIGHT 170 (get (arm_metrics (before_rep (fun _ => O))) RIGHT)
                   (9 # 10) 1 (history (before_rep (fun _ => O))) _)).
  intros E. vm_compute in E. discriminate.
Defined.

(** ** The rep clock *)

Lemma handle_state_transition_up draw self arm prev metrics t :
  prev <> UP ->
  fst (_handle_state_transition draw self arm prev UP metrics t)
  = if Qeq_bool (get (rep_start_time self) arm) 0
    then set_rep_start_time self (set (rep_start_time self) arm t)
    else self.
Proof.
  intros Hp. unfold _handle_state_transition.
  destruct (stage_eqb_spec prev UP); [ congruence | ]. simpl.
  destruct (Qeq_bool (get (rep_start_time self) arm) 0); reflexivity.
Qed.

Lemma curr_rep_time_when_up draw self arm angle metrics t history v :
  velocity_of (deque_append 8 (get (angle_history self) arm) angle) = Some v ->
  stage (snd (fst (process_rep draw self arm angle metrics t history))) = UP ->
  curr_rep_time (snd (fst (process_rep draw self arm angle metrics t history)))
  = t - get (rep_start_time
               (fst (fst (process_rep draw self arm angle metrics t history)))) arm.
Proof.
  intros Hv.
  destruct (process_rep_confirmed draw self arm angle metrics t history v Hv)
    as (Hs & cur & fb & Hm & _ & Hcur).
  rewrite Hs, Hm. simpl. exact Hcur.
Qed.

(** X5.  While the stage a processed call leaves is UP, [curr_rep_time] is
    the time since [rep_start_time] of the arm; when the call leaves another
    stage and counts no rep, [curr_rep_time] keeps its value. *)
Theorem curr_rep_time_runs_while_up :
  forall draw self arm angle metrics t history v,
    let r := process_rep draw self arm angle metrics t history in
    velocity_of (deque_append 8 (get (angle_history self) arm) angle) = Some v ->
    (stage (snd (fst r)) = UP ->
     curr_rep_time (snd (fst r)) = t - get (rep_start_time (fst (fst r))) arm) /\
    (stage (snd (fst r)) <> UP -> rep_count (snd (fst r)) = rep_count metrics ->
     curr_rep_time (snd (fst r)) = curr_rep_time metrics).
Proof.
  intros draw self arm angle metrics t history v r Hv. split.
  - subst r. now apply curr_rep_time_when_up with (v := v).
  - intros Hnu Hc.
    destruct (process_rep_count_cases draw self arm angle metrics t history)
      as [(_ & _ & _ & _ & H & _) | (_ & _ & _ & H & _)]; fold r in H.
    + now apply H.
    + rewrite H in Hc. lia.
Qed.

(** The sixth frame of [one_rep_calls], at 0.6, finds the arm UP since
    0.5. *)
Lemma curr_rep_time_runs_while_up_witness :
  curr_rep_time
    (snd (fst (process_rep 0 (counter after_up) RIGHT 170
                 (get (arm_metrics after_up) RIGHT) (6 # 10) (history after_up))))
  = (6 # 10)
    - get (rep_start_time
             (fst (fst (process_rep 0 (counter after_up) RIGHT 170
                          (get (arm_metrics after_up) RIGHT) (6 # 10)
                          (history after_up))))) RIGHT.
Proof.
  refine (proj1 (curr_rep_time_runs_while_up 0 (counter after_up) RIGHT 170
                   (get (arm_metrics after_up) RIGHT) (6 # 10) (history after_up)
                   (Qabs (170 - 30) / 3) eq_refl) _).
  reflexivity.
Defined.

(** X6.  A commit into UP sets [rep_start_time] of the arm to the current
    time only while it holds the sentinel 0, and then [curr_rep_time] starts
    from zero; a start time already recorded is kept. *)
Theorem entering_up_starts_clock_once :
  forall draw self arm angle metrics t history,
    let r := process_rep draw self arm angle metrics t history in
    stage metrics <> UP -> stage (snd (fst r)) = UP ->
    get (rep_start_time (fst (fst r))) arm
      = (if Qeq_bool (get (rep_start_time self) arm) 0
         then t else get (rep_start_time self) arm) /\
    (get (rep_start_time self) arm == 0 -> curr_rep_time (snd (fst r)) == 0).
Proof.
  intros draw self arm angle metrics t history r Hnu Hu.
  destruct (process_rep_cases draw self arm angle metrics t history)
    as [((cur & fb & Hm & _) & _)
       | (v & Hv & Hne & Hp & Hh & Hlt & Hs & cur & fb & Hm & _)];
    fold r in Hm; [ rewrite Hm in Hu; simpl in Hu; congruence | ].
  fold r in Hs.
  assert (Ht : _determine_target_state self angle
                 (contracted_threshold (calibration self))
                 (extended_threshold (calibration self)) (stage metrics) = UP).
  { rewrite Hm in Hu. simpl in Hu.
    now rewrite handle_state_transition_stage in Hu. }
  rewrite Ht in Hs. rewrite handle_state_transition_up in Hs by exact Hnu.
  simpl rep_start_time in Hs.
  assert (Hrst : get (rep_start_time (fst (fst r))) arm
                 = (if Qeq_bool (get (rep_start_time self) arm) 0
                    then t else get (rep_start_time self) arm)).
  { rewrite Hs. destruct (Qeq_bool (get (rep_start_time self) arm) 0); simpl;
      [ apply get_set_same | reflexivity ]. }
  split; [ exact Hrst | ].
  intros Hz.
  pose proof (curr_rep_time_when_up draw self arm angle metrics t history v Hv Hu)
    as Hc.
  fold r in Hc. rewrite Hc, Hrst.
  destruct (Qeq_bool_spec (get (rep_start_time self) arm) 0); [ lra | tauto ].
Qed.

(** The fifth frame of [one_rep_calls] commits UP at 0.5 with no start time
    recorded yet. *)
Lemma entering_up_starts_clock_once_witness :
  get (rep_start_time
         (fst (fst (process_rep 0 (counter before_up) RIGHT 30
                      (get (arm_metrics before_up) RIGHT) (5 # 10)
                      (history before_up))))) RIGHT
  = (if Qeq_bool (get (rep_start_time (counter before_up)) RIGHT) 0
     then 5 # 10 else get (rep_start_time (counter before_up)) RIGHT).
Proof.
  assert (H1 : stage (get (arm_metrics before_up) RIGHT) <> UP)
    by (intros E; vm_compute in E; discriminate).
  assert (H2 : stage (snd (fst (process_rep 0 (counter before_up) RIGHT 30
                                  (get (arm_metrics before_up) RIGHT) (5 # 10)
                                  (history before_up)))) = UP) by reflexivity.
  exact (proj1 (entering_up_starts_clock_once 0 (counter before_up) RIGHT 30
                  (get (arm_metrics before_up) RIGHT) (5 # 10) (history before_up)
                  H1 H2)).
Defined.

(** ** Velocity *)

Lemma neg_index_skipn l k j :
  (1 <= j)%nat -> (k + j <= List.length l)%nat ->
  neg_index (skipn k l) j = neg_index l j.
Proof.
  intros Hj Hk. unfold neg_index. rewrite nth_skipn, length_skipn.
  f_equal. lia.
Qed.

Lemma neg_index_app_last l x : neg_index (l ++ [x]) 1 = x.
Proof.
  unfold neg_index. rewrite length_app. simpl.
  replace (List.length l + 1 - 1)%nat with (List.length l) by lia.
  apply nth_middle.
Qed.

Lemma neg_index_app_older l x j :
  (1 <= j <= List.length l)%nat -> neg_index (l ++ [x]) (S j) = neg_index l j.
Proof.
  intros H. unfold neg_index. rewrite length_app. simpl.
  rewrite app_nth1 by lia. f_equal. lia.
Qed.

(** X7.  The velocity of a call compares the angle of the call with the
    sample buffered three calls earlier, whatever the buffer evicts: with at
    least three samples buffered before the call it is
    [|angle - old[-3]| / 3], which is never negative; with fewer there is
    none. *)
Theorem velocity_over_three_intervals :
  forall (old : list Q) (angle : Q),
    ((3 <= List.length old)%nat ->
     velocity_of (deque_append 8 old angle)
       = Some (Qabs (angle - neg_index old 3) / 3) /\
     0 <= Qabs (angle - neg_index old 3) / 3) /\
    ((List.length old < 3)%nat -> velocity_of (deque_append 8 old angle) = None).
Proof.
  intros old angle. split.
  - intros H. split.
    + unfold velocity_of.
      destruct (Nat.ltb_spec (List.length (deque_append 8 old angle)) 4) as [Hl | Hl];
        [ rewrite deque_append_bound in Hl by lia; lia | ].
      unfold deque_append. cbv zeta.
      rewrite !neg_index_skipn by (rewrite ?length_app; simpl; lia).
      rewrite neg_index_app_last, neg_index_app_older by lia. reflexivity.
    + pose proof (Qabs_nonneg (angle - neg_index old 3)) as Hn.
      apply Qle_shift_div_l; [ reflexivity | ]. lra.
  - intros H. apply velocity_of_short.
    rewrite deque_append_bound by lia. lia.
Qed.

(** A full buffer: the ninth sample evicts the first, and the velocity still
    compares with the sample three back. *)
Lemma velocity_over_three_intervals_witness :
  velocity_of (deque_append 8 [10; 20; 30; 40; 50; 60; 70; 80] 95)
  = Some (Qabs (95 - neg_index [10; 20; 30; 40; 50; 60; 70; 80] 3) / 3).
Proof.
  apply (velocity_over_three_intervals [10; 20; 30; 40; 50; 60; 70; 80] 95).
  simpl. lia.
Defined.

(** ** Counted reps over a run *)

(** X8.  No two reps counted for an arm are closer in time than
    [min_rep_duration]: along any run, the timestamp of each call that counts
    a rep is at least [min_rep_duration] after that of the one before, the
    first at least that long after the initial [last_down_time]; and
    [last_down_time] always holds the timestamp of the last rep counted. *)
Theorem counted_reps_are_spaced :
  forall draws s calls arm,
    let log := counted_at draws s calls arm in
    spaced (min_rep_duration (counter s))
           (last_down_time (get (arm_metrics s) arm)) log /\
    last_down_time (get (arm_metrics (run draws s calls)) arm)
      = last_or (last_down_time (get (arm_metrics s) arm)) log.
Proof.
  intros draws s calls arm. revert draws s.
  induction calls as [|c calls IH]; intros draws s; simpl.
  - split; [ exact I | reflexivity ].
  - specialize (IH (later draws) (step (draws O) s c)). cbv zeta in IH.
    pose proof (step_settings (draws O) s c) as (_ & Hd & _).
    rewrite <- Hd in IH. destruct IH as [IH1 IH2].
    destruct (step_count_cases (draws O) s c arm)
      as [(Hc & _ & _ & Hl) | (angle & t & -> & _ & _ & Hge & Hc & _ & _ & Hl & _)].
    + rewrite Hc, Z.ltb_irrefl. simpl. rewrite Hl in IH1, IH2. now split.
    + replace (rep_count (get (arm_metrics s) arm)
                 <? rep_count (get (arm_metrics
                                      (step (draws O) s (ProcessRep arm angle t))) arm))%Z
        with true by (symmetry; apply Z.ltb_lt; lia).
      simpl. rewrite Hl in IH1, IH2. repeat split; assumption.
Qed.

(** X9.  Along any run, [rep_count] of an arm grows by exactly the number of
    reps counted, every rep time counted is at least [min_rep_duration], and
    [rep_time] holds the time of the last rep counted (its initial value
    while there is none). *)
Theorem rep_count_matches_log :
  forall draws s calls arm,
    let log := counted_reps draws s calls arm in
    let m := get (arm_metrics s) arm in
    let m' := get (arm_metrics (run draws s calls)) arm in
    rep_count m' = (rep_count m + Z.of_nat (List.length log))%Z /\
    (forall r, In r log -> min_rep_duration (counter s) <= r) /\
    rep_time m' = last_or (rep_time m) log.
Proof.
  intros draws s calls arm. revert draws s.
  induction calls as [|c calls IH]; intros draws s; simpl.
  - split; [ lia | ]. split; [ intros r [] | reflexivity ].
  - specialize (IH (later draws) (step (draws O) s c)). cbv zeta in IH.
    pose proof (step_settings (draws O) s c) as (_ & Hd & _).
    rewrite <- Hd in IH. destruct IH as (IH1 & IH2 & IH3).
    destruct (step_count_cases (draws O) s c arm)
      as [(Hc & Hr & _) | (angle & t & _ & _ & _ & Hge & Hc & Hr & _)].
    + rewrite Hc, Z.ltb_irrefl. simpl. rewrite Hc in IH1. rewrite Hr in IH3.
      repeat split; assumption.
    + replace (rep_count (get (arm_metrics s) arm)
                 <? rep_count (get (arm_metrics (step (draws O) s c)) arm))%Z
        with true by (symmetry; apply Z.ltb_lt; lia).
      simpl List.length. simpl last_or. rewrite Hc in IH1.
      split; [ lia | ]. split; [ | exact IH3 ].
      intros r [<- | Hin]; [ rewrite Hr; exact Hge | now apply IH2 ].
Qed.

(** ** Compliments *)

(** The compliment and its timestamp are written by the call that counts a
    rep, and by no other. *)
Lemma process_rep_compliment_cases draw self arm angle metrics t history :
  let r := process_rep draw self arm angle metrics t history in
  (rep_count (snd (fst r)) = rep_count metrics /\
   last_rep_time (fst (fst r)) = last_rep_time self /\
   current_compliment (fst (fst r)) = current_compliment self)
  \/
  (rep_count (snd (fst r)) = (rep_count metrics + 1)%Z /\
   last_rep_time (fst (fst r)) = set (last_rep_time self) arm t /\
   current_compliment (fst (fst r))
     = set (current_compliment self) arm (random_choice draw (compliments self))).
Proof.
  intros r. subst r.
  destruct (process_rep_cases draw self arm angle metrics t history)
    as [((cur & fb & Hm & _) & _ & Hl & Hc)
       | (v & _ & Hne & _ & _ & _ & Hs & cur & fb & Hm & _)];
    rewrite Hm; [ left; simpl; auto | ].
  rewrite Hs. clear Hs Hm.
  set (self0 := set_angle_history self _) in *.
  set (target := _determine_target_state self angle _ _ (stage metrics)) in *.
  destruct (stage_eqb_spec (stage metrics) UP) as [Hu | Hu].
  - assert (Hin : stage_in target [MOVING_DOWN; DOWN] = true).
    { subst target. rewrite Hu in *.
      destruct (target_from_up self angle
                  (contracted_threshold (calibration self))
                  (extended_threshold (calibration self))); [ congruence | assumption ]. }
    rewrite Hu.
    destruct (Qle_bool_spec (min_rep_duration self)
                (t - last_down_time metrics)) as [Hge | Hlt].
    + right. rewrite handle_state_transition_counted by assumption.
      simpl. repeat split.
    + left. rewrite handle_state_transition_discarded by (try assumption; simpl; lra).
      simpl. repeat split.
  - left.
    destruct (handle_state_transition_other draw self0 arm (stage metrics) target
                (set_angle metrics angle) t (or_introl Hu)) as [Hs [r Hr]].
    rewrite Hs, Hr. simpl. repeat split.
Qed.

(** X10.  The call that counts a rep stamps [last_rep_time] of the arm with
    its timestamp and stores a compliment drawn from the list; unless a
    safety or stall warning applies to the sample, that compliment is the
    feedback of the call.  A call that counts no rep leaves every stored
    compliment and every [last_rep_time] as they were. *)
Theorem compliment_follows_counted_rep :
  forall draw self arm angle metrics t history,
    let c := contracted_threshold (calibration self) in
    let e := extended_threshold (calibration self) in
    let r := process_rep draw self arm angle metrics t history in
    (rep_count (snd (fst r)) = rep_count metrics ->
     last_rep_time (fst (fst r)) = last_rep_time self /\
     current_compliment (fst (fst r)) = current_compliment self) /\
    (rep_count (snd (fst r)) <> rep_count metrics ->
     get (last_rep_time (fst (fst r))) arm = t /\
     get (current_compliment (fst (fst r))) arm
       = random_choice draw (compliments self) /\
     (compliments self <> [] ->
      In (get (current_compliment (fst (fst r))) arm) (compliments self)) /\
     forall v,
       velocity_of (deque_append 8 (get (angle_history self) arm) angle) = Some v ->
       2 <= angle <= 178 ->
       ~ stalled_short v angle c e (stage (snd (fst r))) ->
       feedback (snd (fst r)) = random_choice draw (compliments self)).
Proof.
  intros draw self arm angle metrics t history c e r.
  destruct (process_rep_compliment_cases draw self arm angle metrics t history)
    as [(Hc & Hl & Hcc) | (Hc & Hl & Hcc)]; fold r in Hc, Hl, Hcc.
  - split; [ intros _; now split | intros Hn; now elim Hn ].
  - split; [ intros E; rewrite E in Hc; lia | ]. intros _.
    assert (Hcomp : get (current_compliment (fst (fst r))) arm
                    = random_choice draw (compliments self))
      by (rewrite Hcc; apply get_set_same).
    assert (Hlast : get (last_rep_time (fst (fst r))) arm = t)
      by (rewrite Hl; apply get_set_same).
    split; [ exact Hlast | ]. split; [ exact Hcomp | ].
    split; [ intros Hne; rewrite Hcomp; now apply random_choice_In | ].
    intros v Hv Ha Hn.
    destruct (process_rep_advice draw self arm angle metrics t history v Hv)
      as (m1 & Hst & Heq).
    fold r in Hst, Heq. fold c e in Heq. rewrite <- Hst in Hn.
    rewrite advisor_positive in Heq by assumption.
    apply (f_equal fst) in Heq. simpl in Heq. rewrite Heq. simpl.
    rewrite Hlast, Hcomp.
    destruct (Qltb_spec (t - t) 2); [ reflexivity | lra ].
Qed.

(** The last frame of [one_rep_calls] counts a rep; the generator yields 4,
    and the feedback is the fifth phrase of the list. *)
Lemma compliment_follows_counted_rep_witness :
  feedback (snd (fst (process_rep 4 (counter (before_rep (fun _ => O))) RIGHT 170
                        (get (arm_metrics (before_rep (fun _ => O))) RIGHT)
                        (9 # 10) (history (before_rep (fun _ => O))))))
  = random_choice 4 (compliments (counter (before_rep (fun _ => O)))).
Proof.
  pose proof (compliment_follows_counted_rep 4 (counter (before_rep (fun _ => O)))
                RIGHT 170 (get (arm_metrics (before_rep (fun _ => O))) RIGHT)
                (9 # 10) (history (before_rep (fun _ => O)))) as (_ & H).
  assert (Hn : rep_count
                 (snd (fst (process_rep 4 (counter (before_rep (fun _ => O))) RIGHT 170
                              (get (arm_metrics (before_rep (fun _ => O))) RIGHT)
                              (9 # 10) (history (before_rep (fun _ => O))))))
               <> rep_count (get (arm_metrics (before_rep (fun _ => O))) RIGHT))
    by (intros E; vm_compute in E; discriminate).
  destruct (H Hn) as (_ & _ & _ & Hf).
  apply (Hf (Qabs (170 - 170) / 3) eq_refl).
  - split; apply Qle_bool_iff; reflexivity.
  - unfold stalled_short. intros [_ [[Hs _] | [_ Hlt]]].
    + vm_compute in Hs. destruct Hs; discriminate.
    + vm_compute in Hlt. discriminate.
Defined.

(** ** What the feedback can say *)

Lemma fixed_in_vocabulary self x : In x fixed_feedback -> In x (vocabulary self).
Proof. intros H. unfold vocabulary. apply in_or_app. now left. Qed.

Lemma provide_form_feedback_vocabulary self angle metrics c e arm history v t :
  In (get (current_compliment self) arm) (vocabulary self) ->
  In (feedback (fst (_provide_form_feedback self angle metrics c e arm history v t)))
     (vocabulary self).
Proof.
  intros Hc. unfold _provide_form_feedback.
  repeat match goal with |- context [if ?b then _ else _] => destruct b end;
    simpl; try exact Hc; apply fixed_in_vocabulary; simpl; tauto.
Qed.

Lemma step_vocabulary draw s c :
  compliments (counter s) <> [] ->
  (forall a, In (get (current_compliment (counter s)) a) (vocabulary (counter s))) ->
  forall a,
    In (get (current_compliment (counter (step draw s c))) a) (vocabulary (counter s)) /\
    (feedback (get (arm_metrics (step draw s c)) a) = feedback (get (arm_metrics s) a) \/
     In (feedback (get (arm_metrics (step draw s c)) a)) (vocabulary (counter s))).
Proof.
  intros Hne Hj a.
  destruct c as [arm angle t | arm]; [ | simpl; split; [ apply Hj | now left ] ].
  rewrite step_process_rep. simpl counter. simpl arm_metrics.
  set (r := process_rep draw (counter s) arm angle (get (arm_metrics s) arm) t
              (history s)).
  assert (Hcc : forall b, In (get (current_compliment (fst (fst r))) b)
                             (vocabulary (counter s))).
  { intros b.
    destruct (process_rep_compliment_cases draw (counter s) arm angle
                (get (arm_metrics s) arm) t (history s))
      as [(_ & _ & Hc) | (_ & _ & Hc)]; fold r in Hc; rewrite Hc; [ apply Hj | ].
    destruct (arm_eq_dec b arm) as [-> | Hb].
    - rewrite get_set_same. unfold vocabulary. apply in_or_app. right.
      now apply random_choice_In.
    - rewrite get_set_other by exact Hb. apply Hj. }
  split; [ apply Hcc | ].
  destruct (arm_eq_dec a arm) as [-> | Ha];
    [ rewrite get_set_same | rewrite get_set_other by exact Ha; now left ].
  destruct (velocity_of (deque_append 8 (get (angle_history (counter s)) arm) angle))
    as [v|] eqn:Hv.
  - right.
    destruct (process_rep_advice draw (counter s) arm angle (get (arm_metrics s) arm)
                t (history s) v Hv) as (m1 & _ & Heq).
    fold r in Heq. apply (f_equal fst) in Heq. simpl in Heq. rewrite Heq.
    pose proof (process_rep_settings draw (counter s) arm angle
                  (get (arm_metrics s) arm) t (history s)) as (_ & _ & _ & Hcomp & _).
    fold r in Hcomp.
    assert (Hvoc : vocabulary (fst (fst r)) = vocabulary (counter s))
      by (unfold vocabulary; now rewrite <- Hcomp).
    rewrite <- Hvoc. apply provide_form_feedback_vocabulary. rewrite Hvoc. apply Hcc.
  - left. subst r. rewrite process_rep_skipped by exact Hv. reflexivity.
Qed.

(** X11.  From a counter whose list of compliments is not empty and whose
    stored compliments are strings of its vocabulary (the four warnings,
    "Maintain Form" and the compliments), as a constructed counter is: along
    any run every stored compliment stays in the vocabulary, and the
    feedback of an arm is either still its initial value or a string of the
    vocabulary. *)
Theorem feedback_stays_in_vocabulary :
  forall draws s calls,
    compliments (counter s) <> [] ->
    (forall a, In (get (current_compliment (counter s)) a) (vocabulary (counter s))) ->
    forall a,
      In (get (current_compliment (counter (run draws s calls))) a)
         (vocabulary (counter s)) /\
      (feedback (get (arm_metrics (run draws s calls)) a)
         = feedback (get (arm_metrics s) a) \/
       In (feedback (get (arm_metrics (run draws s calls)) a)) (vocabulary (counter s))).
Proof.
  intros draws s calls. revert draws s.
  induction calls as [|c calls IH]; intros draws s Hne Hj a; simpl.
  - split; [ apply Hj | now left ].
  - pose proof (step_settings (draws O) s c) as (_ & _ & _ & Hcomp & _).
    assert (Hvoc : vocabulary (counter (step (draws O) s c)) = vocabulary (counter s))
      by (unfold vocabulary; now rewrite <- Hcomp).
    pose proof (step_vocabulary (draws O) s c Hne Hj) as Hstep.
    assert (Hne' : compliments (counter (step (draws O) s c)) <> [])
      by (rewrite <- Hcomp; exact Hne).
    assert (Hj' : forall b, In (get (current_compliment (counter (step (draws O) s c))) b)
                               (vocabulary (counter (step (draws O) s c))))
      by (intros b; rewrite Hvoc; apply Hstep).
    destruct (IH (later draws) (step (draws O) s c) Hne' Hj' a) as [H1 H2].
    rewrite Hvoc in H1, H2. split; [ exact H1 | ].
    destruct H2 as [H2 | H2]; [ | now right ].
    rewrite H2. apply Hstep.
Qed.

(** A fresh session has "Maintain Form" stored for both arms; after
    [one_rep_calls] the feedback of the right arm is a string of the
    vocabulary. *)
Lemma feedback_stays_in_vocabulary_witness :
  In (feedback (get (arm_metrics
                       (run (fun _ => 3%nat)
                            (fresh_session scenario_calibration default_min_rep_duration)
                            one_rep_calls)) RIGHT))
     (vocabulary (counter (fresh_session scenario_calibration default_min_rep_duration))).
Proof.
  assert (Hne : compliments
                  (counter (fresh_session scenario_calibration default_min_rep_duration))
                <> []) by discriminate.
  assert (Hj : forall a,
             In (get (current_compliment
                        (counter (fresh_session scenario_calibration
                                                default_min_rep_duration))) a)
                (vocabulary (counter (fresh_session scenario_calibration
                                                    default_min_rep_duration))))
    by (intros [|]; simpl; tauto).
  destruct (feedback_stays_in_vocabulary (fun _ => 3%nat)
              (fresh_session scenario_calibration default_min_rep_duration)
              one_rep_calls Hne Hj RIGHT) as [_ [H | H]].
  - vm_compute in H. discriminate.
  - exact H.
Defined.

(** ** Starting from an empty buffer *)

Lemma set_set_same {T} (d : PerArm T) arm v w : set (set d arm v) arm w = set d arm w.
Proof. now destruct arm. Qed.

(** X12.  From an empty buffer, as after construction or [reset_arm], the
    first three calls for the arm only store their angle and fill the
    buffer: stage, pending candidate, rep statistics, feedback and history
    are untouched.  The fourth is the first to be classified, with the
    velocity [|a4 - a1| / 3]: no sample from before the reset enters it. *)
Theorem empty_buffer_needs_four_samples :
  forall d1 d2 d3 self arm a1 a2 a3 metrics t1 t2 t3 history,
    get (angle_history self) arm = [] ->
    let r1 := process_rep d1 self arm a1 metrics t1 history in
    let r2 := process_rep d2 (fst (fst r1)) arm a2 (snd (fst r1)) t2 (snd r1) in
    let r3 := process_rep d3 (fst (fst r2)) arm a3 (snd (fst r2)) t3 (snd r2) in
    r3 = (set_angle_history self (set (angle_history self) arm [a1; a2; a3]),
          set_angle metrics a3, history) /\
    forall a4,
      velocity_of (deque_append 8 (get (angle_history (fst (fst r3))) arm) a4)
      = Some (Qabs (a4 - a1) / 3).
Proof.
  intros d1 d2 d3 self arm a1 a2 a3 metrics t1 t2 t3 history Hb r1 r2 r3.
  assert (H1 : r1 = (set_angle_history self (set (angle_history self) arm [a1]),
                     set_angle metrics a1, history)).
  { subst r1. rewrite process_rep_skipped; rewrite Hb; reflexivity. }
  assert (H2 : r2 = (set_angle_history self (set (angle_history self) arm [a1; a2]),
                     set_angle metrics a2, history)).
  { subst r2. rewrite H1. simpl fst. simpl snd.
    rewrite process_rep_skipped; simpl angle_history; rewrite get_set_same;
      [ | reflexivity ].
    rewrite set_set_same. reflexivity. }
  assert (H3 : r3 = (set_angle_history self (set (angle_history self) arm [a1; a2; a3]),
                     set_angle metrics a3, history)).
  { subst r3. rewrite H2. simpl fst. simpl snd.
    rewrite process_rep_skipped; simpl angle_history; rewrite get_set_same;
      [ | reflexivity ].
    rewrite set_set_same. reflexivity. }
  split; [ exact H3 | ].
  intros a4. rewrite H3. simpl fst. simpl angle_history. rewrite get_set_same.
  reflexivity.
Qed.

(** After the rep of [one_rep_calls] the right arm is reset; the next three
    frames leave the rep counted and the stage where they were. *)
Lemma empty_buffer_needs_four_samples_witness :
  let s := step 0 (before_rep (fun _ => O)) (ProcessRep RIGHT 170 (9 # 10)) in
  let self := reset_arm (counter s) RIGHT in
  let m := get (arm_metrics s) RIGHT in
  process_rep 0
    (fst (fst (process_rep 0
       (fst (fst (process_rep 0 self RIGHT 100 m 1 (history s)))) RIGHT 90
       (snd (fst (process_rep 0 self RIGHT 100 m 1 (history s)))) (11 # 10)
       (snd (process_rep 0 self RIGHT 100 m 1 (history s))))))
    RIGHT 80
    (snd (fst (process_rep 0
       (fst (fst (process_rep 0 self RIGHT 100 m 1 (history s)))) RIGHT 90
       (snd (fst (process_rep 0 self RIGHT 100 m 1 (history s)))) (11 # 10)
       (snd (process_rep 0 self RIGHT 100 m 1 (history s))))))
    (12 # 10)
    (snd (process_rep 0
       (fst (fst (process_rep 0 self RIGHT 100 m 1 (history s)))) RIGHT 90
       (snd (fst (process_rep 0 self RIGHT 100 m 1 (history s)))) (11 # 10)
       (snd (process_rep 0 self RIGHT 100 m 1 (history s)))))
  = (set_angle_history self (set (angle_history self) RIGHT [100; 90; 80]),
     set_angle m 80, history s).
Proof.
  intros s self m.
  exact (proj1 (empty_buffer_needs_four_samples 0 0 0 self RIGHT 100 90 80 m
                  1 (11 # 10) (12 # 10) (history s) eq_refl)).
Defined.

(** ** Jitter inside the hysteresis band *)

Lemma target_stays_up self angle c e :
  c <= e -> angle < c + hysteresis_margin self ->
  _determine_target_state self angle c e UP = UP.
Proof.
  intros Hce Ha. unfold _determine_target_state.
  destruct (Qle_bool_spec angle (c - hysteresis_margin self)); [ reflexivity | ].
  destruct (Qgeb_spec angle (e + hysteresis_margin self)); [ lra | ].
  destruct (Qltb_spec angle (c + hysteresis_margin self)); [ reflexivity | tauto ].
Qed.

Lemma target_stays_down self angle c e :
  c <= e -> e - hysteresis_margin self < angle ->
  _determine_target_state self angle c e DOWN = DOWN.
Proof.
  intros Hce Ha. unfold _determine_target_state.
  destruct (Qle_bool_spec angle (c - hysteresis_margin self)); [ lra | ].
  destruct (Qgeb_spec angle (e + hysteresis_margin self)); [ reflexivity | ].
  destruct (Qgtb_spec angle (e - hysteresis_margin self)); [ reflexivity | tauto ].
Qed.

(** A call whose target is the committed stage writes neither the stage nor
    the rep statistics. *)
Lemma process_rep_same_target draw self arm angle metrics t history :
  _determine_target_state self angle (contracted_threshold (calibration self))
    (extended_threshold (calibration self)) (stage metrics) = stage metrics ->
  let m' := snd (fst (process_rep draw self arm angle metrics t history)) in
  stage m' = stage metrics /\ rep_count m' = rep_count metrics.
Proof.
  intros Ht m'. subst m'.
  destruct (process_rep_cases draw self arm angle metrics t history)
    as [((cur & fb & Hm & _) & _) | (v & _ & Hne & _)].
  - rewrite Hm. simpl. now split.
  - now elim Hne.
Qed.

Lemma run_keeps_stage (P : Q -> Prop) st arm calls :
  forall draws s,
    (forall angle, P angle ->
       _determine_target_state (counter s) angle
         (contracted_threshold (calibration (counter s)))
         (extended_threshold (calibration (counter s))) st = st) ->
    stage (get (arm_metrics s) arm) = st ->
    Forall (fun c => match c with
                     | ProcessRep a angle _ => a = arm -> P angle
                     | ResetArm _ => True
                     end) calls ->
    stage (get (arm_metrics (run draws s calls)) arm) = st /\
    rep_count (get (arm_metrics (run draws s calls)) arm)
      = rep_count (get (arm_metrics s) arm).
Proof.
  induction calls as [|c calls IH]; intros draws s Hcls Hst Hall; simpl.
  - now split.
  - apply Forall_cons_iff in Hall. destruct Hall as [Hc Hrest].
    pose proof (step_settings (draws O) s c) as (Hcal & _ & _ & _ & Hmar).
    assert (Hstep : stage (get (arm_metrics (step (draws O) s c)) arm) = st /\
                    rep_count (get (arm_metrics (step (draws O) s c)) arm)
                      = rep_count (get (arm_metrics s) arm)).
    { destruct c as [a angle t | a]; [ | simpl; now split ].
      rewrite step_process_rep. simpl arm_metrics.
      destruct (arm_eq_dec arm a) as [<- | Hne].
      - rewrite get_set_same. rewrite <- Hst.
        apply process_rep_same_target. rewrite Hst. apply Hcls. now apply Hc.
      - rewrite get_set_other by exact Hne. now split. }
    destruct Hstep as [Hs1 Hs2].
    destruct (IH (later draws) (step (draws O) s c)) as [H1 H2];
      [ | exact Hs1 | exact Hrest | split; [ exact H1 | congruence ] ].
    intros angle Hp. rewrite <- Hcal.
    rewrite (target_reads_margin_only _ (counter s)) by (symmetry; exact Hmar).
    now apply Hcls.
Qed.

(** X13.  Jitter inside the hysteresis band moves nothing.  With
    [contracted <= extended]: while every angle fed for an arm stays under
    [contracted + margin], an arm that is UP stays UP and its [rep_count]
    stays put, whatever the timestamps; while every angle stays over
    [extended - margin], an arm that is DOWN stays DOWN likewise.  Calls for
    the other arm and resets may be interleaved. *)
Theorem jitter_in_band_changes_nothing :
  forall draws s calls arm,
    let c := contracted_threshold (calibration (counter s)) in
    let e := extended_threshold (calibration (counter s)) in
    let m := hysteresis_margin (counter s) in
    c <= e ->
    (stage (get (arm_metrics s) arm) = UP -> angles_below arm (c + m) calls ->
     stage (get (arm_metrics (run draws s calls)) arm) = UP /\
     rep_count (get (arm_metrics (run draws s calls)) arm)
       = rep_count (get (arm_metrics s) arm)) /\
    (stage (get (arm_metrics s) arm) = DOWN -> angles_above arm (e - m) calls ->
     stage (get (arm_metrics (run draws s calls)) arm) = DOWN /\
     rep_count (get (arm_metrics (run draws s calls)) arm)
       = rep_count (get (arm_metrics s) arm)).
Proof.
  intros draws s calls arm c e m Hce. split.
  - intros Hst Hall.
    apply (run_keeps_stage (fun angle => angle < c + m) UP arm calls draws s);
      [ | exact Hst | exact Hall ].
    intros angle Ha. now apply target_stays_up.
  - intros Hst Hall.
    apply (run_keeps_stage (fun angle => e - m < angle) DOWN arm calls draws s);
      [ | exact Hst | exact Hall ].
    intros angle Ha. now apply target_stays_down.
Qed.

(** The arm is UP after the fifth frame of [one_rep_calls]; frames wobbling
    between 36 and 44 degrees, a reset of the other arm among them, keep it
    UP with no rep counted. *)
Lemma jitter_in_band_changes_nothing_witness :
  stage (get (arm_metrics
                (run (fun _ => O) after_up
                     [ ProcessRep RIGHT 44 (6 # 10); ProcessRep RIGHT 36 (7 # 10);
                       ResetArm LEFT; ProcessRep RIGHT 43 (9 # 10);
                       ProcessRep RIGHT 37 1; ProcessRep RIGHT 44 2 ])) RIGHT) = UP.
Proof.
  assert (Hce : contracted_threshold (calibration (counter after_up))
                <= extended_threshold (calibration (counter after_up)))
    by (apply Qle_bool_iff; reflexivity).
  refine (proj1 (proj1 (jitter_in_band_changes_nothing (fun _ => O) after_up
                          [ ProcessRep RIGHT 44 (6 # 10); ProcessRep RIGHT 36 (7 # 10);
                            ResetArm LEFT; ProcessRep RIGHT 43 (9 # 10);
                            ProcessRep RIGHT 37 1; ProcessRep RIGHT 44 2 ]
                          RIGHT Hce) eq_refl _)).
  unfold angles_below.
  repeat (constructor; [ try exact I; intros _; reflexivity | ]).
  constructor.
Defined.

(** ** The two arms *)

Lemma confirm_state_other_arm draw self arm prev target v metrics t other :
  other <> arm ->
  let self' := fst (confirm_state draw self arm prev target v metrics t) in
  get (angle_history self') other = get (angle_history self) other /\
  get (pending_state self') other = get (pending_state self) other /\
  get (pending_state_start self') other = get (pending_state_start self) other /\
  get (rep_start_time self') other = get (rep_start_time self) other /\
  get (last_rep_time self') other = get (last_rep_time self) other /\
  get (current_compliment self') other = get (current_compliment self) other.
Proof.
  intros Ho self'. subst self'. unfold confirm_state, _handle_state_transition.
  repeat match goal with |- context [if ?b then _ else _] => destruct b end;
    simpl; rewrite ?get_set_other by exact Ho; repeat split.
Qed.

Lemma process_rep_other_arm draw self arm angle metrics t history other :
  other <> arm ->
  let self' := fst (fst (process_rep draw self arm angle metrics t history)) in
  get (angle_history self') other = get (angle_history self) other /\
  get (pending_state self') other = get (pending_state self) other /\
  get (pending_state_start self') other = get (pending_state_start self) other /\
  get (rep_start_time self') other = get (rep_start_time self) other /\
  get (last_rep_time self') other = get (last_rep_time self) other /\
  get (current_compliment self') other = get (current_compliment self) other.
Proof.
  intros Ho self'. subst self'.
  destruct (velocity_of (deque_append 8 (get (angle_history self) arm) angle))
    as [v|] eqn:Hv.
  - destruct (process_rep_confirmed draw self arm angle metrics t history v Hv)
      as (-> & _).
    match goal with |- context [confirm_state ?d ?s ?a ?p ?tg ?v ?m ?t] =>
      destruct (confirm_state_other_arm d s a p tg v m t other Ho)
        as (H1 & H2 & H3 & H4 & H5 & H6) end.
    rewrite H1, H2, H3, H4, H5, H6. simpl.
    rewrite get_set_other by exact Ho. repeat split.
  - rewrite process_rep_skipped by exact Hv. simpl.
    rewrite get_set_other by exact Ho. repeat split.
Qed.

(** X14.  A call of [process_rep] for one arm leaves everything of the other
    arm as it was: its buffer, pending candidate and timestamps, stored
    compliment, metrics record and history counter. *)
Theorem process_rep_leaves_other_arm :
  forall draw s arm angle t other,
    other <> arm ->
    let s' := step draw s (ProcessRep arm angle t) in
    get (angle_history (counter s')) other = get (angle_history (counter s)) other /\
    get (pending_state (counter s')) other = get (pending_state (counter s)) other /\
    get (pending_state_start (counter s')) other
      = get (pending_state_start (counter s)) other /\
    get (rep_start_time (counter s')) other = get (rep_start_time (counter s)) other /\
    get (last_rep_time (counter s')) other = get (last_rep_time (counter s)) other /\
    get (current_compliment (counter s')) other
      = get (current_compliment (counter s)) other /\
    get (arm_metrics s') other = get (arm_metrics s) other /\
    getattr_feedback_count (history s') other
      = getattr_feedback_count (history s) other.
Proof.
  intros draw s arm angle t other Ho s'. subst s'.
  rewrite step_process_rep. simpl counter. simpl arm_metrics. simpl history.
  destruct (process_rep_other_arm draw (counter s) arm angle
              (get (arm_metrics s) arm) t (history s) other Ho)
    as (H1 & H2 & H3 & H4 & H5 & H6).
  repeat (split; [ assumption | ]).
  split; [ now apply get_set_other | ].
  destruct (process_rep_history draw (counter s) arm angle (get (arm_metrics s) arm)
              t (history s)) as [-> | ->];
    [ reflexivity | now apply getattr_bump_other ].
Qed.

(** The last frame of [one_rep_calls] is for the right arm: the left arm's
    metrics are those of a fresh record still. *)
Lemma process_rep_leaves_other_arm_witness :
  get (arm_metrics (step 0 (before_rep (fun _ => O)) (ProcessRep RIGHT 170 (9 # 10))))
      LEFT
  = get (arm_metrics (before_rep (fun _ => O))) LEFT.
Proof.
  assert (Ho : LEFT <> RIGHT) by discriminate.
  pose proof (process_rep_leaves_other_arm 0 (before_rep (fun _ => O)) RIGHT 170
                (9 # 10) LEFT Ho) as (_ & _ & _ & _ & _ & _ & H & _).
  exact H.
Defined.

(** *** Calls for different arms commute *)

Lemma handle_state_transition_graft draw self donor arm other prev new metrics t :
  other <> arm ->
  _handle_state_transition draw (graft other self donor) arm prev new metrics t
  = (graft other (fst (_handle_state_transition draw self arm prev new metrics t)) donor,
     snd (_handle_state_transition draw self arm prev new metrics t)).
Proof.
  intros Ho. unfold _handle_state_transition.
  destruct arm, other; try congruence; simpl;
    repeat match goal with |- context [if ?b then _ else _] => destruct b end;
    reflexivity.
Qed.

Lemma confirm_state_graft draw self donor arm other prev target v metrics t :
  other <> arm ->
  confirm_state draw (graft other self donor) arm prev target v metrics t
  = (graft other (fst (confirm_state draw self arm prev target v metrics t)) donor,
     snd (confirm_state draw self arm prev target v metrics t)).
Proof.
  intros Ho. unfold confirm_state.
  assert (Hp : get (pending_state (graft other self donor)) arm
               = get (pending_state self) arm)
    by (simpl; now apply get_set_other; congruence).
  assert (Hs : get (pending_state_start (graft other self donor)) arm
               = get (pending_state_start self) arm)
    by (simpl; now apply get_set_other; congruence).
  rewrite Hp, Hs. simpl state_hold_time.
  destruct (negb (stage_eqb target prev)).
  - destruct (pending_is (get (pending_state self) arm) target).
    + destruct (Qgeb _ _ && Qltb v 15).
      * now apply handle_state_transition_graft.
      * reflexivity || (destruct arm, other; try congruence; reflexivity).
    + destruct arm, other; try congruence; reflexivity.
  - destruct arm, other; try congruence; reflexivity.
Qed.

Lemma provide_form_feedback_graft self donor other angle metrics c e arm history v t :
  other <> arm ->
  _provide_form_feedback (graft other self donor) angle metrics c e arm history v t
  = _provide_form_feedback self angle metrics c e arm history v t.
Proof.
  intros Ho. unfold _provide_form_feedback. simpl.
  now rewrite !get_set_other by congruence.
Qed.

Lemma process_rep_classified_graft draw self donor arm other angle metrics t history v :
  other <> arm ->
  process_rep_classified draw (graft other self donor) arm angle metrics t history v
  = (graft other
       (fst (fst (process_rep_classified draw self arm angle metrics t history v)))
       donor,
     snd (fst (process_rep_classified draw self arm angle metrics t history v)),
     snd (process_rep_classified draw self arm angle metrics t history v)).
Proof.
  intros Ho. rewrite !process_rep_classified_stages. cbv zeta.
  simpl calibration.
  change (_determine_target_state (graft other self donor))
    with (_determine_target_state self).
  rewrite confirm_state_graft by exact Ho. simpl fst. simpl snd.
  rewrite provide_form_feedback_graft by exact Ho.
  simpl rep_start_time. rewrite get_set_other by congruence.
  reflexivity.
Qed.

Lemma process_rep_graft draw self donor arm other angle metrics t history :
  other <> arm ->
  process_rep draw (graft other self donor) arm angle metrics t history
  = (graft other (fst (fst (process_rep draw self arm angle metrics t history))) donor,
     snd (fst (process_rep draw self arm angle metrics t history)),
     snd (process_rep draw self arm angle metrics t history)).
Proof.
  intros Ho.
  assert (Hb : get (angle_history (graft other self donor)) arm
               = get (angle_history self) arm)
    by (simpl; apply get_set_other; congruence).
  set (buffer := deque_append 8 (get (angle_history self) arm) angle).
  assert (Hg : set_angle_history (graft other self donor)
                 (set (angle_history (graft other self donor)) arm buffer)
               = graft other
                   (set_angle_history self (set (angle_history self) arm buffer))
                   donor)
    by (destruct arm, other; try congruence; reflexivity).
  destruct (velocity_of buffer) as [v|] eqn:Hv.
  - rewrite (process_rep_processed draw self arm angle metrics t history v Hv).
    rewrite (process_rep_processed draw (graft other self donor) arm angle metrics t
               history v) by (rewrite Hb; exact Hv).
    rewrite Hb. fold buffer. rewrite Hg.
    now apply process_rep_classified_graft.
  - rewrite (process_rep_skipped draw self arm angle metrics t history Hv).
    rewrite (process_rep_skipped draw (graft other self donor) arm angle metrics t
               history) by (rewrite Hb; exact Hv).
    rewrite Hb. fold buffer. rewrite Hg. reflexivity.
Qed.

Lemma per_arm_ext {T} (d1 d2 : PerArm T) :
  get d1 RIGHT = get d2 RIGHT -> get d1 LEFT = get d2 LEFT -> d1 = d2.
Proof. destruct d1, d2. simpl. now intros -> ->. Qed.

Lemma counter_ext a b :
  same_settings a b -> same_entries RIGHT a b -> same_entries LEFT a b -> a = b.
Proof.
  intros (H1 & H2 & H3 & H4 & H5) (R1 & R2 & R3 & R4 & R5 & R6)
         (L1 & L2 & L3 & L4 & L5 & L6).
  destruct a, b. simpl in *. subst.
  f_equal; now apply per_arm_ext.
Qed.

Lemma set_set_other {T} (d : PerArm T) a b v w :
  a <> b -> set (set d a v) b w = set (set d b w) a v.
Proof. destruct a, b; try congruence; reflexivity. Qed.

Lemma bump_bump_other h a b :
  bump_feedback_count (bump_feedback_count h a) b
  = bump_feedback_count (bump_feedback_count h b) a.
Proof. destruct a, b; reflexivity. Qed.

(** The history is only counted in: it decides nothing, and the call adds
    one to the arm's counter or nothing, whatever the counters hold. *)
Lemma provide_form_feedback_history_free self angle metrics c e arm h1 h2 v t :
  fst (_provide_form_feedback self angle metrics c e arm h1 v t)
  = fst (_provide_form_feedback self angle metrics c e arm h2 v t) /\
  (snd (_provide_form_feedback self angle metrics c e arm h1 v t) = h1 /\
   snd (_provide_form_feedback self angle metrics c e arm h2 v t) = h2
   \/
   snd (_provide_form_feedback self angle metrics c e arm h1 v t)
     = bump_feedback_count h1 arm /\
   snd (_provide_form_feedback self angle metrics c e arm h2 v t)
     = bump_feedback_count h2 arm).
Proof.
  unfold _provide_form_feedback.
  repeat match goal with |- context [if ?b then _ else _] => destruct b end;
    simpl; split; auto.
Qed.

Lemma process_rep_history_free draw self arm angle metrics t h1 h2 :
  fst (process_rep draw self arm angle metrics t h1)
  = fst (process_rep draw self arm angle metrics t h2) /\
  (snd (process_rep draw self arm angle metrics t h1) = h1 /\
   snd (process_rep draw self arm angle metrics t h2) = h2
   \/
   snd (process_rep draw self arm angle metrics t h1) = bump_feedback_count h1 arm /\
   snd (process_rep draw self arm angle metrics t h2) = bump_feedback_count h2 arm).
Proof.
  destruct (velocity_of (deque_append 8 (get (angle_history self) arm) angle))
    as [v|] eqn:Hv.
  - rewrite !(process_rep_processed _ _ _ _ _ _ _ v Hv).
    rewrite !process_rep_classified_stages. cbv zeta. simpl fst. simpl snd.
    match goal with
    | |- context [_provide_form_feedback ?s ?a ?m ?c ?e ?arm h1 ?v ?t] =>
        destruct (provide_form_feedback_history_free s a m c e arm h1 h2 v t)
          as [Hf Hh]
    end.
    rewrite Hf. split; [ reflexivity | exact Hh ].
  - rewrite !process_rep_skipped by exact Hv. simpl. auto.
Qed.

Lemma graft_entries_donor other self donor : same_entries other (graft other self donor) donor.
Proof. unfold same_entries. simpl. rewrite !get_set_same. repeat split. Qed.

Lemma graft_entries_self other self donor a :
  a <> other -> same_entries a (graft other self donor) self.
Proof.
  intros Ha. unfold same_entries. simpl. rewrite !get_set_other by exact Ha.
  repeat split.
Qed.

Lemma counter_ext_arms a b arm other :
  other <> arm ->
  same_settings a b -> same_entries arm a b -> same_entries other a b -> a = b.
Proof.
  intros Ho Hs Ha Hb.
  destruct arm, other; try congruence; now apply counter_ext.
Qed.

(** The counter a call leaves is the one it found, with the entries of the
    call's arm replaced. *)
Lemma process_rep_is_graft draw self arm angle metrics t history :
  fst (fst (process_rep draw self arm angle metrics t history))
  = graft arm self (fst (fst (process_rep draw self arm angle metrics t history))).
Proof.
  set (self' := fst (fst (process_rep draw self arm angle metrics t history))).
  assert (Hs : same_settings self self')
    by apply (process_rep_settings draw self arm angle metrics t history).
  assert (Ho : forall other, other <> arm -> same_entries other self' self)
    by (intros other H;
        apply (process_rep_other_arm draw self arm angle metrics t history other H)).
  destruct arm.
  - apply (counter_ext_arms _ _ RIGHT LEFT); [ discriminate | | | ].
    + unfold same_settings in *. simpl. intuition congruence.
    + unfold same_entries. simpl. repeat split.
    + destruct (Ho LEFT) as (H1 & H2 & H3 & H4 & H5 & H6); [ discriminate | ].
      unfold same_entries. simpl. repeat split; assumption.
  - apply (counter_ext_arms _ _ LEFT RIGHT); [ discriminate | | | ].
    + unfold same_settings in *. simpl. intuition congruence.
    + unfold same_entries. simpl. repeat split.
    + destruct (Ho RIGHT) as (H1 & H2 & H3 & H4 & H5 & H6); [ discriminate | ].
      unfold same_entries. simpl. repeat split; assumption.
Qed.

(** A call for [other] made after a call for [arm] does to its own arm what
    it would have done before it. *)
Lemma process_rep_after_other d1 d2 self arm other a1 a2 m1 m2 t1 t2 h :
  other <> arm ->
  let rA := process_rep d1 self arm a1 m1 t1 h in
  let rB := process_rep d2 self other a2 m2 t2 h in
  let rAB := process_rep d2 (fst (fst rA)) other a2 m2 t2 (snd rA) in
  fst (fst rAB) = graft arm (fst (fst rB)) (fst (fst rA)) /\
  snd (fst rAB) = snd (fst rB) /\
  (snd rB = h /\ snd rAB = snd rA \/
   snd rB = bump_feedback_count h other /\
   snd rAB = bump_feedback_count (snd rA) other).
Proof.
  intros Ho rA rB rAB.
  assert (E : rAB = process_rep d2 (graft arm self (fst (fst rA))) other a2 m2 t2
                      (snd rA)).
  { subst rAB. f_equal. apply (process_rep_is_graft d1 self arm a1 m1 t1 h). }
  rewrite E. clear E rAB.
  rewrite process_rep_graft by congruence. simpl fst. simpl snd.
  destruct (process_rep_history_free d2 self other a2 m2 t2 (snd rA) h) as [Hf Hh].
  fold rB in Hf, Hh. rewrite Hf.
  split; [ reflexivity | ]. split; [ reflexivity | ].
  destruct Hh as [[H1 H2] | [H1 H2]]; [ left | right ]; now split.
Qed.

(** X15.  Calls for different arms commute: processing a sample of one arm
    and then a sample of the other leaves the same session, counter, metrics
    and history alike, as processing them in the other order, each call
    keeping its own timestamp and its own draw. *)
Theorem calls_for_different_arms_commute :
  forall d1 d2 s arm other a1 t1 a2 t2,
    other <> arm ->
    step d2 (step d1 s (ProcessRep arm a1 t1)) (ProcessRep other a2 t2)
    = step d1 (step d2 s (ProcessRep other a2 t2)) (ProcessRep arm a1 t1).
Proof.
  intros d1 d2 s arm other a1 t1 a2 t2 Ho.
  assert (Ho' : arm <> other) by congruence.
  rewrite !step_process_rep. simpl counter. simpl arm_metrics. simpl history.
  rewrite (get_set_other (arm_metrics s) arm other) by exact Ho.
  rewrite (get_set_other (arm_metrics s) other arm) by exact Ho'.
  set (rA := process_rep d1 (counter s) arm a1 (get (arm_metrics s) arm) t1 (history s)).
  set (rB := process_rep d2 (counter s) other a2 (get (arm_metrics s) other) t2
               (history s)).
  destruct (process_rep_after_other d1 d2 (counter s) arm other a1 a2
              (get (arm_metrics s) arm) (get (arm_metrics s) other) t1 t2 (history s) Ho)
    as (Hc1 & Hm1 & Hh1).
  destruct (process_rep_after_other d2 d1 (counter s) other arm a2 a1
              (get (arm_metrics s) other) (get (arm_metrics s) arm) t2 t1 (history s) Ho')
    as (Hc2 & Hm2 & Hh2).
  fold rA rB in Hc1, Hm1, Hh1, Hc2, Hm2, Hh2.
  rewrite Hc1, Hm1, Hc2, Hm2.
  f_equal.
  - pose proof (process_rep_settings d1 (counter s) arm a1 (get (arm_metrics s) arm)
                  t1 (history s)) as HsA.
    pose proof (process_rep_settings d2 (counter s) other a2
                  (get (arm_metrics s) other) t2 (history s)) as HsB.
    fold rA in HsA. fold rB in HsB.
    apply (counter_ext_arms _ _ arm other Ho).
    + unfold same_settings in *. simpl. intuition congruence.
    + destruct (graft_entries_donor arm (fst (fst rB)) (fst (fst rA)))
        as (H1 & H2 & H3 & H4 & H5 & H6).
      destruct (graft_entries_self other (fst (fst rA)) (fst (fst rB)) arm Ho')
        as (G1 & G2 & G3 & G4 & G5 & G6).
      unfold same_entries. repeat split; congruence.
    + destruct (graft_entries_donor other (fst (fst rA)) (fst (fst rB)))
        as (H1 & H2 & H3 & H4 & H5 & H6).
      destruct (graft_entries_self arm (fst (fst rB)) (fst (fst rA)) other Ho)
        as (G1 & G2 & G3 & G4 & G5 & G6).
      unfold same_entries. repeat split; congruence.
  - now apply set_set_other.
  - destruct Hh1 as [[B1 B2] | [B1 B2]], Hh2 as [[A1 A2] | [A1 A2]];
      rewrite B2, A2; rewrite ?A1, ?B1; try reflexivity.
    apply bump_bump_other.
Qed.

(** A frame for the left arm and the last frame of [one_rep_calls] for the
    right arm, in both orders. *)
Lemma calls_for_different_arms_commute_witness :
  step 1 (step 0 (before_rep (fun _ => O)) (ProcessRep RIGHT 170 (9 # 10)))
       (ProcessRep LEFT 179 1)
  = step 0 (step 1 (before_rep (fun _ => O)) (ProcessRep LEFT 179 1))
         (ProcessRep RIGHT 170 (9 # 10)).
Proof.
  apply calls_for_different_arms_commute. discriminate.
Defined.

(** ** Debounce *)

(** One call for the arm, on a clock that has not run backwards since the
    last stage change at [T]: the stage stays, or it changes at least
    [state_hold_time] after [T]. *)
Lemma process_rep_debounce draw self arm angle metrics t history T :
  T <= t ->
  pending_not_before T arm self metrics ->
  let r := process_rep draw self arm angle metrics t history in
  (stage (snd (fst r)) = stage metrics /\
   pending_not_before T arm (fst (fst r)) (snd (fst r)))
  \/
  (stage (snd (fst r)) <> stage metrics /\
   state_hold_time self <= t - T /\
   pending_not_before t arm (fst (fst r)) (snd (fst r))).
Proof.
  intros HT Hinv r. subst r.
  destruct (velocity_of (deque_append 8 (get (angle_history self) arm) angle))
    as [v|] eqn:Hv.
  2:{ left. rewrite process_rep_skipped by exact Hv. simpl. split; [ reflexivity | ].
      exact Hinv. }
  destruct (process_rep_confirmed draw self arm angle metrics t history v Hv)
    as (Hs & cur & fb & Hm & _).
  rewrite Hs, Hm. clear Hs Hm. simpl stage.
  set (self0 := set_angle_history self _) in *.
  set (target := _determine_target_state self angle _ _ (stage metrics)) in *.
  assert (Hinv0 : pending_not_before T arm self0 metrics) by exact Hinv.
  destruct (stage_eqb_spec target (stage metrics)) as [He | Hne].
  - left. rewrite confirm_state_same by exact He. simpl.
    split; [ reflexivity | ].
    unfold pending_not_before. simpl. intros p Hp.
    rewrite get_set_same in Hp. discriminate.
  - destruct (get (pending_state self0) arm) as [p0|] eqn:Hp0.
    + destruct (stage_eqb_spec p0 target) as [-> | Hpt].
      * destruct (Qle_bool_spec (state_hold_time self0)
                    (t - get (pending_state_start self0) arm)) as [Hh | Hh].
        -- destruct (Qltb_spec v 15) as [Hlt | Hlt].
           ++ right. rewrite confirm_state_commit by assumption.
              rewrite handle_state_transition_stage.
              split; [ exact Hne | ].
              pose proof (Hinv0 target Hp0 Hne) as Hsince.
              split; [ change (state_hold_time self) with (state_hold_time self0); lra | ].
              unfold pending_not_before. simpl stage. intros p Hp Hps.
              rewrite handle_state_transition_stage in Hps.
              destruct (handle_state_transition_detection draw self0 arm
                          (stage metrics) target (set_angle metrics angle) t)
                as (_ & Hpend & _).
              rewrite Hpend, Hp0 in Hp. congruence.
           ++ left. rewrite confirm_state_wait by tauto. simpl.
              split; [ reflexivity | exact Hinv0 ].
        -- left. rewrite confirm_state_wait by tauto. simpl.
           split; [ reflexivity | exact Hinv0 ].
      * left. rewrite confirm_state_fresh by congruence. simpl.
        split; [ reflexivity | ].
        unfold pending_not_before. simpl. intros p Hp _.
        rewrite get_set_same. exact HT.
    + left. rewrite confirm_state_fresh by congruence. simpl.
      split; [ reflexivity | ].
      unfold pending_not_before. simpl. intros p Hp _.
      rewrite get_set_same. exact HT.
Qed.

Lemma run_debounce arm calls :
  forall draws s T t0,
    T <= t0 -> nondecreasing t0 calls ->
    pending_not_before T arm (counter s) (get (arm_metrics s) arm) ->
    spaced (state_hold_time (counter s)) T (stage_changed_at draws s calls arm).
Proof.
  induction calls as [|c calls IH]; intros draws s T t0 HT Hclock Hinv; simpl.
  - exact I.
  - pose proof (step_settings (draws O) s c) as (_ & _ & Hhold & _).
    destruct c as [a angle t | a].
    + simpl in Hclock. destruct Hclock as [Ht Hclock].
      assert (HTt : T <= t) by lra.
      destruct (arm_eq_dec arm a) as [<- | Hne].
      * pose proof (process_rep_debounce (draws O) (counter s) arm angle
                      (get (arm_metrics s) arm) t (history s) T HTt Hinv) as Hstep.
        cbv zeta in Hstep.
        assert (Hm : get (arm_metrics (step (draws O) s (ProcessRep arm angle t))) arm
                     = snd (fst (process_rep (draws O) (counter s) arm angle
                                   (get (arm_metrics s) arm) t (history s))))
          by (rewrite step_process_rep; simpl; apply get_set_same).
        assert (Hc : counter (step (draws O) s (ProcessRep arm angle t))
                     = fst (fst (process_rep (draws O) (counter s) arm angle
                                   (get (arm_metrics s) arm) t (history s))))
          by (rewrite step_process_rep; reflexivity).
        destruct Hstep as [(Hst & Hinv') | (Hst & Hgap & Hinv')].
        -- rewrite Hm, Hst, stage_eqb_refl. simpl. rewrite Hhold.
           apply (IH _ _ T t); [ exact HTt | exact Hclock | ].
           rewrite Hm, Hc. exact Hinv'.
        -- rewrite Hm.
           destruct (stage_eqb_spec (stage (get (arm_metrics s) arm))
                       (stage (snd (fst (process_rep (draws O) (counter s) arm angle
                                           (get (arm_metrics s) arm) t (history s))))))
             as [E | _]; [ now elim Hst | ].
           simpl. split; [ exact Hgap | ]. rewrite Hhold.
           apply (IH _ _ t t); [ apply Qle_refl | exact Hclock | ].
           rewrite Hm, Hc. exact Hinv'.
      * assert (Hm : get (arm_metrics (step (draws O) s (ProcessRep a angle t))) arm
                     = get (arm_metrics s) arm)
          by (rewrite step_process_rep; simpl; now apply get_set_other).
        rewrite Hm, stage_eqb_refl. simpl. rewrite Hhold.
        apply (IH _ _ T t); [ exact HTt | exact Hclock | ].
        rewrite Hm. rewrite step_process_rep. simpl counter.
        destruct (process_rep_other_arm (draws O) (counter s) a angle
                    (get (arm_metrics s) a) t (history s) arm Hne)
          as (_ & Hp & Hps & _).
        unfold pending_not_before in *. rewrite Hp, Hps. exact Hinv.
    + simpl in Hclock. simpl arm_metrics. rewrite stage_eqb_refl. simpl.
      rewrite Hhold.
      apply (IH _ _ T t0); [ exact HT | exact Hclock | ].
      simpl. unfold pending_not_before in *. simpl.
      destruct (arm_eq_dec arm a) as [<- | Hne].
      * rewrite get_set_same. intros p Hp. discriminate.
      * rewrite !get_set_other by exact Hne. exact Hinv.
Qed.

(** X16.  Debounce.  On a clock that never runs backwards, starting with no
    candidate pending for the arm, two changes of the arm's stage are at
    least [state_hold_time] apart, and the first comes at least that long
    after the start of the run. *)
Theorem stage_changes_are_debounced :
  forall draws s calls arm t0,
    get (pending_state (counter s)) arm = None ->
    nondecreasing t0 calls ->
    spaced (state_hold_time (counter s)) t0 (stage_changed_at draws s calls arm).
Proof.
  intros draws s calls arm t0 Hp Hclock.
  apply (run_debounce arm calls draws s t0 t0); [ apply Qle_refl | exact Hclock | ].
  intros p Hq. rewrite Hp in Hq. discriminate.
Qed.

(** [one_rep_calls] on a fresh session: the stage changes at 0.5 and at
    0.9. *)
Lemma stage_changes_are_debounced_witness :
  spaced (state_hold_time
            (counter (fresh_session scenario_calibration default_min_rep_duration)))
         0
         (stage_changed_at (fun _ => O)
            (fresh_session scenario_calibration default_min_rep_duration)
            one_rep_calls RIGHT).
Proof.
  apply (stage_changes_are_debounced (fun _ => O)
           (fresh_session scenario_calibration default_min_rep_duration)
           one_rep_calls RIGHT 0 eq_refl).
  simpl. repeat split; apply Qle_bool_iff; reflexivity.
Defined.

(** ** Reset and the other arm *)

Lemma reset_arm_is_graft self arm : reset_arm self arm = graft arm self (reset_arm self arm).
Proof.
  destruct self as [cal mrd ah sht ps pss rst [lr ll] [cr cl] comp hm].
  destruct arm; reflexivity.
Qed.

(** X17.  Resetting one arm commutes with processing a sample of the other:
    both orders leave the same session.  Resetting an arm twice is resetting
    it once. *)
Theorem reset_commutes_with_other_arm :
  forall d1 d2 s arm other angle t,
    other <> arm ->
    step d2 (step d1 s (ResetArm arm)) (ProcessRep other angle t)
    = step d1 (step d2 s (ProcessRep other angle t)) (ResetArm arm) /\
    reset_arm (reset_arm (counter s) arm) arm = reset_arm (counter s) arm.
Proof.
  intros d1 d2 s arm other angle t Ho. split.
  - rewrite !step_process_rep. simpl.
    rewrite reset_arm_is_graft.
    rewrite process_rep_graft by congruence. simpl fst. simpl snd.
    f_equal.
    set (r := process_rep d2 (counter s) other angle (get (arm_metrics s) other) t
                (history s)).
    destruct (process_rep_other_arm d2 (counter s) other angle
                (get (arm_metrics s) other) t (history s) arm)
      as (H1 & H2 & H3 & H4 & H5 & H6); [ congruence | ].
    fold r in H1, H2, H3, H4, H5, H6.
    apply (counter_ext_arms _ _ arm other Ho).
    + repeat split.
    + unfold same_entries, reset_arm. simpl. rewrite !get_set_same.
      repeat split; congruence.
    + unfold same_entries, reset_arm. simpl. rewrite !get_set_other by exact Ho.
      repeat split.
  - unfold reset_arm. destruct arm; reflexivity.
Qed.

(** The right arm is reset around the left arm's frame. *)
Lemma reset_commutes_with_other_arm_witness :
  step 0 (step 0 (before_rep (fun _ => O)) (ResetArm RIGHT)) (ProcessRep LEFT 90 1)
  = step 0 (step 0 (before_rep (fun _ => O)) (ProcessRep LEFT 90 1)) (ResetArm RIGHT).
Proof.
  apply (reset_commutes_with_other_arm 0 0 (before_rep (fun _ => O)) RIGHT LEFT 90 1).
  discriminate.
Defined.

(** ** A warning that lasts *)

Lemma process_rep_buffer draw self arm angle metrics t history :
  get (angle_history (fst (fst (process_rep draw self arm angle metrics t history)))) arm
  = deque_append 8 (get (angle_history self) arm) angle.
Proof.
  destruct (velocity_of (deque_append 8 (get (angle_history self) arm) angle))
    as [v|] eqn:Hv.
  - rewrite (process_rep_processed _ _ _ _ _ _ _ v Hv).
    rewrite process_rep_classified_angle_history. simpl. apply get_set_same.
  - rewrite process_rep_skipped by exact Hv. simpl. apply get_set_same.
Qed.

(** X18.  A safety warning is counted on every sample it lasts: with at
    least three samples buffered for an arm, a run of [process_rep] calls
    for that arm with angles over 178 adds the number of calls to the arm's
    history counter, and leaves "Over Extending" as feedback. *)
Theorem over_extension_counts_every_sample :
  forall draws s calls arm,
    (3 <= List.length (get (angle_history (counter s)) arm))%nat ->
    held_over arm 178 calls ->
    getattr_feedback_count (history (run draws s calls)) arm
      = (getattr_feedback_count (history s) arm + Z.of_nat (List.length calls))%Z /\
    (calls <> [] ->
     feedback (get (arm_metrics (run draws s calls)) arm) = "Over Extending"%string).
Proof.
  intros draws s calls arm. revert draws s.
  induction calls as [|c calls IH]; intros draws s Hlen Hall.
  - simpl. split; [ lia | congruence ].
  - apply Forall_cons_iff in Hall. destruct Hall as [Hc Hrest].
    destruct c as [a angle t | a]; [ | contradiction ].
    destruct Hc as [-> Hover].
    set (s' := step (draws O) s (ProcessRep arm angle t)).
    assert (Hv : exists v, velocity_of
                   (deque_append 8 (get (angle_history (counter s)) arm) angle)
                 = Some v).
    { apply velocity_of_length_some. rewrite deque_append_bound by lia. lia. }
    destruct Hv as [v Hv].
    destruct (process_rep_advice (draws O) (counter s) arm angle
                (get (arm_metrics s) arm) t (history s) v Hv) as (m1 & _ & Heq).
    rewrite advisor_over_extending in Heq by exact Hover.
    assert (Hh : history s' = bump_feedback_count (history s) arm).
    { subst s'. rewrite step_process_rep. simpl.
      now apply (f_equal snd) in Heq. }
    assert (Hf : feedback (get (arm_metrics s') arm) = "Over Extending"%string).
    { subst s'. rewrite step_process_rep. simpl. rewrite get_set_same.
      apply (f_equal fst) in Heq. simpl in Heq. now rewrite Heq. }
    assert (Hlen' : (3 <= List.length (get (angle_history (counter s')) arm))%nat).
    { subst s'. rewrite step_process_rep. simpl counter.
      rewrite process_rep_buffer, deque_append_bound by lia. lia. }
    destruct (IH (later draws) s' Hlen' Hrest) as [IH1 IH2].
    change (run draws s (ProcessRep arm angle t :: calls))
      with (run (later draws) s' calls).
    split.
    + rewrite IH1, Hh, getattr_bump_same. simpl List.length. lia.
    + intros _. destruct calls as [|c' calls'].
      * simpl. exact Hf.
      * apply IH2. discriminate.
Qed.

(** Scenario C on the session of [one_rep_calls]: three frames at 179
    degrees add three to the right arm's counter. *)
Lemma over_extension_counts_every_sample_witness :
  getattr_feedback_count
    (history (run (fun _ => O) (before_rep (fun _ => O))
                  [ ProcessRep RIGHT 179 1; ProcessRep RIGHT 179 (11 # 10);
                    ProcessRep RIGHT 179 (12 # 10) ])) RIGHT
  = (getattr_feedback_count (history (before_rep (fun _ => O))) RIGHT + 3)%Z.
Proof.
  refine (proj1 (over_extension_counts_every_sample (fun _ => O)
                   (before_rep (fun _ => O))
                   [ ProcessRep RIGHT 179 1; ProcessRep RIGHT 179 (11 # 10);
                     ProcessRep RIGHT 179 (12 # 10) ] RIGHT _ _)).
  - apply Nat.leb_le. vm_compute. reflexivity.
  - unfold held_over. repeat (constructor; [ split; reflexivity | ]). constructor.
Defined.
